(** * The unplugin core of pandabox: virtual ids, lazy context, hooks

    A shallow embedding of [packages/unplugin/src/plugin/core.ts].

    The plugin factory closes over four mutable cells ([options], [outfile],
    [_ctx], [initPromise]); its hooks are asynchronous functions that suspend
    on [await init()].  The embedding keeps the cells in a [World] record
    together with the host's observable state (file system, module graph,
    watcher), threads it through a small state-and-exception monad, and
    records every call to an external collaborator in a chronological log.

    Context objects live in a heap and are named by their address, so that
    "the same Context reference" is an equation between addresses. *)

From stdpp Require Import base option list strings gmap.
From Stdlib Require Import ZArith Ascii.

Local Open Scope string_scope.
Local Open Scope list_scope.

(** ** JavaScript idioms used by the source *)

(** [a ?? d] *)
Definition nullish {A} (a : option A) (d : A) : A := default d a.

(** Truthiness of a string: only the empty string is falsy. *)
Definition truthy_str (s : string) : bool := negb (String.eqb s "").

(** Truthiness of an optional string ([undefined] is falsy). *)
Definition truthy_ostr (s : option string) : bool :=
  match s with Some x => truthy_str x | None => false end.

(** [a || d] on an optional string. *)
Definition or_str (a : option string) (d : string) : string :=
  match a with Some x => if truthy_str x then x else d | None => d end.

(** ** Virtual module registry (core.ts, lines 15-27) *)

Module VirtualModuleId.
Record t := mk { id : string; resolved : string }.
End VirtualModuleId.

Definition createVirtualModuleId (id : string) : VirtualModuleId.t :=
  let base := "virtual:panda" +:+ id in
  {| VirtualModuleId.id := base;
     VirtualModuleId.resolved := String "000"%char base |}.

Module ids.
Definition css := createVirtualModuleId ".css".
Definition inlineCva := createVirtualModuleId "-inline-cva".
Definition compoundVariants := createVirtualModuleId "-compound-variants".
End ids.

(** The symbolic ids the registry knows. *)
Definition known_symbolic : list string :=
  [VirtualModuleId.id ids.css; VirtualModuleId.id ids.inlineCva;
   VirtualModuleId.id ids.compoundVariants].

(** The resolved id of the stylesheet, [ids.css.resolved]. *)
Definition virtual_css : string := VirtualModuleId.resolved ids.css.

(** The resolved ids of the two helper snippets. *)
Definition is_helper (id : string) : bool :=
  String.eqb id (VirtualModuleId.resolved ids.inlineCva)
  || String.eqb id (VirtualModuleId.resolved ids.compoundVariants).

(** ** Plugin options (core.ts, lines 29-60) *)

(** One entry of an [include]/[exclude] list: a glob string or a RegExp,
    kept by its source text. *)
Inductive Pattern :=
| PString (s : string)
| PRegExp (source : string).

Inductive FilterPattern :=
| FOne (p : Pattern)
| FMany (l : list Pattern).

(** Only the empty string is a falsy [FilterPattern]; RegExp objects and
    arrays (the empty array included) are truthy. *)
Definition truthy_filter (f : FilterPattern) : bool :=
  match f with
  | FOne (PString s) => truthy_str s
  | _ => true
  end.

(** A per-kind setting inside an [optimizeJs] object. *)
Inductive Matcher :=
| MStr (s : string)
| MBool (b : bool).

(** [optimizeJs]: a string such as ['auto'], a boolean, or an object whose
    own properties are kept in a finite map; a property that is present
    with the value [undefined] is mapped to [None]. *)
Inductive OptimizeJs :=
| OJStr (s : string)
| OJBool (b : bool)
| OJObj (o : gmap string (option Matcher)).

Definition truthy_optimizeJs (v : OptimizeJs) : bool :=
  match v with
  | OJStr s => truthy_str s
  | OJBool b => b
  | OJObj _ => true
  end.

(** What a transform callback (the user's, or the optimizer) hands back. *)
Inductive TransformResult :=
| TRNull
| TRString (s : string)
| TRObject (code : string) (map : option string).

(** The user callback receives [{ filePath, content }]. *)
Definition UserTransform := string -> string -> TransformResult.

(** [PandaPluginOptions]: every field optional. *)
Record PandaPluginOptions := {
  raw_cwd : option string;
  raw_configPath : option string;
  raw_outfile : option string;
  raw_include : option FilterPattern;
  raw_exclude : option FilterPattern;
  raw_optimizeCss : option bool;
  raw_optimizeJs : option OptimizeJs;
  raw_transform : option UserTransform
}.

(** [RequiredBy<PandaPluginOptions, 'cwd'>] as [resolveOptions] fills it. *)
Record Options := {
  cwd : string;
  configPath : option string;
  outfile_opt : option string;
  include : FilterPattern;
  exclude : FilterPattern;
  optimizeCss : bool;
  optimizeJs : OptimizeJs;
  transform_opt : option UserTransform
}.

Definition set_cwd (o : Options) (c : string) : Options :=
  {| cwd := c; configPath := configPath o; outfile_opt := outfile_opt o;
     include := include o; exclude := exclude o;
     optimizeCss := optimizeCss o; optimizeJs := optimizeJs o;
     transform_opt := transform_opt o |}.

(** ** resolveOptions (core.ts, lines 230-253) *)

Definition auto : Matcher := MStr "auto".

(** Property read [o.k] on an [optimizeJs] object. *)
Definition prop (o : gmap string (option Matcher)) (k : string) : option Matcher :=
  default None (o !! k).

(** The object literal of lines 233-241: six defaulted keys, then the
    spread [...optimizeJs], whose own properties win. *)
Definition normalizeObject (o : gmap string (option Matcher))
  : gmap string (option Matcher) :=
  o ∪ (<["css" := Some (nullish (prop o "css") auto)]>
       (<["cva" := Some (nullish (prop o "cva") auto)]>
       (<["pattern" := Some (nullish (prop o "cva") auto)]>
       (<["recipe" := Some (nullish (prop o "cva") auto)]>
       (<["jsx-factory" := Some (nullish (prop o "cva") auto)]>
       (<["jsx-pattern" := Some (nullish (prop o "cva") auto)]> ∅)))))).

(** The local variable [optimizeJs] after lines 231-242. *)
Definition local_optimizeJs (options : PandaPluginOptions) : OptimizeJs :=
  let optimizeJs := nullish (raw_optimizeJs options) (OJStr "auto") in
  match optimizeJs with
  | OJObj o => OJObj (normalizeObject o)
  | _ => optimizeJs
  end.

Definition default_include : FilterPattern := FMany [PRegExp "\.[cm]?[jt]sx?$"].
Definition default_exclude : FilterPattern :=
  FMany [PRegExp "node_modules"; PRegExp "styled-system"].

Definition or_filter (a : option FilterPattern) (d : FilterPattern) : FilterPattern :=
  match a with Some f => if truthy_filter f then f else d | None => d end.

Definition resolveOptions (options : PandaPluginOptions) : Options :=
  let optimizeJs := local_optimizeJs options in
  {| cwd := or_str (raw_cwd options) "";
     configPath := raw_configPath options;
     outfile_opt := raw_outfile options;
     include := or_filter (raw_include options) default_include;
     exclude := or_filter (raw_exclude options) default_exclude;
     optimizeCss := nullish (raw_optimizeCss options) true;
     optimizeJs := nullish (raw_optimizeJs options) (OJStr "auto");
     transform_opt := raw_transform options |}.

(** A resolved options object is itself a [PandaPluginOptions]
    ([RequiredBy] only makes [cwd] mandatory): the same object, every
    field present. *)
Definition as_raw (o : Options) : PandaPluginOptions :=
  {| raw_cwd := Some (cwd o);
     raw_configPath := configPath o;
     raw_outfile := outfile_opt o;
     raw_include := Some (include o);
     raw_exclude := Some (exclude o);
     raw_optimizeCss := Some (optimizeCss o);
     raw_optimizeJs := Some (optimizeJs o);
     raw_transform := transform_opt o |}.

(** ** Results and errors *)

Inductive Error :=
| ConfigError (msg : string)      (* [loadConfig] rejected *)
| NotInitialized                  (* '@pandabox/unplugin context not initialized' *)
| ReloadError (msg : string)      (* [ctx.reloadContext()] rejected *)
| WriteError (path : string)      (* [fs.writeFile] rejected *)
| CodegenError (msg : string)     (* [codegen] rejected *)
| BadRef.                         (* an address outside the heap; unreachable *)

Inductive Res (A : Type) :=
| Ok (a : A)
| Throw (e : Error).
Arguments Ok {A} a.
Arguments Throw {A} e.

(** ** The configuration snapshot and the context object *)

(** The fields of a [LoadConfigResult] that core.ts reads or writes. *)
Record UserConfig := {
  config_cwd : string;
  config_dependencies : option (list string)
}.

Record LoadConfigResult := {
  path : string;
  dependencies : option (list string);
  config : UserConfig
}.

(** Line 82: [conf.config.cwd = options.cwd]. *)
Definition assign_config_cwd (conf : LoadConfigResult) (c : string) : LoadConfigResult :=
  {| path := path conf; dependencies := dependencies conf;
     config := {| config_cwd := c;
                  config_dependencies := config_dependencies (config conf) |} |}.

(** [PandaPluginContext]: the engine handle [panda], the root and the
    [files] map from file id to the last recorded source text. *)
Record PandaPluginContext (P : Type) := mkContext {
  panda : P;
  root : string;
  files : gmap string string
}.
Arguments mkContext {P} _ _ _.
Arguments panda {P} _.
Arguments root {P} _.
Arguments files {P} _.

Definition set_panda {P} (c : PandaPluginContext P) (p : P) : PandaPluginContext P :=
  mkContext p (root c) (files c).

(** [ctx.files.set(id, code)] *)
Definition files_set {P} (c : PandaPluginContext P) (id code : string)
  : PandaPluginContext P :=
  mkContext (panda c) (root c) (<[id := code]> (files c)).

(** ** External collaborators

    Everything core.ts imports and calls: the style engine
    ([@pandacss/node], [../plugin/create-context], [./transform],
    [./cva-fns]), [./ensure-absolute], and the pieces of [node:path] and
    [node:fs/promises] it uses.  None of their code is part of core.ts;
    the development is parametric in them. *)
Record Engine := {
  Panda : Type;
  SourceFile : Type;
  ParserResult : Type;
  Sheet : Type;
  (** [createContext({ root, conf })] *)
  createContext : string -> LoadConfigResult -> PandaPluginContext Panda;
  (** [ctx.reloadContext()]: acts on the object it is a method of. *)
  reloadContext : PandaPluginContext Panda -> Res unit * PandaPluginContext Panda;
  (** [ctx.panda.createSheet()] and [ctx.toCss(sheet, options)] *)
  createSheet : Panda -> Sheet;
  toCss : PandaPluginContext Panda -> Sheet -> Options -> string;
  (** [panda.project.addSourceFile(id, code)] updates the registry. *)
  addSourceFile : Panda -> string -> string -> SourceFile * Panda;
  (** [panda.project.parseSourceFile(id)], [parserResult.isEmpty()] *)
  parseSourceFile : Panda -> string -> option ParserResult;
  isEmpty : ParserResult -> bool;
  (** [tranformPanda(ctx, { code, id, sourceFile, parserResult, optimizeJs })] *)
  tranformPanda : PandaPluginContext Panda -> string -> string -> SourceFile ->
                  ParserResult -> OptimizeJs -> TransformResult;
  (** [panda.conf] and [panda.config] *)
  panda_conf : Panda -> LoadConfigResult;
  panda_config : Panda -> UserConfig;
  (** [codegen(ctx.panda)]: its message, or a rejection; what it writes
      into the output directory is not part of [fs] below. *)
  codegen : Panda -> Res string;
  (** [ensureAbsolute(path, root)] and [path.dirname] *)
  ensureAbsolute : string -> string -> string;
  dirname : string -> string;
  (** [inlineCva.toString()] and [addCompoundVariantCss.toString()] *)
  inlineCva_toString : string;
  addCompoundVariantCss_toString : string;
  (** whether [fs.writeFile] to a path succeeds *)
  writable : string -> bool
}.

(** ** The world: closure cells, heap, scheduler, host *)

Definition CtxRef := nat.

(** State of the promise stored in [initPromise]. *)
Inductive Promise :=
| Pending
| Fulfilled
| Rejected (e : Error).

(** Calls that leave the plugin, in the order they happen. *)
Inductive Event :=
| EvLoadConfig (cwd : string) (file : option string)
| EvCreateContext (r : CtxRef)
| EvUserTransform (filePath content : string)
| EvAddSourceFile (r : CtxRef) (id code : string)
| EvCreateSheet (r : CtxRef)
| EvWriteFile (path text : string)
| EvCodegen (r : CtxRef)
| EvReload (r : CtxRef)
| EvInvalidate (id : string) (timestamp : Z)
| EvOptimize (id : string).

(** What a hook hands back to the host. *)
Inductive Value :=
| VUndefined
| VCtx (r : CtxRef)
| VText (s : string)
| VTransform (t : TransformResult).

(** The rest of an async hook after [await getCtx()]. *)
Inductive Cont :=
| KGetCtx
| KLoad
| KTransform (code id : string)
| KConfigureServer
| KHandleHotUpdate (file : string) (timestamp : Z).

(** A hook invocation by the host ([HGetCtx] is a bare [getCtx()]). *)
Inductive Hook :=
| HGetCtx
| HResolveId (id : string)
| HLoad (id : string)
| HTransform (code id : string)
| HConfigResolved (configFile : option string) (root : string)
| HConfigureServer
| HHandleHotUpdate (file : string) (timestamp : Z).

(** A synchronous prefix either returns or suspends on [getCtx]. *)
Inductive Suspension :=
| Return (v : Value)
| Await (k : Cont).

Section Plugin.
Context {E : Engine}.

Definition Ctx := PandaPluginContext (Panda E).

Record World := mkWorld {
  (** cells of the factory closure (lines 63-68) *)
  options : Options;
  outfile : string;
  _ctx : option CtxRef;
  initPromise : option Promise;
  (** context objects by address *)
  heap : list Ctx;
  (** callers suspended on [initPromise], first come first; finished calls *)
  waiting : list (nat * Cont);
  settled : list (nat * Res Value);
  (** host: disk, module ids in the graph, watched files, and the
      'change' listeners, each closing over its [ctx] and [sources] *)
  fs : gmap string string;
  moduleGraph : gset string;
  watcher : gset string;
  onChange : list (CtxRef * gset string);
  log : list Event
}.

Definition set_options (w : World) (x : Options) : World :=
  mkWorld x (outfile w) (_ctx w) (initPromise w) (heap w) (waiting w)
          (settled w) (fs w) (moduleGraph w) (watcher w) (onChange w) (log w).
Definition set_outfile (w : World) (x : string) : World :=
  mkWorld (options w) x (_ctx w) (initPromise w) (heap w) (waiting w)
          (settled w) (fs w) (moduleGraph w) (watcher w) (onChange w) (log w).
Definition set__ctx (w : World) (x : option CtxRef) : World :=
  mkWorld (options w) (outfile w) x (initPromise w) (heap w) (waiting w)
          (settled w) (fs w) (moduleGraph w) (watcher w) (onChange w) (log w).
Definition set_initPromise (w : World) (x : option Promise) : World :=
  mkWorld (options w) (outfile w) (_ctx w) x (heap w) (waiting w)
          (settled w) (fs w) (moduleGraph w) (watcher w) (onChange w) (log w).
Definition set_heap (w : World) (x : list Ctx) : World :=
  mkWorld (options w) (outfile w) (_ctx w) (initPromise w) x (waiting w)
          (settled w) (fs w) (moduleGraph w) (watcher w) (onChange w) (log w).
Definition set_waiting (w : World) (x : list (nat * Cont)) : World :=
  mkWorld (options w) (outfile w) (_ctx w) (initPromise w) (heap w) x
          (settled w) (fs w) (moduleGraph w) (watcher w) (onChange w) (log w).
Definition set_settled (w : World) (x : list (nat * Res Value)) : World :=
  mkWorld (options w) (outfile w) (_ctx w) (initPromise w) (heap w) (waiting w)
          x (fs w) (moduleGraph w) (watcher w) (onChange w) (log w).
Definition set_fs (w : World) (x : gmap string string) : World :=
  mkWorld (options w) (outfile w) (_ctx w) (initPromise w) (heap w) (waiting w)
          (settled w) x (moduleGraph w) (watcher w) (onChange w) (log w).
Definition set_watcher (w : World) (x : gset string) : World :=
  mkWorld (options w) (outfile w) (_ctx w) (initPromise w) (heap w) (waiting w)
          (settled w) (fs w) (moduleGraph w) x (onChange w) (log w).
Definition set_onChange (w : World) (x : list (CtxRef * gset string)) : World :=
  mkWorld (options w) (outfile w) (_ctx w) (initPromise w) (heap w) (waiting w)
          (settled w) (fs w) (moduleGraph w) (watcher w) x (log w).
Definition set_log (w : World) (x : list Event) : World :=
  mkWorld (options w) (outfile w) (_ctx w) (initPromise w) (heap w) (waiting w)
          (settled w) (fs w) (moduleGraph w) (watcher w) (onChange w) x.

(** *** State and exceptions *)

Definition M (A : Type) : Type := World -> Res A * World.

Definition ret {A} (a : A) : M A := fun w => (Ok a, w).
Definition throw {A} (e : Error) : M A := fun w => (Throw e, w).
Definition bind {A B} (m : M A) (f : A -> M B) : M B :=
  fun w => match m w with
           | (Ok a, w') => f a w'
           | (Throw e, w') => (Throw e, w')
           end.
Definition gets {A} (f : World -> A) : M A := fun w => (Ok (f w), w).
Definition modify (f : World -> World) : M unit := fun w => (Ok tt, f w).

Notation "x <- m ;; k" := (bind m (fun x => k))
  (at level 20, m at level 99, k at level 200, only parsing).
Notation "m ;; k" := (bind m (fun _ => k))
  (at level 100, k at level 200, right associativity, only parsing).

Definition emit (e : Event) : M unit :=
  modify (fun w => set_log w (log w ++ [e])).

Definition when (b : bool) (m : M unit) : M unit := if b then m else ret tt.

(** *** Heap *)

Definition deref (r : CtxRef) : M Ctx :=
  fun w => match heap w !! r with
           | Some c => (Ok c, w)
           | None => (Throw BadRef, w)
           end.

Definition store (r : CtxRef) (c : Ctx) : M unit :=
  modify (fun w => set_heap w (<[r := c]> (heap w))).

Definition alloc (c : Ctx) : M CtxRef :=
  fun w => (Ok (length (heap w)), set_heap w (heap w ++ [c])).

(** *** Host calls *)

(** [await fs.writeFile(path, text)] *)
Definition writeFile (path text : string) : M unit :=
  if writable E path
  then modify (fun w => set_fs w (<[path := text]> (fs w)));;
       emit (EvWriteFile path text)
  else throw (WriteError path).

(** [ctx.toCss(ctx.panda.createSheet(), options)] *)
Definition currentCss (r : CtxRef) : M string :=
  c <- deref r;;
  emit (EvCreateSheet r);;
  o <- gets options;;
  ret (toCss E c (createSheet E (panda c)) o).

(** Lines 200-205 and 217-219: look the module up, invalidate it if found. *)
Definition invalidate (file : string) (timestamp : Z) : M bool :=
  g <- gets moduleGraph;;
  if bool_decide (file ∈ g)
  then emit (EvInvalidate file timestamp);; ret true
  else ret false.

(** [options.outfile ? ensureAbsolute(options.outfile, options.cwd) : ids.css.resolved] *)
Definition outfile_of (o : Options) : string :=
  match outfile_opt o with
  | Some f => if truthy_str f then ensureAbsolute E f (cwd o)
              else VirtualModuleId.resolved ids.css
  | None => VirtualModuleId.resolved ids.css
  end.

(** *** Context manager (lines 67-87) *)

(** [init()], the synchronous call: the memoized promise is returned if
    there is one, otherwise [loadConfig] is started and its promise kept.
    [initPromise] is assigned here and nowhere else, so the promise a
    caller awaits is always the one in the cell. *)
Definition init : M unit :=
  p <- gets initPromise;;
  match p with
  | Some _ => ret tt
  | None =>
      o <- gets options;;
      emit (EvLoadConfig (cwd o) (configPath o));;
      modify (fun w => set_initPromise w (Some Pending))
  end.

(** The [.then] callback of lines 81-84, run when [loadConfig] resolves:
    the only assignment to [_ctx]. *)
Definition init_then (conf : LoadConfigResult) : M unit :=
  o <- gets options;;
  r <- alloc (createContext E (cwd o) (assign_config_cwd conf (cwd o)));;
  emit (EvCreateContext r);;
  modify (fun w => set__ctx w (Some r)).

(** [getCtx] after [await init()] has produced [a] (lines 72-73). *)
Definition getCtx_resume (a : Res unit) : M CtxRef :=
  match a with
  | Throw e => throw e
  | Ok _ =>
      c <- gets _ctx;;
      match c with
      | None => throw NotInitialized
      | Some r => ret r
      end
  end.

(** *** resolveId (lines 92-104) *)

Definition resolveId (id : string) : Value :=
  if String.eqb id (VirtualModuleId.id ids.css)
  then VText (VirtualModuleId.resolved ids.css)
  else if String.eqb id (VirtualModuleId.id ids.inlineCva)
  then VText (VirtualModuleId.resolved ids.inlineCva)
  else if String.eqb id (VirtualModuleId.id ids.compoundVariants)
  then VText (VirtualModuleId.resolved ids.compoundVariants)
  else VUndefined.

(** *** load (lines 105-121) *)

(** Up to [await getCtx()]: the helper ids and the [id !== outfile] test. *)
Definition load_enter (id : string) : M Suspension :=
  if String.eqb id (VirtualModuleId.resolved ids.inlineCva)
  then ret (Return (VText ("export " +:+ inlineCva_toString E)))
  else if String.eqb id (VirtualModuleId.resolved ids.compoundVariants)
  then ret (Return (VText ("export " +:+ addCompoundVariantCss_toString E)))
  else
    out <- gets outfile;;
    if negb (String.eqb id out) then ret (Return VUndefined)
    else init;; ret (Await KLoad).

Definition load_resume (r : CtxRef) : M Value :=
  css <- currentCss r;;
  ret (VText css).

(** *** transform (lines 126-162) *)

(** Lines 130-139: the code handed to the engine. *)
Definition transformResult_code (o : Options) (code id : string) : string :=
  match transform_opt o with
  | None => code
  | Some f =>
      match f id code with
      | TRNull => code
      | TRString s => if truthy_str s then s else code
      | TRObject c _ => c
      end
  end.

Definition transform_resume (code id : string) (r : CtxRef) : M Value :=
  c <- deref r;;
  o <- gets options;;
  when (bool_decide (is_Some (transform_opt o))) (emit (EvUserTransform id code));;
  let code' := transformResult_code o code id in
  let '(sourceFile, p) := addSourceFile E (panda c) id code' in
  emit (EvAddSourceFile r id code');;
  store r (set_panda c p);;
  match parseSourceFile E p id with
  | None => ret (VTransform TRNull)
  | Some parserResult =>
      when (negb (isEmpty E parserResult))
           (c1 <- deref r;; store r (files_set c1 id code));;
      if negb (truthy_optimizeJs (optimizeJs o)) then ret (VTransform TRNull)
      else
        c2 <- deref r;;
        emit (EvOptimize id);;
        ret (VTransform (tranformPanda E c2 code id sourceFile parserResult
                                       (optimizeJs o)))
  end.

(** *** vite.configResolved (lines 164-171) *)

Definition configResolved (configFile : option string) (viteRoot : string) : M unit :=
  o <- gets options;;
  if negb (truthy_str (cwd o))
  then
    let c := match configFile with
             | Some f => if truthy_str f then dirname E f else viteRoot
             | None => viteRoot
             end in
    let o' := set_cwd o c in
    modify (fun w => set_options w o');;
    modify (fun w => set_outfile w (outfile_of o'))
  else ret tt.

(** *** vite.configureServer (lines 172-210) *)

(** Lines 186-190: the set of watched configuration files. *)
Definition sources_of (c : Ctx) : gset string :=
  list_to_set
    (map (fun f => ensureAbsolute E f (root c))
         (path (panda_conf E (panda c))
          :: nullish (dependencies (panda_conf E (panda c))) []
          ++ nullish (config_dependencies (panda_config E (panda c))) [])).

Definition configureServer_resume (r : CtxRef) : M Value :=
  out <- gets outfile;;
  when (negb (String.eqb out (VirtualModuleId.resolved ids.css)))
       (css <- currentCss r;; writeFile out css);;
  c <- deref r;;
  emit (EvCodegen r);;
  match codegen E (panda c) with
  | Throw e => throw e
  | Ok _ =>
      let sources := sources_of c in
      modify (fun w => set_watcher w (watcher w ∪ sources));;
      modify (fun w => set_onChange w (onChange w ++ [(r, sources)]));;
      ret VUndefined
  end.

(** The 'change' listener of lines 193-209, for the [ctx] and [sources]
    it closes over.  It runs synchronously through the path test and the
    call of [ctx.reloadContext()] (lines 194-197), whose outcome it then
    awaits; [None] is the early return of line 195. *)
Definition change_listener_start (l : CtxRef * gset string) (file : string)
  : M (option (Res unit)) :=
  let '(r, sources) := l in
  c <- deref r;;
  let filePath := ensureAbsolute E file (root c) in
  if negb (bool_decide (filePath ∈ sources)) then ret None
  else
    emit (EvReload r);;
    let '(a, c') := reloadContext E c in
    store r c';;
    ret (Some a).

(** The listener after the [await] (lines 199-208): a rejected reload
    rejects the listener, otherwise the clock is read and the module
    for [outfile] invalidated. *)
Definition change_listener_resume (a : Res unit) (now : Z) : M unit :=
  match a with
  | Throw e => throw e
  | Ok _ =>
      out <- gets outfile;;
      _ <- invalidate out now;;
      ret tt
  end.

(** One listener from its start to its end. *)
Definition change_listener (l : CtxRef * gset string) (file : string) (now : Z)
  : M unit :=
  s <- change_listener_start l file;;
  match s with
  | None => ret tt
  | Some a => change_listener_resume a now
  end.

(** *** vite.handleHotUpdate (lines 211-225) *)

Definition handleHotUpdate_resume (file : string) (timestamp : Z) (r : CtxRef)
  : M Value :=
  out <- gets outfile;;
  if String.eqb file out then ret VUndefined
  else
    c <- deref r;;
    if negb (bool_decide (is_Some (files c !! file))) then ret VUndefined
    else
      found <- invalidate out timestamp;;
      when (found && negb (String.eqb out (VirtualModuleId.resolved ids.css)))
           (css <- currentCss r;; writeFile out css);;
      ret VUndefined.

(** *** Scheduling

    A hook runs synchronously up to [await getCtx()], which has already
    called [init()].  Its remainder runs once the memoized promise is
    settled: at once when it already is, otherwise when [loadConfig]
    settles, in the order in which the callers suspended (promise
    reactions run first come first).

    Scope.  The remainder of a hook is run as a whole: its later awaits
    ([fs.writeFile], [codegen], [reloadContext]) are taken in program
    order and no other hook is placed between them.  The model
    therefore gives what one hook does and in which order it does it;
    it does not give the order in which several hooks that suspend
    again ([configureServer], [handleHotUpdate]) finish relative to one
    another, and no property below is stated about that order. *)

Definition enter (h : Hook) : M Suspension :=
  match h with
  | HGetCtx => init;; ret (Await KGetCtx)
  | HResolveId id => ret (Return (resolveId id))
  | HLoad id => load_enter id
  | HTransform code id => init;; ret (Await (KTransform code id))
  | HConfigResolved configFile viteRoot =>
      configResolved configFile viteRoot;; ret (Return VUndefined)
  | HConfigureServer => init;; ret (Await KConfigureServer)
  | HHandleHotUpdate file timestamp =>
      init;; ret (Await (KHandleHotUpdate file timestamp))
  end.

Definition resume (a : Res unit) (k : Cont) : M Value :=
  r <- getCtx_resume a;;
  match k with
  | KGetCtx => ret (VCtx r)
  | KLoad => load_resume r
  | KTransform code id => transform_resume code id r
  | KConfigureServer => configureServer_resume r
  | KHandleHotUpdate file timestamp => handleHotUpdate_resume file timestamp r
  end.

Definition settle_call (caller : nat) (v : Res Value) (w : World) : World :=
  set_settled w (settled w ++ [(caller, v)]).

Definition finish (a : Res unit) (w : World) (ck : nat * Cont) : World :=
  let '(v, w') := resume a ck.2 w in settle_call ck.1 v w'.

(** The host invokes hook [h]; [caller] names the invocation.  With
    the promise settled the hook runs to its end, as when the host
    awaits it; with the load in flight it joins the waiting callers. *)
Definition call (caller : nat) (h : Hook) (w : World) : World :=
  match enter h w with
  | (Throw e, w1) => settle_call caller (Throw e) w1
  | (Ok (Return v), w1) => settle_call caller (Ok v) w1
  | (Ok (Await k), w1) =>
      match initPromise w1 with
      | Some Fulfilled => finish (Ok tt) w1 (caller, k)
      | Some (Rejected e) => finish (Throw e) w1 (caller, k)
      | _ => set_waiting w1 (waiting w1 ++ [(caller, k)])
      end
  end.

(** [loadConfig] settles with [outcome]: the [.then] callback runs on
    success, the memoized promise settles, the suspended callers resume,
    first come first, each as a whole (see the scope above). *)
Definition settle (outcome : Res LoadConfigResult) (w : World) : World :=
  match initPromise w with
  | Some Pending =>
      let '(a, w1) :=
        match outcome with
        | Ok conf =>
            let '(a, w1) := init_then conf w in
            (a, set_initPromise w1 (Some match a with
                                         | Ok _ => Fulfilled
                                         | Throw e => Rejected e
                                         end))
        | Throw e => (Throw e, set_initPromise w (Some (Rejected e)))
        end in
      foldl (finish a) (set_waiting w1 []) (waiting w1)
  | _ => w
  end.

(** The watcher emits 'change' for [file].  The emitter calls the
    listeners one after the other, and each returns at its [await]: so
    every listener makes its path test and, on a hit, calls
    [reloadContext] before any listener goes on to the invalidation.
    The awaited reloads are then taken in the order they were started;
    a rejection of one is not observed by the others.  [now] is what
    [Date.now()] reads when the listeners resume. *)
Definition change_start (file : string) (s : list (Res unit) * World)
    (l : CtxRef * gset string) : list (Res unit) * World :=
  match change_listener_start l file s.2 with
  | (Ok (Some a), w') => (s.1 ++ [a], w')
  | (_, w') => (s.1, w')
  end.

Definition change (file : string) (now : Z) (w : World) : World :=
  let '(awaited, w1) := foldl (change_start file) ([], w) (onChange w) in
  foldl (fun w a => (change_listener_resume a now w).2) w1 awaited.

(** The world right after [unpluginFactory(rawOptions)] (lines 63-68). *)
Definition boot (rawOptions : option PandaPluginOptions)
    (disk : gmap string string) (graph : gset string) : World :=
  let options :=
    resolveOptions (nullish rawOptions
      {| raw_cwd := None; raw_configPath := None; raw_outfile := None;
         raw_include := None; raw_exclude := None; raw_optimizeCss := None;
         raw_optimizeJs := None; raw_transform := None |}) in
  {| options := options; outfile := outfile_of options;
     _ctx := None; initPromise := None; heap := [];
     waiting := []; settled := [];
     fs := disk; moduleGraph := graph; watcher := ∅; onChange := [];
     log := [] |}.

(** [n] callers, numbered from [0], each invoke [getCtx()]. *)
Definition getCtx_calls (n : nat) (w : World) : World :=
  foldl (fun w i => call i HGetCtx w) w (seq 0 n).

(** The plugin has a context: the promise is fulfilled and [_ctx] holds
    the address of [c]. *)
Definition ready (w : World) (r : CtxRef) (c : Ctx) : Prop :=
  initPromise w = Some Fulfilled /\ _ctx w = Some r /\ heap w !! r = Some c.

(** Counting calls in a log. *)
Definition is_loadConfig (e : Event) : bool :=
  match e with EvLoadConfig _ _ => true | _ => false end.
Definition is_createContext (e : Event) : bool :=
  match e with EvCreateContext _ => true | _ => false end.
Definition count (p : Event -> bool) (l : list Event) : nat :=
  length (List.filter p l).

(** *** Vocabulary of the properties *)

(** The parse found nothing to record: no result, or an empty one. *)
Definition no_usage (x : option (ParserResult E)) : bool :=
  match x with
  | None => true
  | Some parserResult => isEmpty E parserResult
  end.

(** The call to the user's transform, when one is configured. *)
Definition userTransform_events (o : Options) (code id : string) : list Event :=
  if bool_decide (is_Some (transform_opt o)) then [EvUserTransform id code] else [].

(** The stylesheet text [ctx.toCss(ctx.panda.createSheet(), options)]
    of a context [c] under options [o]. *)
Definition css_of (c : Ctx) (o : Options) : string :=
  toCss E c (createSheet E (panda c)) o.

(** [file] is in the DependencySet of some registered 'change'
    listener: its absolute form is among the sources the listener
    closed over. *)
Definition listener_hit (w : World) (file : string) (l : CtxRef * gset string) : bool :=
  match heap w !! l.1 with
  | Some c => bool_decide (ensureAbsolute E file (root c) ∈ l.2)
  | None => false
  end.

Definition dependency_hit (w : World) (file : string) : bool :=
  existsb (listener_hit w file) (onChange w).

(** The events a step appended to the log. *)
Definition emitted (w w' : World) : list Event := drop (length (log w)) (log w').

Definition is_invalidate (e : Event) : bool :=
  match e with EvInvalidate _ _ => true | _ => false end.
Definition is_reload (e : Event) : bool :=
  match e with EvReload _ => true | _ => false end.
Definition is_write (e : Event) : bool :=
  match e with EvWriteFile _ _ => true | _ => false end.
(** Recomputation of the artifact or of the context, and writing. *)
Definition is_regeneration (e : Event) : bool :=
  match e with
  | EvCreateSheet _ | EvWriteFile _ _ | EvReload _ => true
  | _ => false
  end.

(** No regeneration or write comes after an invalidation. *)
Fixpoint invalidation_last (evs : list Event) : bool :=
  match evs with
  | [] => true
  | e :: rest =>
      (if is_invalidate e then forallb (fun x => negb (is_regeneration x)) rest
       else true)
      && invalidation_last rest
  end.

(** The outcome recorded for the invocation that finished last. *)
Definition last_outcome (w : World) : option (nat * Res Value) := last (settled w).

(** *** Reachable worlds and what holds in all of them *)

(** The host may load or drop modules and touch the disk at any time. *)
Definition host_step (disk : gmap string string) (graph : gset string)
    (w : World) : World :=
  mkWorld (options w) (outfile w) (_ctx w) (initPromise w) (heap w) (waiting w)
          (settled w) disk graph (watcher w) (onChange w) (log w).

Inductive reachable : World -> Prop :=
| reach_boot rawOptions disk graph : reachable (boot rawOptions disk graph)
| reach_call caller h w : reachable w -> reachable (call caller h w)
| reach_settle outcome w : reachable w -> reachable (settle outcome w)
| reach_change file now w : reachable w -> reachable (change file now w)
| reach_host disk graph w : reachable w -> reachable (host_step disk graph w).

(** The closure cells and the size of the heap are the same in [w']. *)
Definition stable (w w' : World) : Prop :=
  options w' = options w /\ outfile w' = outfile w /\ _ctx w' = _ctx w /\
  initPromise w' = initPromise w /\ length (heap w') = length (heap w).

Definition preserves {A} (m : M A) : Prop := forall w, stable w (m w).2.

(** [outfile] is what lines 65 and 167 compute from the options, and a
    fulfilled promise comes with a context that is in the heap. *)
Definition invariant (w : World) : Prop :=
  outfile w = outfile_of (options w) /\
  (initPromise w = Some Fulfilled ->
   exists r, _ctx w = Some r /\ r < length (heap w)).

(** *** Readings of the specification that the code is compared with *)

(** Write/in-memory equivalence: the load of artifact [id] answers with
    the current stylesheet text [css] and, when [outfile] is configured,
    that text is on disk at the outfile path once the load has returned. *)
Definition load_equivalence (w : World) (n : nat) (id css : string) : Prop :=
  let w' := call n (HLoad id) w in
  last_outcome w' = Some (n, Ok (VText css)) /\
  (truthy_ostr (outfile_opt (options w)) = true -> fs w' !! outfile w = Some css).

(** Invalidation ordering: in what a step made the plugin do, the
    invalidation comes after every recomputation and write. *)
Definition invalidation_ordered (w w' : World) : Prop :=
  invalidation_last (emitted w w') = true.

(** A dependency change replaces the context: the reference in [_ctx]
    is another one after the 'change' event. *)
Definition reload_changes_identity (w : World) (file : string) (now : Z) : Prop :=
  _ctx (change file now w) <> _ctx w.

(** A hot update of a tracked file invalidates the artifact and, with
    an outfile configured, rewrites it, the context staying in place. *)
Definition hot_update_regenerates (w : World) (n : nat) (file : string) (ts : Z)
  : Prop :=
  let w' := call n (HHandleHotUpdate file ts) w in
  existsb is_invalidate (emitted w w') = true /\
  (String.eqb (outfile w) virtual_css = false ->
   existsb is_write (emitted w w') = true) /\
  _ctx w' = _ctx w.

(** *** Vocabulary of the further properties *)

(** Whether a hook invocation reaches [await getCtx()], given the value
    of the [outfile] cell: [resolveId] and [configResolved] never do,
    [load] only for the artifact's id. *)
Definition needs_context (out : string) (h : Hook) : bool :=
  match h with
  | HResolveId _ | HConfigResolved _ _ => false
  | HLoad id => negb (is_helper id) && String.eqb id out
  | HGetCtx | HTransform _ _ | HConfigureServer | HHandleHotUpdate _ _ => true
  end.

(** The directory line 166 takes for [options.cwd]:
    [config.configFile ? path.dirname(config.configFile) : config.root]. *)
Definition config_dir (configFile : option string) (viteRoot : string) : string :=
  match configFile with
  | Some f => if truthy_str f then dirname E f else viteRoot
  | None => viteRoot
  end.

(** One thing happening to the world. *)
Inductive step : World -> World -> Prop :=
| step_call caller h w : step w (call caller h w)
| step_settle outcome w : step w (settle outcome w)
| step_change file now w : step w (change file now w)
| step_host disk graph w : step w (host_step disk graph w).

(** No configuration load and no context construction happened between
    [w] and [w'], and the scheduler's lists are the same. *)
Definition calm (w w' : World) : Prop :=
  count is_loadConfig (log w') = count is_loadConfig (log w) /\
  count is_createContext (log w') = count is_createContext (log w) /\
  settled w' = settled w /\ waiting w' = waiting w.

Definition calmly {A} (m : M A) : Prop := forall w, calm w (m w).2.

(** The loads and constructions in the log are those the promise
    accounts for, and [_ctx] is set only by a fulfilled promise. *)
Definition accounted (w : World) : Prop :=
  count is_loadConfig (log w) =
    match initPromise w with Some _ => 1 | None => 0 end /\
  count is_createContext (log w) =
    match initPromise w with Some Fulfilled => 1 | _ => 0 end /\
  length (heap w) = count is_createContext (log w) /\
  (is_Some (_ctx w) -> initPromise w = Some Fulfilled).

(** The hooks whose remainder after [await getCtx()] has no further
    await: [load] and [transform].  The rest of [configureServer] and of
    [handleHotUpdate] awaits a write or [codegen]; a bare [getCtx()] is
    no hook, and its promise settles a turn before the hooks that await
    theirs go on. *)
Definition runs_to_end (k : Cont) : bool :=
  match k with
  | KLoad | KTransform _ _ => true
  | KGetCtx | KConfigureServer | KHandleHotUpdate _ _ => false
  end.

End Plugin.

Arguments World : clear implicits.
Arguments Ctx : clear implicits.
Arguments M : clear implicits.

(** ** A small engine to run the hooks on

    The registry maps a file id to its registered text; a file has
    styling usage when its text starts with [css(]; the sheet is the list
    of registered texts with usage and the stylesheet joins them. *)

Module Demo.

Definition handle : Type := gmap string string * LoadConfigResult.

Definition has_usage (code : string) : bool := String.prefix "css(" code.

Definition parse (p : handle) (id : string) : option string :=
  match p.1 !! id with
  | Some code => if truthy_str code then Some code else None
  | None => None
  end.

Definition sheet (p : handle) : list string :=
  List.filter has_usage (map snd (map_to_list p.1)).

Definition css {P} (c : PandaPluginContext P) (s : list string) (o : Options) : string :=
  String.concat ";" s.

Definition absolute (path root : string) : string :=
  if truthy_str path
  then if String.prefix "/" path then path else root +:+ "/" +:+ path
  else root.

Fixpoint parent (s : string) : option string :=
  match s with
  | EmptyString => None
  | String a t =>
      match parent t with
      | Some d => Some (String a d)
      | None => if Ascii.eqb a "/"%char then Some EmptyString else None
      end
  end.

Definition directory (s : string) : string :=
  match parent s with
  | Some d => if truthy_str d then d else "/"
  | None => "."
  end.

Definition engine : Engine :=
  {| Panda := handle;
     SourceFile := string;
     ParserResult := string;
     Sheet := list string;
     createContext := fun root conf => mkContext (∅, conf) root ∅;
     reloadContext := fun c => (Ok tt, set_panda c (∅, (panda c).2));
     createSheet := sheet;
     toCss := css;
     addSourceFile := fun p id code => (id, (<[id := code]> p.1, p.2));
     parseSourceFile := parse;
     isEmpty := fun code => negb (has_usage code);
     tranformPanda := fun _ code _ _ _ _ => TRObject code None;
     panda_conf := snd;
     panda_config := fun p => config p.2;
     codegen := fun _ => Ok "codegen done";
     ensureAbsolute := absolute;
     dirname := directory;
     inlineCva_toString := "function inlineCva() {}";
     addCompoundVariantCss_toString := "function addCompoundVariantCss() {}";
     writable := fun _ => true |}.

Definition conf : LoadConfigResult :=
  {| path := "/app/panda.config.ts";
     dependencies := Some ["/app/theme.ts"];
     config := {| config_cwd := ""; config_dependencies := None |} |}.

Definition raw (out : option string) (opt : option OptimizeJs) : PandaPluginOptions :=
  {| raw_cwd := Some "/app"; raw_configPath := None; raw_outfile := out;
     raw_include := None; raw_exclude := None; raw_optimizeCss := None;
     raw_optimizeJs := opt; raw_transform := None |}.

(** A plugin without [outfile] and one writing to [/app/panda.css], each
    started, initialised through [configureServer], and having
    transformed [/app/a.tsx], which has one styling call.  The host's
    graph holds the modules listed in [graph]. *)
Definition started (out : option string) (graph : gset string) : World engine :=
  call 1 (HTransform "css({ color: 'red' })" "/app/a.tsx")
    (settle (Ok conf)
       (call 0 HConfigureServer
          (boot (Some (raw out (Some (OJBool false)))) ∅ graph))).

(** The context object of a started plugin. *)
Definition ctx_a : Ctx engine :=
  mkContext ({[ "/app/a.tsx" := "css({ color: 'red' })" ]},
             assign_config_cwd conf "/app")
            "/app"
            {[ "/app/a.tsx" := "css({ color: 'red' })" ]}.

(** A plugin that has just been created. *)
Definition fresh : World engine := boot None ∅ ∅.

Definition virtual : World engine :=
  started None {[ VirtualModuleId.resolved ids.css ]}.

Definition onDisk : World engine :=
  started (Some "panda.css") {[ "/app/panda.css" ]}.

(** The same, the host never having loaded the stylesheet as a module. *)
Definition unloaded : World engine :=
  started (Some "panda.css") ∅.

(** What [ctx_a] watches, and [ctx_a] after a reload. *)
Definition sources_a : gset string :=
  {[ "/app/panda.config.ts"; "/app/theme.ts" ]}.

Definition ctx_reloaded : Ctx engine := (reloadContext engine ctx_a).2.

(** A plugin whose user transform wraps every file in a styling call,
    initialised by a bare [getCtx()]; its context is still empty. *)
Definition wrap : UserTransform :=
  fun _ content => TRString ("css(" +:+ content +:+ ")").

Definition raw_wrapping : PandaPluginOptions :=
  {| raw_cwd := Some "/app"; raw_configPath := None; raw_outfile := None;
     raw_include := None; raw_exclude := None; raw_optimizeCss := None;
     raw_optimizeJs := Some (OJBool false); raw_transform := Some wrap |}.

Definition wrapping : World engine :=
  settle (Ok conf) (call 0 HGetCtx (boot (Some raw_wrapping) ∅ ∅)).

Definition ctx_empty : Ctx engine :=
  mkContext (∅, assign_config_cwd conf "/app") "/app" ∅.

(** Registering [/app/b.tsx] as the user transform leaves it, and
    [/app/notes.md], which has no styling call, as it is. *)
Definition b_code : string := "{ margin: 0 }".
Definition with_b : string * handle :=
  addSourceFile engine (panda ctx_empty) "/app/b.tsx" "css({ margin: 0 })".
Definition notes_code : string := "plain notes".
Definition with_notes : string * handle :=
  addSourceFile engine (panda ctx_a) "/app/notes.md" notes_code.

(** Options asking for per-kind settings with only [cva] given. *)
Definition raw_cva_only : PandaPluginOptions :=
  raw None (Some (OJObj {[ "cva" := Some (MBool false) ]})).

(** An engine whose collaborators can fail: [codegen] rejects unless
    [cg], [reloadContext] rejects unless [rl], and nothing under [/ro/]
    can be written.  The rest is [engine]. *)
Definition faulty (cg rl : bool) : Engine :=
  {| Panda := handle;
     SourceFile := string;
     ParserResult := string;
     Sheet := list string;
     createContext := fun root conf => mkContext (∅, conf) root ∅;
     reloadContext := fun c =>
       if rl then (Ok tt, set_panda c (∅, (panda c).2))
       else (Throw (ReloadError "config does not parse"), c);
     createSheet := sheet;
     toCss := css;
     addSourceFile := fun p id code => (id, (<[id := code]> p.1, p.2));
     parseSourceFile := parse;
     isEmpty := fun code => negb (has_usage code);
     tranformPanda := fun _ code _ _ _ _ => TRObject code None;
     panda_conf := snd;
     panda_config := fun p => config p.2;
     codegen := fun _ =>
       if cg then Ok "codegen done" else Throw (CodegenError "outdir is a file");
     ensureAbsolute := absolute;
     dirname := directory;
     inlineCva_toString := "function inlineCva() {}";
     addCompoundVariantCss_toString := "function addCompoundVariantCss() {}";
     writable := fun path => negb (String.prefix "/ro/" path) |}.

(** A plugin on [eng], initialised by a bare [getCtx()]. *)
Definition initialised (eng : Engine) (out : option string)
    (opt : option OptimizeJs) (graph : gset string) : World eng :=
  settle (Ok conf) (call 0 HGetCtx (boot (Some (raw out opt)) ∅ graph)).

(** One whose [codegen] will reject, writing to [/app/panda.css]. *)
Definition no_codegen : World (faulty false true) :=
  initialised (faulty false true) (Some "panda.css") (Some (OJBool false)) ∅.

(** One writing to a path that cannot be written, before and after it
    transformed [/app/a.tsx]; the host has the outfile as a module. *)
Definition readonly_empty : World (faulty true true) :=
  initialised (faulty true true) (Some "/ro/panda.css") (Some (OJBool false))
              {[ "/ro/panda.css" ]}.

Definition readonly : World (faulty true true) :=
  call 1 (HTransform "css({ color: 'red' })" "/app/a.tsx") readonly_empty.

(** One whose server started, whose reloads will reject, and whose
    stylesheet the host has loaded as a module. *)
Definition no_reload_loaded : World (faulty true false) :=
  settle (Ok conf)
    (call 0 HConfigureServer
       (boot (Some (raw None (Some (OJBool false)))) ∅ {[ virtual_css ]})).

(** A plugin whose load was rejected with one caller waiting. *)
Definition rejected : World engine :=
  settle (Throw (ConfigError "no panda.config")) (call 0 HGetCtx fresh).

(** [/app/a.tsx] with its styling call removed. *)
Definition bare_code : string := "const a = 1".

(** A plugin whose user transform answers with an object, the wrapped
    text as its [code], initialised by a bare [getCtx()]; the same with
    the default [optimizeJs]. *)
Definition wrap_object : UserTransform :=
  fun _ content => TRObject ("css(" +:+ content +:+ ")") (Some "{}").

Definition raw_wrapping_object (opt : option OptimizeJs) : PandaPluginOptions :=
  {| raw_cwd := Some "/app"; raw_configPath := None; raw_outfile := None;
     raw_include := None; raw_exclude := None; raw_optimizeCss := None;
     raw_optimizeJs := opt; raw_transform := Some wrap_object |}.

Definition wrapping_object : World engine :=
  settle (Ok conf)
    (call 0 HGetCtx (boot (Some (raw_wrapping_object (Some (OJBool false)))) ∅ ∅)).

Definition wrapping_optimizing : World engine :=
  settle (Ok conf) (call 0 HGetCtx (boot (Some (raw_wrapping_object None)) ∅ ∅)).

(** The plugin without [outfile] whose server was configured a second
    time: two 'change' listeners are registered. *)
Definition reconfigured : World engine := call 2 HConfigureServer virtual.

(** Two revisions of [/app/a.tsx] transformed while the load is in
    flight. *)
Definition queued : World engine :=
  call 1 (HTransform "css({ color: 'blue' })" "/app/a.tsx")
    (call 0 (HTransform "css({ color: 'red' })" "/app/a.tsx") fresh).

End Demo.

(** ** Properties *)

Section Properties.
Context {E : Engine}.
Implicit Types (w : World E) (c : Ctx E) (r : CtxRef).

(** *** The context manager

    The step lemmas are stated on a world given field by field, so that
    a run is a chain of rewrites between records. *)

Lemma count_app p (l1 l2 : list Event) :
  count p (l1 ++ l2) = count p l1 + count p l2.
Proof. unfold count. by rewrite List.filter_app, length_app. Qed.

Lemma call_getCtx_fresh i o out cx hp wt st f g wa oc lg :
  call (E:=E) i HGetCtx (mkWorld o out cx None hp wt st f g wa oc lg) =
  mkWorld o out cx (Some Pending) hp (wt ++ [(i, KGetCtx)]) st f g wa oc
          (lg ++ [EvLoadConfig (cwd o) (configPath o)]).
Proof. reflexivity. Qed.

Lemma call_getCtx_pending i o out cx hp wt st f g wa oc lg :
  call (E:=E) i HGetCtx (mkWorld o out cx (Some Pending) hp wt st f g wa oc lg) =
  mkWorld o out cx (Some Pending) hp (wt ++ [(i, KGetCtx)]) st f g wa oc lg.
Proof. reflexivity. Qed.

Lemma calls_pending (l : list nat) o out cx hp wt st f g wa oc lg :
  foldl (fun w i => call (E:=E) i HGetCtx w)
        (mkWorld o out cx (Some Pending) hp wt st f g wa oc lg) l =
  mkWorld o out cx (Some Pending) hp (wt ++ map (fun i => (i, KGetCtx)) l)
          st f g wa oc lg.
Proof.
  revert wt. induction l as [|i l IH]; intros wt; cbn [foldl map].
  - by rewrite app_nil_r.
  - rewrite call_getCtx_pending, IH. by rewrite <- app_assoc.
Qed.

Lemma finish_getCtx i r o out ip hp wt st f g wa oc lg :
  finish (E:=E) (Ok tt) (mkWorld o out (Some r) ip hp wt st f g wa oc lg) (i, KGetCtx) =
  mkWorld o out (Some r) ip hp wt (st ++ [(i, Ok (VCtx r))]) f g wa oc lg.
Proof. reflexivity. Qed.

Lemma finish_getCtx_all (l : list nat) r o out ip hp wt st f g wa oc lg :
  foldl (finish (E:=E) (Ok tt)) (mkWorld o out (Some r) ip hp wt st f g wa oc lg)
        (map (fun i => (i, KGetCtx)) l) =
  mkWorld o out (Some r) ip hp wt (st ++ map (fun i => (i, Ok (VCtx r))) l)
          f g wa oc lg.
Proof.
  revert st. induction l as [|i l IH]; intros st; cbn [foldl map].
  - by rewrite app_nil_r.
  - rewrite finish_getCtx, IH. by rewrite <- app_assoc.
Qed.

Lemma settle_ok_pending conf o out cx hp wt st f g wa oc lg :
  settle (E:=E) (Ok conf) (mkWorld o out cx (Some Pending) hp wt st f g wa oc lg) =
  foldl (finish (Ok tt))
        (mkWorld o out (Some (length hp)) (Some Fulfilled)
                 (hp ++ [createContext E (cwd o) (assign_config_cwd conf (cwd o))])
                 [] st f g wa oc (lg ++ [EvCreateContext (length hp)]))
        wt.
Proof. reflexivity. Qed.

(** C1. Exactly-once initialization: when [n >= 1] callers invoke
    [getCtx()] before [loadConfig] has resolved and it then resolves,
    the log gains exactly one configuration load and exactly one context
    construction, the heap gains exactly one context object, and every
    one of the [n] callers receives the same context address, the one
    stored in [_ctx]. *)
Theorem exactly_once_init (w0 : World E) (n : nat) (conf : LoadConfigResult) :
  initPromise w0 = None -> waiting w0 = [] -> 0 < n ->
  let w := settle (Ok conf) (getCtx_calls n w0) in
  count is_loadConfig (log w) = count is_loadConfig (log w0) + 1 /\
  count is_createContext (log w) = count is_createContext (log w0) + 1 /\
  length (heap w) = length (heap w0) + 1 /\
  exists r, _ctx w = Some r /\
    settled w = settled w0 ++ map (fun i => (i, Ok (VCtx r))) (seq 0 n).
Proof.
  intros Hp Hw Hn w. subst w. destruct n as [|m]; [lia|].
  destruct w0 as [o out cx ip hp wt st f g wa oc lg].
  cbn [initPromise waiting log heap settled] in *. subst ip wt.
  unfold getCtx_calls. cbn [seq foldl].
  rewrite call_getCtx_fresh, calls_pending, settle_ok_pending.
  change (([] ++ [(0, KGetCtx)]) ++ map (fun i => (i, KGetCtx)) (seq 1 m))
    with (map (fun i => (i, KGetCtx)) (seq 0 (S m))).
  rewrite finish_getCtx_all.
  cbn [initPromise waiting log heap settled _ctx].
  rewrite !count_app, length_app.
  split; [|split; [|split]]; [cbn; lia ..|].
  by exists (length hp).
Qed.

(** After initialisation a [getCtx()] is answered from the cells: no
    second load, the same address. *)
Lemma getCtx_memoized (n : nat) w r c :
  ready w r c -> call n HGetCtx w = settle_call n (Ok (VCtx r)) w.
Proof.
  intros (Hi & Hc & _). destruct w as [o out cx ip hp wt st f g wa oc lg].
  cbn [initPromise _ctx] in *. by subst.
Qed.

(** A rejected load is shared as well: every queued caller sees the
    error, there was one load and no context. *)
Lemma finish_getCtx_rejected (l : list nat) (e : Error) o out cx ip hp wt st f g wa oc lg :
  foldl (finish (E:=E) (Throw e)) (mkWorld o out cx ip hp wt st f g wa oc lg)
        (map (fun i => (i, KGetCtx)) l) =
  mkWorld o out cx ip hp wt (st ++ map (fun i => (i, Throw e)) l) f g wa oc lg.
Proof.
  revert st. induction l as [|i l IH]; intros st; cbn [foldl map].
  - by rewrite app_nil_r.
  - change (finish (Throw e) (mkWorld o out cx ip hp wt st f g wa oc lg) (i, KGetCtx))
      with (mkWorld o out cx ip hp wt (st ++ [(i, Throw e)]) f g wa oc lg).
    rewrite IH. by rewrite <- app_assoc.
Qed.

Lemma init_rejection_is_shared (w0 : World E) (n : nat) (e : Error) :
  initPromise w0 = None -> waiting w0 = [] -> 0 < n ->
  let w := settle (Throw e) (getCtx_calls n w0) in
  count is_loadConfig (log w) = count is_loadConfig (log w0) + 1 /\
  count is_createContext (log w) = count is_createContext (log w0) /\
  _ctx w = _ctx w0 /\ heap w = heap w0 /\
  settled w = settled w0 ++ map (fun i => (i, Throw e)) (seq 0 n).
Proof.
  intros Hp Hw Hn w. subst w. destruct n as [|m]; [lia|].
  destruct w0 as [o out cx ip hp wt st f g wa oc lg].
  cbn [initPromise waiting log heap settled _ctx] in *. subst ip wt.
  unfold getCtx_calls. cbn [seq foldl].
  rewrite call_getCtx_fresh, calls_pending.
  change (settle (Throw e) ?x) with
    (foldl (finish (Throw e))
       (mkWorld o out cx (Some (Rejected e)) hp [] st f g wa oc
                (lg ++ [EvLoadConfig (cwd o) (configPath o)]))
       (map (fun i => (i, KGetCtx)) (seq 0 (S m)))).
  rewrite finish_getCtx_rejected.
  cbn [initPromise waiting log heap settled _ctx].
  rewrite !count_app. split; [|split]; [cbn; lia ..|]. done.
Qed.

(** *** The virtual module registry *)

Lemma createVirtualModuleId_resolved (s : string) :
  VirtualModuleId.resolved (createVirtualModuleId s)
  = String "000"%char (VirtualModuleId.id (createVirtualModuleId s)).
Proof. reflexivity. Qed.

Lemma resolveId_known (id : string) :
  id ∈ known_symbolic -> resolveId id = VText (String "000"%char id).
Proof.
  unfold known_symbolic. rewrite !elem_of_cons, elem_of_nil.
  intros [->|[->|[->|[]]]]; reflexivity.
Qed.

Lemma resolveId_unknown (id : string) :
  id ∉ known_symbolic -> resolveId id = VUndefined.
Proof.
  unfold known_symbolic. rewrite !not_elem_of_cons. intros (H1 & H2 & H3 & _).
  unfold resolveId.
  apply String.eqb_neq in H1, H2, H3. by rewrite H1, H2, H3.
Qed.

(** C9. Stable virtual identity: [resolveId] answers from its argument
    alone, so the same id resolves to the same value in any two worlds
    of the process; the three registered symbolic ids resolve to
    themselves behind a NUL character, every other id to [undefined];
    and the call leaves the world as it was, with nothing added to the
    log of outside calls, only its own outcome being recorded. *)
Theorem resolveId_stable_pure (id : string) (w1 w2 : World E) (n : nat) :
  (enter (HResolveId id) w1).1 = (enter (HResolveId id) w2).1 /\
  enter (HResolveId id) w1 = (Ok (Return (resolveId id)), w1) /\
  call n (HResolveId id) w1 = settle_call n (Ok (resolveId id)) w1 /\
  resolveId id = (if bool_decide (id ∈ known_symbolic)
                  then VText (String "000"%char id) else VUndefined).
Proof.
  repeat split.
  case_bool_decide as Hk.
  - by apply resolveId_known.
  - by apply resolveId_unknown.
Qed.

(** *** resolveOptions *)

Lemma normalizeObject_default (obj : gmap string (option Matcher)) (k : string) :
  k ∈ ["pattern"; "recipe"; "jsx-factory"; "jsx-pattern"] ->
  obj !! k = None ->
  normalizeObject obj !! k = Some (Some (nullish (prop obj "cva") auto)).
Proof.
  rewrite !elem_of_cons, elem_of_nil. unfold normalizeObject.
  intros Hk Hn. rewrite lookup_union_r by done.
  destruct Hk as [->|[->|[->|[->|[]]]]]; by simplify_map_eq.
Qed.

(** C10. When [optimizeJs] is provided, [resolveOptions] returns it as
    given.  The local copy built for an object input, in which the
    [pattern], [recipe], [jsx-factory] and [jsx-pattern] kinds that the
    input leaves out take the value of [cva] (or ['auto'] without one),
    is not what is returned. *)
Theorem resolveOptions_keeps_raw_optimizeJs
    (o : PandaPluginOptions) (v : OptimizeJs) :
  raw_optimizeJs o = Some v ->
  optimizeJs (resolveOptions o) = v /\
  forall obj, v = OJObj obj ->
    local_optimizeJs o = OJObj (normalizeObject obj) /\
    optimizeJs (resolveOptions o) = OJObj obj /\
    forall k, k ∈ ["pattern"; "recipe"; "jsx-factory"; "jsx-pattern"] ->
      obj !! k = None ->
      normalizeObject obj !! k = Some (Some (nullish (prop obj "cva") auto)).
Proof.
  intros Hv. unfold resolveOptions, local_optimizeJs. rewrite Hv. cbn.
  split; [done|]. intros obj ->. repeat split.
  apply normalizeObject_default.
Qed.

(** *** Running the monad one step at a time *)

Lemma bind_ret {A B} (a : A) (k : A -> M E B) w : bind (ret a) k w = k a w.
Proof. reflexivity. Qed.

Lemma bind_throw {A B} (e : Error) (k : A -> M E B) w :
  bind (throw e) k w = (Throw e, w).
Proof. reflexivity. Qed.

Lemma bind_gets {A B} (f : World E -> A) (k : A -> M E B) w :
  bind (gets f) k w = k (f w) w.
Proof. reflexivity. Qed.

Lemma bind_modify {B} (f : World E -> World E) (k : unit -> M E B) w :
  bind (modify f) k w = k tt (f w).
Proof. reflexivity. Qed.

Lemma bind_emit {B} (e : Event) (k : unit -> M E B) w :
  bind (emit e) k w = k tt (set_log w (log w ++ [e])).
Proof. reflexivity. Qed.

Lemma bind_store {B} r c (k : unit -> M E B) w :
  bind (store r c) k w = k tt (set_heap w (<[r := c]> (heap w))).
Proof. reflexivity. Qed.

Lemma bind_deref {B} r c (k : Ctx E -> M E B) w :
  heap w !! r = Some c -> bind (deref r) k w = k c w.
Proof. intros H. unfold bind, deref. by rewrite H. Qed.

Lemma bind_bind {A B C} (m : M E A) (k : A -> M E B) (h : B -> M E C) w :
  bind (bind m k) h w = bind m (fun a => bind (k a) h) w.
Proof. unfold bind. destruct (m w) as [[a|e] w']; reflexivity. Qed.

Lemma bind_when_true {B} (m : M E unit) (k : unit -> M E B) w :
  bind (when true m) k w = bind m k w.
Proof. reflexivity. Qed.

Lemma bind_when_false {B} (m : M E unit) (k : unit -> M E B) w :
  bind (when false m) k w = k tt w.
Proof. reflexivity. Qed.

Ltac norm :=
  cbn [options outfile _ctx initPromise heap waiting settled fs moduleGraph
       watcher onChange log set_options set_outfile set__ctx set_initPromise
       set_heap set_waiting set_settled set_fs set_watcher set_onChange
       set_log fst snd negb andb].

Ltac exec :=
  repeat first
    [ rewrite bind_bind | rewrite bind_ret | rewrite bind_gets
    | rewrite bind_emit | rewrite bind_store | rewrite bind_modify
    | rewrite bind_when_true | rewrite bind_when_false
    | rewrite bind_throw
    | erewrite bind_deref by (norm; first [eassumption
        | rewrite list_lookup_insert_eq by (rewrite ?length_insert; eassumption);
          reflexivity])
    | progress norm ].

Lemma call_ready (n : nat) (h : Hook) (k : Cont) o out r hp wt st f g wa oc lg :
  enter h (mkWorld o out (Some r) (Some Fulfilled) hp wt st f g wa oc lg) =
    bind init (fun _ => ret (Await k))
         (mkWorld o out (Some r) (Some Fulfilled) hp wt st f g wa oc lg) ->
  call (E:=E) n h (mkWorld o out (Some r) (Some Fulfilled) hp wt st f g wa oc lg) =
  finish (Ok tt) (mkWorld o out (Some r) (Some Fulfilled) hp wt st f g wa oc lg) (n, k).
Proof. intros H. unfold call. rewrite H. reflexivity. Qed.

Lemma transform_usage_run o out r hp wt st f g wa oc lg c n code id sf p pr :
  hp !! r = Some c ->
  addSourceFile E (panda c) id (transformResult_code o code id) = (sf, p) ->
  parseSourceFile E p id = Some pr ->
  isEmpty E pr = false ->
  call (E:=E) n (HTransform code id)
       (mkWorld o out (Some r) (Some Fulfilled) hp wt st f g wa oc lg) =
  mkWorld o out (Some r) (Some Fulfilled)
    (<[r := files_set (set_panda c p) id code]> hp) wt
    (st ++ [(n, Ok (VTransform
                      (if truthy_optimizeJs (optimizeJs o)
                       then tranformPanda E (files_set (set_panda c p) id code)
                                          code id sf pr (optimizeJs o)
                       else TRNull)))])
    f g wa oc
    (lg ++ userTransform_events o code id
        ++ [EvAddSourceFile r id (transformResult_code o code id)]
        ++ (if truthy_optimizeJs (optimizeJs o) then [EvOptimize id] else [])).
Proof.
  intros Hh Ha Hp He.
  assert (Hr : r < length hp) by (by eapply lookup_lt_Some).
  rewrite (call_ready _ _ (KTransform code id)) by reflexivity.
  unfold finish, resume, getCtx_resume, transform_resume, userTransform_events.
  norm. exec. rewrite Ha. exec. rewrite Hp, He. exec.
  destruct (bool_decide (is_Some (transform_opt o)));
    destruct (truthy_optimizeJs (optimizeJs o)); exec;
    unfold settle_call; norm;
    rewrite list_insert_insert_eq, <- ?app_assoc; reflexivity.
Qed.

Lemma transform_skip_run o out r hp wt st f g wa oc lg c n code id sf p :
  hp !! r = Some c ->
  addSourceFile E (panda c) id (transformResult_code o code id) = (sf, p) ->
  no_usage (parseSourceFile E p id) = true ->
  call (E:=E) n (HTransform code id)
       (mkWorld o out (Some r) (Some Fulfilled) hp wt st f g wa oc lg) =
  mkWorld o out (Some r) (Some Fulfilled) (<[r := set_panda c p]> hp) wt
    (st ++ [(n, Ok (VTransform
                      match parseSourceFile E p id with
                      | Some pr =>
                          if truthy_optimizeJs (optimizeJs o)
                          then tranformPanda E (set_panda c p) code id sf pr
                                             (optimizeJs o)
                          else TRNull
                      | None => TRNull
                      end))])
    f g wa oc
    (lg ++ userTransform_events o code id
        ++ [EvAddSourceFile r id (transformResult_code o code id)]
        ++ match parseSourceFile E p id with
           | Some _ => if truthy_optimizeJs (optimizeJs o)
                       then [EvOptimize id] else []
           | None => []
           end).
Proof.
  intros Hh Ha Hn.
  assert (Hr : r < length hp) by (by eapply lookup_lt_Some).
  rewrite (call_ready _ _ (KTransform code id)) by reflexivity.
  unfold finish, resume, getCtx_resume, transform_resume, userTransform_events.
  norm. exec. rewrite Ha. exec.
  destruct (parseSourceFile E p id) as [pr|]; cbn [no_usage] in Hn;
    rewrite ?Hn;
    destruct (bool_decide (is_Some (transform_opt o)));
    try destruct (truthy_optimizeJs (optimizeJs o)); exec;
    unfold settle_call; norm; rewrite <- ?app_assoc; reflexivity.
Qed.

(** C7. Pre-transform bookkeeping: when the parse of a transformed file
    reports styling usage, the context object (still at the same
    address) maps the file id to the code the hook was called with,
    before any user transform, whereas the one call to the engine's
    [addSourceFile] for that id carried the code after the user
    transform: the authored code without a callback or when the
    callback returned nothing or the empty string, the string it
    returned otherwise, and the [code] of the object it returned. *)
Theorem transform_records_original_code
    (w : World E) r c (n : nat) (code id : string) sf p pr :
  ready w r c ->
  addSourceFile E (panda c) id (transformResult_code (options w) code id) = (sf, p) ->
  parseSourceFile E p id = Some pr ->
  isEmpty E pr = false ->
  let w' := call n (HTransform code id) w in
  let registered := transformResult_code (options w) code id in
  _ctx w' = Some r /\
  (exists c', heap w' !! r = Some c' /\ files c' !! id = Some code /\ panda c' = p) /\
  emitted w w' =
    userTransform_events (options w) code id
    ++ [EvAddSourceFile r id registered]
    ++ (if truthy_optimizeJs (optimizeJs (options w)) then [EvOptimize id] else []) /\
  (transform_opt (options w) = None -> registered = code) /\
  (forall f, transform_opt (options w) = Some f ->
     (f id code = TRNull -> registered = code) /\
     (forall s, f id code = TRString s ->
        registered = if String.eqb s "" then code else s) /\
     (forall u m, f id code = TRObject u m -> registered = u)).
Proof.
  intros (Hi & Hc & Hh) Ha Hp He w' registered. subst w' registered.
  split; [|split; [|split]].
  - destruct w as [o out cx ip hp wt st f g wa oc lg].
    cbn [initPromise _ctx heap options] in *. subst ip cx.
    by rewrite (transform_usage_run _ _ _ _ _ _ _ _ _ _ _ c n code id sf p pr).
  - destruct w as [o out cx ip hp wt st f g wa oc lg].
    cbn [initPromise _ctx heap options] in *. subst ip cx.
    rewrite (transform_usage_run _ _ _ _ _ _ _ _ _ _ _ c n code id sf p pr) by done.
    norm. exists (files_set (set_panda c p) id code).
    rewrite list_lookup_insert_eq by (by eapply lookup_lt_Some).
    split; [done|]. split; [|done]. cbn. apply lookup_insert_eq.
  - destruct w as [o out cx ip hp wt st f g wa oc lg].
    cbn [initPromise _ctx heap options] in *. subst ip cx.
    rewrite (transform_usage_run _ _ _ _ _ _ _ _ _ _ _ c n code id sf p pr) by done.
    unfold emitted. norm. by rewrite drop_app_length.
  - unfold transformResult_code, truthy_str. split.
    + by intros ->.
    + intros f ->. split; [by intros ->|]. split.
      * intros s ->. by destruct (String.eqb s "").
      * by intros u m ->.
Qed.

(** C8. Parse-skip isolation: when the parse yields no result, or one
    without styling usage, the context object keeps its [files] map and
    its root; every cell of the plugin and of the host keeps its value,
    the engine having only received the registration of the file; and
    when [optimizeJs] is falsy (or there is no parse result at all) the
    hook answers [null] and the only calls that left the plugin are the
    user transform, if configured, and that registration. *)
Theorem transform_skip_isolated
    (w : World E) r c (n : nat) (code id : string) sf p :
  ready w r c ->
  addSourceFile E (panda c) id (transformResult_code (options w) code id) = (sf, p) ->
  no_usage (parseSourceFile E p id) = true ->
  let w' := call n (HTransform code id) w in
  heap w' = <[r := set_panda c p]> (heap w) /\
  files (set_panda c p) = files c /\
  root (set_panda c p) = root c /\
  (options w', outfile w', _ctx w', initPromise w', waiting w') =
    (options w, outfile w, _ctx w, initPromise w, waiting w) /\
  (fs w', moduleGraph w', watcher w', onChange w') =
    (fs w, moduleGraph w, watcher w, onChange w) /\
  (truthy_optimizeJs (optimizeJs (options w)) = false \/
   parseSourceFile E p id = None ->
   settled w' = settled w ++ [(n, Ok (VTransform TRNull))] /\
   emitted w w' =
     userTransform_events (options w) code id
     ++ [EvAddSourceFile r id (transformResult_code (options w) code id)]).
Proof.
  intros (Hi & Hc & Hh) Ha Hn w'. subst w'.
  destruct w as [o out cx ip hp wt st f g wa oc lg].
  cbn [initPromise _ctx heap options] in *. subst ip cx.
  rewrite (transform_skip_run _ _ _ _ _ _ _ _ _ _ _ c n code id sf p) by done.
  unfold emitted. norm. repeat (split; [done|]).
  intros Hd. rewrite drop_app_length.
  destruct (parseSourceFile E p id) as [pr|].
  - destruct Hd as [->|]; [|done]. by rewrite app_nil_r.
  - by rewrite app_nil_r.
Qed.

(** *** load *)

Lemma load_enter_artifact (w : World E) :
  is_helper (outfile w) = false ->
  load_enter (outfile w) w = bind init (fun _ => ret (Await KLoad)) w.
Proof.
  unfold is_helper, load_enter. intros [H1 H2]%orb_false_iff.
  rewrite H1, H2, bind_gets, String.eqb_refl. reflexivity.
Qed.

Lemma load_enter_foreign (id : string) (w : World E) :
  is_helper id = false -> String.eqb id (outfile w) = false ->
  load_enter id w = (Ok (Return VUndefined), w).
Proof.
  unfold is_helper, load_enter. intros [H1 H2]%orb_false_iff H3.
  rewrite H1, H2, bind_gets, H3. reflexivity.
Qed.

Lemma load_artifact_run o out r hp wt st f g wa oc lg c n :
  hp !! r = Some c ->
  is_helper out = false ->
  call (E:=E) n (HLoad out)
       (mkWorld o out (Some r) (Some Fulfilled) hp wt st f g wa oc lg) =
  mkWorld o out (Some r) (Some Fulfilled) hp wt
          (st ++ [(n, Ok (VText (css_of c o)))]) f g wa oc
          (lg ++ [EvCreateSheet r]).
Proof.
  intros Hh Hn.
  rewrite (call_ready _ _ KLoad)
    by (by apply (load_enter_artifact (mkWorld _ _ _ _ _ _ _ _ _ _ _ _))).
  unfold finish, resume, getCtx_resume, load_resume, currentCss.
  norm. exec. reflexivity.
Qed.

Lemma load_foreign_run (id : string) (n : nat) (w : World E) :
  is_helper id = false -> String.eqb id (outfile w) = false ->
  call n (HLoad id) w = settle_call n (Ok VUndefined) w.
Proof.
  intros H1 H2. unfold call. cbn [enter]. by rewrite load_enter_foreign.
Qed.

Lemma load_never_writes (id : string) (n : nat) (w : World E) :
  fs (call n (HLoad id) w) = fs w /\
  forallb (fun e => negb (is_write e)) (emitted w (call n (HLoad id) w)) = true.
Proof.
  destruct w as [o out cx ip hp wt st f g wa oc lg].
  unfold emitted, call, enter, load_enter, init, finish, resume, getCtx_resume,
    load_resume, currentCss, bind, gets, emit, modify, ret, throw, deref,
    settle_call.
  cbn.
  repeat (case_match; simplify_eq/=); cbn;
    rewrite ?drop_app_length, ?drop_all; done.
Qed.

(** *** configureServer *)

Lemma bind_writeFile {B} (path text : string) (k : unit -> M E B) w :
  writable E path = true ->
  bind (writeFile path text) k w =
  k tt (set_log (set_fs w (<[path := text]> (fs w)))
                (log w ++ [EvWriteFile path text])).
Proof. intros H. unfold writeFile. rewrite H. reflexivity. Qed.

Lemma bind_writeFile_fail {B} (path text : string) (k : unit -> M E B) w :
  writable E path = false ->
  bind (writeFile path text) k w = (Throw (WriteError path), w).
Proof. intros H. unfold writeFile. rewrite H. reflexivity. Qed.

Lemma configureServer_run o out r hp wt st f g wa oc lg c n :
  hp !! r = Some c ->
  String.eqb out virtual_css = true \/ writable E out = true ->
  call (E:=E) n HConfigureServer
       (mkWorld o out (Some r) (Some Fulfilled) hp wt st f g wa oc lg) =
  let ok := match codegen E (panda c) with Ok _ => true | Throw _ => false end in
  mkWorld o out (Some r) (Some Fulfilled) hp wt
    (st ++ [(n, match codegen E (panda c) with
                | Ok _ => Ok VUndefined
                | Throw e => Throw e
                end)])
    (if String.eqb out virtual_css then f else <[out := css_of c o]> f)
    g
    (if ok then wa ∪ sources_of c else wa)
    (if ok then oc ++ [(r, sources_of c)] else oc)
    (lg ++ (if String.eqb out virtual_css then []
            else [EvCreateSheet r; EvWriteFile out (css_of c o)])
        ++ [EvCodegen r]).
Proof.
  intros Hh Hw.
  rewrite (call_ready _ _ KConfigureServer) by reflexivity.
  unfold finish, resume, getCtx_resume, configureServer_resume, currentCss.
  norm. exec. fold virtual_css.
  destruct (String.eqb out virtual_css) eqn:Hv; exec.
  - destruct (codegen E (panda c)); exec; unfold settle_call; norm;
      by rewrite <- ?app_assoc.
  - destruct Hw as [?|Hw]; [done|].
    rewrite bind_writeFile by done. exec.
    destruct (codegen E (panda c)); exec; unfold settle_call; norm;
      by rewrite <- ?app_assoc.
Qed.

(** *** The 'change' listener *)

Lemma change_listener_start_miss (l : CtxRef * gset string) (file : string)
    (s : list (Res unit) * World E) :
  listener_hit s.2 file l = false -> change_start file s l = s.
Proof.
  destruct l as [r sources], s as [awaited w].
  unfold listener_hit, change_start, change_listener_start, bind, deref.
  cbn [fst snd]. destruct (heap w !! r) as [c|]; [|done].
  intros ->. reflexivity.
Qed.

(** With one registered listener the event is that listener's run. *)
Lemma change_single (file : string) (now : Z) w (l : CtxRef * gset string) :
  onChange w = [l] -> change file now w = (change_listener l file now w).2.
Proof.
  intros Hl. unfold change, change_listener, change_start, bind. rewrite Hl.
  cbn [foldl fst snd app].
  destruct (change_listener_start l file w) as [[[a|]|e] w']; reflexivity.
Qed.

Lemma change_listener_hit r sources file now o out cx ip hp wt st f g wa oc lg c c' :
  hp !! r = Some c ->
  ensureAbsolute E file (root c) ∈ sources ->
  reloadContext E c = (Ok tt, c') ->
  change_listener (E:=E) (r, sources) file now
                  (mkWorld o out cx ip hp wt st f g wa oc lg) =
  (Ok tt,
   mkWorld o out cx ip (<[r := c']> hp) wt st f g wa oc
           (lg ++ EvReload r ::
               (if bool_decide (out ∈ g) then [EvInvalidate out now] else []))).
Proof.
  intros Hh Hs Hr.
  unfold change_listener, change_listener_start, change_listener_resume,
    invalidate. exec.
  rewrite bool_decide_eq_true_2 by done. norm. exec.
  rewrite Hr. exec.
  destruct (bool_decide (out ∈ g)); exec; by rewrite <- ?app_assoc.
Qed.

Lemma change_start_miss_all (file : string) (ls : list (CtxRef * gset string))
    (s : list (Res unit) * World E) :
  forallb (fun l => negb (listener_hit s.2 file l)) ls = true ->
  foldl (change_start file) s ls = s.
Proof.
  induction ls as [|l ls IH]; [done|]. cbn [forallb foldl].
  intros [Hl Hls]%andb_true_iff. apply negb_true_iff in Hl.
  rewrite change_listener_start_miss by done. by apply IH.
Qed.

Lemma change_miss_all (file : string) (now : Z) w :
  forallb (fun l => negb (listener_hit w file l)) (onChange w) = true ->
  change file now w = w.
Proof.
  intros H. unfold change.
  by rewrite (change_start_miss_all file (onChange w) ([], w)).
Qed.

(** *** handleHotUpdate *)

Lemma handleHotUpdate_skip o out r hp wt st f g wa oc lg c n file ts :
  hp !! r = Some c ->
  String.eqb file out = true \/ files c !! file = None \/ out ∉ g ->
  call (E:=E) n (HHandleHotUpdate file ts)
       (mkWorld o out (Some r) (Some Fulfilled) hp wt st f g wa oc lg) =
  mkWorld o out (Some r) (Some Fulfilled) hp wt (st ++ [(n, Ok VUndefined)])
          f g wa oc lg.
Proof.
  intros Hh Hs.
  rewrite (call_ready _ _ (KHandleHotUpdate file ts)) by reflexivity.
  unfold finish, resume, getCtx_resume, handleHotUpdate_resume, invalidate.
  norm. exec.
  destruct (String.eqb file out) eqn:Hf; exec; [done|].
  destruct (files c !! file) as [x|] eqn:Hx.
  - rewrite bool_decide_eq_true_2 by eauto. norm. exec.
    destruct Hs as [?|[?|Hg]]; [done..|].
    rewrite bool_decide_eq_false_2 by done. exec. reflexivity.
  - rewrite bool_decide_eq_false_2 by (by intros [??]). norm. exec. reflexivity.
Qed.

Lemma handleHotUpdate_run o out r hp wt st f g wa oc lg c n file ts :
  hp !! r = Some c ->
  String.eqb file out = false ->
  is_Some (files c !! file) ->
  out ∈ g ->
  String.eqb out virtual_css = true \/ writable E out = true ->
  call (E:=E) n (HHandleHotUpdate file ts)
       (mkWorld o out (Some r) (Some Fulfilled) hp wt st f g wa oc lg) =
  mkWorld o out (Some r) (Some Fulfilled) hp wt (st ++ [(n, Ok VUndefined)])
          (if String.eqb out virtual_css then f else <[out := css_of c o]> f)
          g wa oc
          (lg ++ EvInvalidate out ts ::
              (if String.eqb out virtual_css then []
               else [EvCreateSheet r; EvWriteFile out (css_of c o)])).
Proof.
  intros Hh Hf Hx Hg Hw.
  rewrite (call_ready _ _ (KHandleHotUpdate file ts)) by reflexivity.
  unfold finish, resume, getCtx_resume, handleHotUpdate_resume, invalidate,
    currentCss.
  norm. exec. rewrite Hf. exec.
  rewrite bool_decide_eq_true_2 by done. norm. exec.
  rewrite bool_decide_eq_true_2 by done. exec. fold virtual_css.
  destruct (String.eqb out virtual_css) eqn:Hv; exec.
  - reflexivity.
  - destruct Hw as [?|Hw]; [done|].
    rewrite bind_writeFile by done. exec.
    unfold settle_call; norm. by rewrite <- ?app_assoc.
Qed.

(** *** Claims about load, the watcher and hot updates *)

Lemma outfile_of_unset (o : Options) :
  truthy_ostr (outfile_opt o) = false -> outfile_of (E:=E) o = virtual_css.
Proof.
  unfold outfile_of, truthy_ostr. destruct (outfile_opt o) as [x|]; [|done].
  by intros ->.
Qed.

(** C2 (amended). With [outfile] unset (absent or empty) the artifact's
    id is the resolved virtual id and its load returns
    [toCss(createSheet(), options)] computed at that instant.  With
    [outfile] set, the id the plugin answers for is the absolute path:
    loading that path returns the same text, loading the resolved
    virtual id returns [undefined], and no load ever writes to disk;
    the text reaches the outfile path when [configureServer] runs. *)
Theorem load_serves_artifact_without_writing (w : World E) r c (n : nat) :
  ready w r c ->
  outfile w = outfile_of (E:=E) (options w) ->
  is_helper (outfile w) = false ->
  let css := css_of c (options w) in
  (truthy_ostr (outfile_opt (options w)) = false -> outfile w = virtual_css) /\
  last_outcome (call n (HLoad (outfile w)) w) = Some (n, Ok (VText css)) /\
  emitted w (call n (HLoad (outfile w)) w) = [EvCreateSheet r] /\
  (String.eqb virtual_css (outfile w) = false ->
   call n (HLoad virtual_css) w = settle_call n (Ok VUndefined) w) /\
  (forall id, fs (call n (HLoad id) w) = fs w /\
     forallb (fun e => negb (is_write e)) (emitted w (call n (HLoad id) w)) = true) /\
  (String.eqb (outfile w) virtual_css = false -> writable E (outfile w) = true ->
   fs (call n HConfigureServer w) !! outfile w = Some css /\
   EvWriteFile (outfile w) css ∈ emitted w (call n HConfigureServer w)).
Proof.
  intros (Hi & Hc & Hh) Ho Hn css. subst css.
  split; [intros Hu; rewrite Ho; by apply outfile_of_unset|].
  split; [|split; [|split; [|split]]].
  - destruct w as [o out cx ip hp wt st f g wa oc lg].
    cbn [initPromise _ctx heap options outfile] in *. subst ip cx.
    rewrite (load_artifact_run _ _ _ _ _ _ _ _ _ _ _ c) by done.
    unfold last_outcome. norm. by rewrite last_snoc.
  - destruct w as [o out cx ip hp wt st f g wa oc lg].
    cbn [initPromise _ctx heap options outfile] in *. subst ip cx.
    rewrite (load_artifact_run _ _ _ _ _ _ _ _ _ _ _ c) by done.
    unfold emitted. norm. by rewrite drop_app_length.
  - intros Hv. by apply load_foreign_run.
  - intros id. apply load_never_writes.
  - intros Hv Hw.
    destruct w as [o out cx ip hp wt st f g wa oc lg].
    cbn [initPromise _ctx heap options outfile] in *. subst ip cx.
    rewrite (configureServer_run _ _ _ _ _ _ _ _ _ _ _ c) by eauto.
    unfold emitted. cbn zeta. norm. rewrite Hv, drop_app_length.
    split; [apply lookup_insert_eq|]. set_solver.
Qed.

(** C3 (amended). [handleHotUpdate] issues the invalidation first and
    recomputes and writes the artifact afterwards, before the hook
    returns; the 'change' listener invalidates after the context reload
    has completed and writes nothing. *)
Theorem invalidation_precedes_write_in_hot_update
    (w : World E) r c (n : nat) (file : string) (ts : Z) :
  ready w r c ->
  outfile w ∈ moduleGraph w ->
  (String.eqb file (outfile w) = false ->
   is_Some (files c !! file) ->
   String.eqb (outfile w) virtual_css = false ->
   writable E (outfile w) = true ->
   emitted w (call n (HHandleHotUpdate file ts) w) =
     [EvInvalidate (outfile w) ts; EvCreateSheet r;
      EvWriteFile (outfile w) (css_of c (options w))]) /\
  forall sources dep now c',
    ensureAbsolute E dep (root c) ∈ sources ->
    reloadContext E c = (Ok tt, c') ->
    let w' := (change_listener (r, sources) dep now w).2 in
    emitted w w' = [EvReload r; EvInvalidate (outfile w) now] /\
    invalidation_ordered w w'.
Proof.
  intros (Hi & Hc & Hh) Hg.
  destruct w as [o out cx ip hp wt st f g wa oc lg].
  cbn [initPromise _ctx heap options outfile moduleGraph] in *. subst ip cx.
  split.
  - intros Hf Hx Hv Hw.
    rewrite (handleHotUpdate_run _ _ _ _ _ _ _ _ _ _ _ c) by eauto.
    unfold emitted. norm. by rewrite Hv, drop_app_length.
  - intros sources dep now c' Hs Hr. cbn zeta.
    rewrite (change_listener_hit _ _ _ _ _ _ _ _ _ _ _ _ _ _ _ _ c c') by done.
    unfold invalidation_ordered, emitted. norm.
    rewrite bool_decide_eq_true_2, drop_app_length by done. done.
Qed.

(** C4 (amended). A change event for a file whose absolute form is in
    the sources captured at server start calls [reloadContext] on the
    context captured there, which is updated in place: [_ctx] and the
    memoized promise keep their values, so a later [getCtx()] returns
    the same reference; afterwards the module-graph entry for [outfile]
    is invalidated when the graph holds one, and nothing is written. *)
Theorem dependency_change_reloads_in_place
    (w : World E) r c c' sources (n : nat) (file : string) (now : Z) :
  ready w r c ->
  onChange w = [(r, sources)] ->
  ensureAbsolute E file (root c) ∈ sources ->
  reloadContext E c = (Ok tt, c') ->
  let w' := change file now w in
  _ctx w' = _ctx w /\
  initPromise w' = initPromise w /\
  heap w' = <[r := c']> (heap w) /\
  fs w' = fs w /\
  emitted w w' =
    EvReload r :: (if bool_decide (outfile w ∈ moduleGraph w)
                   then [EvInvalidate (outfile w) now] else []) /\
  last_outcome (call n HGetCtx w') = Some (n, Ok (VCtx r)).
Proof.
  intros (Hi & Hc & Hh) Hl Hs Hr w'. subst w'.
  rewrite (change_single _ _ _ _ Hl).
  destruct w as [o out cx ip hp wt st f g wa oc lg].
  cbn [initPromise _ctx heap options outfile moduleGraph onChange] in *.
  subst ip cx oc.
  rewrite (change_listener_hit _ _ _ _ _ _ _ _ _ _ _ _ _ _ _ _ c c') by done.
  unfold emitted, last_outcome. norm. rewrite drop_app_length.
  repeat (split; [done|]).
  unfold call. cbn. by rewrite last_snoc.
Qed.

(** C5 (amended). A hot update for a file recorded in [Context.files],
    other than the artifact itself: when the graph holds a module for
    [outfile], that entry is invalidated and then, if an outfile is
    configured, the artifact is rewritten on disk; when the graph holds
    no such module, nothing is invalidated and nothing is written.  In
    both cases the context reference and the context object are left
    as they were and no reload occurs.  Whether the file is in the
    DependencySet plays no part. *)
Theorem source_change_invalidates_without_reload
    (w : World E) r c (n : nat) (file : string) (ts : Z) :
  ready w r c ->
  is_Some (files c !! file) ->
  String.eqb file (outfile w) = false ->
  let w' := call n (HHandleHotUpdate file ts) w in
  (outfile w ∈ moduleGraph w ->
   String.eqb (outfile w) virtual_css = true \/ writable E (outfile w) = true ->
   emitted w w' =
     EvInvalidate (outfile w) ts ::
       (if String.eqb (outfile w) virtual_css then []
        else [EvCreateSheet r; EvWriteFile (outfile w) (css_of c (options w))]) /\
   fs w' = (if String.eqb (outfile w) virtual_css then fs w
            else <[outfile w := css_of c (options w)]> (fs w)) /\
   _ctx w' = _ctx w /\ initPromise w' = initPromise w /\ heap w' = heap w /\
   existsb is_reload (emitted w w') = false /\
   last_outcome w' = Some (n, Ok VUndefined)) /\
  (outfile w ∉ moduleGraph w ->
   w' = settle_call n (Ok VUndefined) w /\
   emitted w w' = [] /\ fs w' = fs w /\
   existsb is_invalidate (emitted w w') = false /\
   existsb is_write (emitted w w') = false /\
   _ctx w' = _ctx w /\ initPromise w' = initPromise w /\ heap w' = heap w /\
   last_outcome w' = Some (n, Ok VUndefined)).
Proof.
  intros (Hi & Hc & Hh) Hx Hf w'. subst w'.
  destruct w as [o out cx ip hp wt st f g wa oc lg].
  cbn [initPromise _ctx heap options outfile moduleGraph fs] in *. subst ip cx.
  split.
  - intros Hg Hw.
    rewrite (handleHotUpdate_run _ _ _ _ _ _ _ _ _ _ _ c) by done.
    unfold emitted, last_outcome. norm. rewrite drop_app_length, last_snoc.
    repeat (split; [done|]). split; [|done].
    by destruct (String.eqb out virtual_css).
  - intros Hg.
    rewrite (handleHotUpdate_skip _ _ _ _ _ _ _ _ _ _ _ c) by eauto.
    unfold emitted, last_outcome, settle_call. norm.
    by rewrite drop_all, last_snoc.
Qed.

(** C6. Irrelevant-change no-op: for a file that is in no listener's
    DependencySet and is not recorded in [Context.files], the 'change'
    event leaves the world exactly as it was, and the hot update only
    returns: nothing is reloaded, recomputed, written or invalidated. *)
Theorem irrelevant_change_is_noop
    (w : World E) r c (n : nat) (file : string) (now ts : Z) :
  ready w r c ->
  dependency_hit w file = false ->
  files c !! file = None ->
  change file now w = w /\
  call n (HHandleHotUpdate file ts) w = settle_call n (Ok VUndefined) w /\
  emitted w (change file now w) = [] /\
  emitted w (call n (HHandleHotUpdate file ts) w) = [].
Proof.
  intros (Hi & Hc & Hh) Hd Hx.
  assert (Hch : change file now w = w).
  { apply change_miss_all.
    unfold dependency_hit in Hd. apply forallb_forall. intros l Hl.
    apply negb_true_iff. destruct (listener_hit w file l) eqn:Hhit; [|done].
    exfalso. apply (eq_true_false_abs (existsb (listener_hit w file) (onChange w)));
      [|done]. apply existsb_exists. eauto. }
  assert (Hhot : call n (HHandleHotUpdate file ts) w = settle_call n (Ok VUndefined) w).
  { destruct w as [o out cx ip hp wt st f g wa oc lg].
    cbn [initPromise _ctx heap options outfile] in *. subst ip cx.
    by rewrite (handleHotUpdate_skip _ _ _ _ _ _ _ _ _ _ _ c) by eauto. }
  split; [done|]. split; [done|]. rewrite Hch, Hhot.
  unfold emitted, settle_call. destruct w; norm. by rewrite drop_all.
Qed.

(** *** Invariants of the reachable worlds *)

Lemma stable_refl w : stable w w.
Proof. by unfold stable. Qed.

Lemma stable_trans w1 w2 w3 : stable w1 w2 -> stable w2 w3 -> stable w1 w3.
Proof. unfold stable. intros (?&?&?&?&?) (?&?&?&?&?). repeat split; congruence. Qed.

Lemma preserves_ret {A} (a : A) : preserves (E:=E) (ret a).
Proof. intros w. apply stable_refl. Qed.

Lemma preserves_throw {A} (e : Error) : preserves (E:=E) (throw (A:=A) e).
Proof. intros w. apply stable_refl. Qed.

Lemma preserves_gets {A} (f : World E -> A) : preserves (gets f).
Proof. intros w. apply stable_refl. Qed.

Lemma preserves_emit (e : Event) : preserves (E:=E) (emit e).
Proof. intros w. by destruct w. Qed.

Lemma preserves_deref r : preserves (E:=E) (deref r).
Proof. intros w. unfold deref. destruct (heap w !! r); apply stable_refl. Qed.

Lemma preserves_store r c : preserves (store r c).
Proof.
  intros w. destruct w. unfold stable. cbn. by rewrite length_insert.
Qed.

Lemma preserves_modify (f : World E -> World E) :
  (forall w, stable w (f w)) -> preserves (modify f).
Proof. intros H w. apply H. Qed.

Lemma preserves_bind {A B} (m : M E A) (k : A -> M E B) :
  preserves m -> (forall a, preserves (k a)) -> preserves (bind m k).
Proof.
  intros Hm Hk w. unfold bind. specialize (Hm w).
  destruct (m w) as [[a|e] w1]; cbn [snd] in *; [|done].
  eapply stable_trans; [exact Hm|apply Hk].
Qed.

Lemma preserves_when (b : bool) (m : M E unit) :
  preserves m -> preserves (when b m).
Proof. destruct b; [done|]. intros _. apply preserves_ret. Qed.

Lemma preserves_writeFile (path text : string) : preserves (E:=E) (writeFile path text).
Proof.
  unfold writeFile. destruct (writable E path); [|apply preserves_throw].
  apply preserves_bind; [|intros _; apply preserves_emit].
  apply preserves_modify. intros w. by destruct w.
Qed.

Lemma preserves_currentCss r : preserves (E:=E) (currentCss r).
Proof.
  unfold currentCss.
  repeat first [ apply preserves_bind; [|intros ?] | apply preserves_deref
               | apply preserves_emit | apply preserves_gets | apply preserves_ret ].
Qed.

Lemma preserves_invalidate (file : string) (ts : Z) : preserves (E:=E) (invalidate file ts).
Proof.
  unfold invalidate. apply preserves_bind; [apply preserves_gets|]. intros g.
  case_bool_decide;
    repeat first [ apply preserves_bind; [|intros ?] | apply preserves_emit
                 | apply preserves_ret ].
Qed.

Ltac keep :=
  repeat first
    [ apply preserves_ret | apply preserves_throw | apply preserves_gets
    | apply preserves_emit | apply preserves_deref | apply preserves_store
    | apply preserves_writeFile | apply preserves_currentCss
    | apply preserves_invalidate
    | apply preserves_when
    | apply preserves_bind; [|intros ?]
    | apply preserves_modify; intros []; done ].

Lemma preserves_getCtx_resume (a : Res unit) : preserves (E:=E) (getCtx_resume a).
Proof.
  destruct a as [[]|e]; cbn [getCtx_resume]; keep.
  match goal with |- preserves (match ?x with _ => _ end) => destruct x end; keep.
Qed.

Lemma preserves_transform_resume (code id : string) r :
  preserves (E:=E) (transform_resume code id r).
Proof.
  unfold transform_resume. keep.
  destruct (addSourceFile E _ _ _) as [sf p]. keep.
  destruct (parseSourceFile E p id) as [pr|]; keep.
  destruct (negb (truthy_optimizeJs _)); keep.
Qed.

Lemma preserves_configureServer_resume r : preserves (E:=E) (configureServer_resume r).
Proof.
  unfold configureServer_resume. keep.
  destruct (codegen E _); keep.
Qed.

Lemma preserves_handleHotUpdate_resume (file : string) (ts : Z) r :
  preserves (E:=E) (handleHotUpdate_resume file ts r).
Proof.
  unfold handleHotUpdate_resume. keep.
  destruct (String.eqb file _); keep.
  destruct (negb _); keep.
Qed.

Lemma preserves_resume (a : Res unit) (k : Cont) : preserves (E:=E) (resume a k).
Proof.
  unfold resume. apply preserves_bind; [apply preserves_getCtx_resume|].
  intros r. destruct k.
  - keep.
  - unfold load_resume. keep.
  - apply preserves_transform_resume.
  - apply preserves_configureServer_resume.
  - apply preserves_handleHotUpdate_resume.
Qed.

Lemma preserves_change_listener_start l (file : string) :
  preserves (E:=E) (change_listener_start l file).
Proof.
  destruct l as [r sources]. unfold change_listener_start. keep.
  destruct (negb _); keep.
  destruct (reloadContext E _) as [res c']. keep.
Qed.

Lemma preserves_change_listener_resume (a : Res unit) (now : Z) :
  preserves (E:=E) (change_listener_resume a now).
Proof. destruct a; unfold change_listener_resume; keep. Qed.

Lemma stable_settle_call (n : nat) (v : Res Value) w : stable w (settle_call n v w).
Proof. by destruct w. Qed.

Lemma stable_finish (a : Res unit) w (ck : nat * Cont) : stable w (finish a w ck).
Proof.
  unfold finish. pose proof (preserves_resume a ck.2 w) as H.
  destruct (resume a ck.2 w) as [v w1]. cbn [snd] in H.
  eapply stable_trans; [exact H|apply stable_settle_call].
Qed.

Lemma stable_foldl {A} (f : World E -> A -> World E) (l : list A) w :
  (forall w a, stable w (f w a)) -> stable w (foldl f w l).
Proof.
  intros Hf. revert w. induction l as [|a l IH]; intros w; cbn [foldl].
  - apply stable_refl.
  - eapply stable_trans; [apply Hf|apply IH].
Qed.

Lemma invariant_stable w w' : stable w w' -> invariant w -> invariant w'.
Proof.
  unfold stable, invariant. intros (Ho & Hout & Hc & Hp & Hl) [H1 H2].
  rewrite Ho, Hout, Hc, Hp, Hl. done.
Qed.

(** [init()] only ever moves the promise from absent to pending. *)
Lemma invariant_init w : invariant w -> invariant (init w).2.
Proof.
  destruct w as [o out cx ip hp wt st f g wa oc lg]. unfold invariant.
  destruct ip as [p|]; cbn; [done|]. intros [H1 _]. split; [done|]. discriminate.
Qed.

Lemma init_promise_started w : initPromise (init w).2 <> None.
Proof. destruct w as [o out cx [p|] hp wt st f g wa oc lg]; cbn; discriminate. Qed.

Lemma invariant_configResolved (configFile : option string) (viteRoot : string) w :
  invariant w -> invariant (configResolved configFile viteRoot w).2.
Proof.
  destruct w as [o out cx ip hp wt st f g wa oc lg]. unfold invariant, configResolved.
  rewrite bind_gets. norm. destruct (negb (truthy_str (cwd o))); [|done].
  rewrite !bind_modify. cbn. intros [_ H2]. done.
Qed.

Lemma invariant_enter (h : Hook) w : invariant w -> invariant (enter h w).2.
Proof.
  intros Hi.
  assert (Hawait : forall k, invariant (bind init (fun _ => ret (Await k)) w).2).
  { intros k. unfold bind. pose proof (invariant_init w Hi) as H.
    destruct (init w) as [[[]|e] w1]; exact H. }
  destruct h; cbn [enter]; try apply Hawait; try done.
  - unfold load_enter.
    repeat (match goal with |- context [if ?b then _ else _] => destruct b end;
            try done).
    rewrite bind_gets.
    match goal with |- context [if ?b then _ else _] => destruct b end;
      [done|apply Hawait].
  - unfold bind. pose proof (invariant_configResolved configFile root0 w Hi) as H.
    destruct (configResolved configFile root0 w) as [[[]|e] w1]; exact H.
Qed.

Lemma invariant_call (n : nat) (h : Hook) w : invariant w -> invariant (call n h w).
Proof.
  intros Hi. unfold call. pose proof (invariant_enter h w Hi) as H.
  destruct (enter h w) as [[[v|k]|e] w1]; cbn [snd] in H.
  - eapply invariant_stable; [apply stable_settle_call|done].
  - destruct (initPromise w1) as [[| |e]|];
      try (eapply invariant_stable; [apply stable_finish|done]);
      by destruct w1.
  - eapply invariant_stable; [apply stable_settle_call|done].
Qed.

Lemma invariant_settle (outcome : Res LoadConfigResult) w :
  invariant w -> invariant (settle outcome w).
Proof.
  intros Hi. unfold settle.
  destruct (initPromise w) as [[| |e]|] eqn:Hp; try done.
  destruct outcome as [conf|e].
  - eapply invariant_stable; [apply stable_foldl; intros; apply stable_finish|].
    destruct w as [o out cx ip hp wt st f g wa oc lg]. destruct Hi as [H1 _].
    cbn in *. split; [done|]. intros _. exists (length hp).
    norm. split; [done|]. rewrite length_app. cbn. lia.
  - eapply invariant_stable; [apply stable_foldl; intros; apply stable_finish|].
    destruct w as [o out cx ip hp wt st f g wa oc lg]. destruct Hi as [H1 _].
    cbn in *. split; [done|]. discriminate.
Qed.

Lemma stable_change_start (file : string) (ls : list (CtxRef * gset string))
    (s : list (Res unit) * World E) :
  stable s.2 (foldl (change_start file) s ls).2.
Proof.
  revert s. induction ls as [|l ls IH]; intros s; cbn [foldl].
  - apply stable_refl.
  - eapply stable_trans; [|apply IH].
    unfold change_start.
    pose proof (preserves_change_listener_start l file s.2) as H.
    destruct (change_listener_start l file s.2) as [[[a|]|e] w']; exact H.
Qed.

Lemma stable_change (file : string) (now : Z) w : stable w (change file now w).
Proof.
  unfold change.
  pose proof (stable_change_start file (onChange w) ([], w)) as H.
  destruct (foldl (change_start file) ([], w) (onChange w)) as [awaited w1].
  eapply stable_trans; [exact H|].
  apply stable_foldl. intros w2 a. apply preserves_change_listener_resume.
Qed.

Lemma invariant_change (file : string) (now : Z) w :
  invariant w -> invariant (change file now w).
Proof. intros Hi. eapply invariant_stable; [apply stable_change|exact Hi]. Qed.

(** In every reachable world [outfile] agrees with the options, and once
    the memoized promise is fulfilled [_ctx] names a context in the
    heap: [getCtx] cannot then fail with 'context not initialized'. *)
Lemma reachable_invariant w : reachable w -> invariant w.
Proof.
  induction 1 as [raw disk graph|n h w _ IH|a w _ IH|file now w _ IH|disk graph w _ IH].
  - split; [reflexivity|]. cbn. discriminate.
  - by apply invariant_call.
  - by apply invariant_settle.
  - by apply invariant_change.
  - by destruct w.
Qed.

Lemma reachable_ready w :
  reachable w -> initPromise w = Some Fulfilled -> exists r c, ready w r c.
Proof.
  intros Hr Hp. destruct (reachable_invariant w Hr) as [_ H].
  destruct (H Hp) as (r & Hc & Hlt).
  destruct (lookup_lt_is_Some_2 _ _ Hlt) as [c Hh]. by exists r, c.
Qed.


(** *** What no hook body does: load, construct, or touch the queues *)

Lemma calm_refl w : calm w w.
Proof. by unfold calm. Qed.

Lemma calm_trans w1 w2 w3 : calm w1 w2 -> calm w2 w3 -> calm w1 w3.
Proof. unfold calm. intros (?&?&?&?) (?&?&?&?). repeat split; congruence. Qed.

Lemma calmly_ret {A} (a : A) : calmly (E:=E) (ret a).
Proof. intros w. apply calm_refl. Qed.

Lemma calmly_throw {A} (e : Error) : calmly (E:=E) (throw (A:=A) e).
Proof. intros w. apply calm_refl. Qed.

Lemma calmly_gets {A} (f : World E -> A) : calmly (gets f).
Proof. intros w. apply calm_refl. Qed.

Lemma calmly_emit (e : Event) :
  is_loadConfig e = false -> is_createContext e = false -> calmly (E:=E) (emit e).
Proof.
  intros H1 H2 w. destruct w. unfold calm, count.
  cbn [emit modify snd log set_log settled waiting].
  rewrite !List.filter_app, !length_app. cbn [List.filter]. rewrite H1, H2. cbn.
  repeat split; lia.
Qed.

Lemma calmly_deref r : calmly (E:=E) (deref r).
Proof. intros w. unfold deref. destruct (heap w !! r); apply calm_refl. Qed.

Lemma calmly_store r c : calmly (store r c).
Proof. intros w. by destruct w. Qed.

Lemma calmly_modify (f : World E -> World E) :
  (forall w, calm w (f w)) -> calmly (modify f).
Proof. intros H w. apply H. Qed.

Lemma calmly_bind {A B} (m : M E A) (k : A -> M E B) :
  calmly m -> (forall a, calmly (k a)) -> calmly (bind m k).
Proof.
  intros Hm Hk w. unfold bind. specialize (Hm w).
  destruct (m w) as [[a|e] w1]; cbn [snd] in *; [|done].
  eapply calm_trans; [exact Hm|apply Hk].
Qed.

Lemma calmly_when (b : bool) (m : M E unit) : calmly m -> calmly (when b m).
Proof. destruct b; [done|]. intros _. apply calmly_ret. Qed.

Lemma calmly_writeFile (path text : string) : calmly (E:=E) (writeFile path text).
Proof.
  unfold writeFile. destruct (writable E path); [|apply calmly_throw].
  apply calmly_bind; [|intros _; by apply calmly_emit].
  apply calmly_modify. intros w. by destruct w.
Qed.

Lemma calmly_currentCss r : calmly (E:=E) (currentCss r).
Proof.
  unfold currentCss.
  repeat first [ apply calmly_bind; [|intros ?] | apply calmly_deref
               | apply calmly_emit; reflexivity | apply calmly_gets
               | apply calmly_ret ].
Qed.

Lemma calmly_invalidate (file : string) (ts : Z) : calmly (E:=E) (invalidate file ts).
Proof.
  unfold invalidate. apply calmly_bind; [apply calmly_gets|]. intros g.
  case_bool_decide;
    repeat first [ apply calmly_bind; [|intros ?] | apply calmly_emit; reflexivity
                 | apply calmly_ret ].
Qed.

Ltac hush :=
  repeat first
    [ apply calmly_ret | apply calmly_throw | apply calmly_gets
    | apply calmly_emit; reflexivity | apply calmly_deref | apply calmly_store
    | apply calmly_writeFile | apply calmly_currentCss | apply calmly_invalidate
    | apply calmly_when
    | apply calmly_bind; [|intros ?]
    | apply calmly_modify; intros []; done ].

Lemma calmly_getCtx_resume (a : Res unit) : calmly (E:=E) (getCtx_resume a).
Proof.
  destruct a as [[]|e]; cbn [getCtx_resume]; hush.
  match goal with |- calmly (match ?x with _ => _ end) => destruct x end; hush.
Qed.

Lemma calmly_transform_resume (code id : string) r :
  calmly (E:=E) (transform_resume code id r).
Proof.
  unfold transform_resume. hush.
  destruct (addSourceFile E _ _ _) as [sf p]. hush.
  destruct (parseSourceFile E p id) as [pr|]; hush.
  destruct (negb (truthy_optimizeJs _)); hush.
Qed.

Lemma calmly_configureServer_resume r : calmly (E:=E) (configureServer_resume r).
Proof.
  unfold configureServer_resume. hush.
  destruct (codegen E _); hush.
Qed.

Lemma calmly_handleHotUpdate_resume (file : string) (ts : Z) r :
  calmly (E:=E) (handleHotUpdate_resume file ts r).
Proof.
  unfold handleHotUpdate_resume. hush.
  destruct (String.eqb file _); hush.
  destruct (negb _); hush.
Qed.

Lemma calmly_resume (a : Res unit) (k : Cont) : calmly (E:=E) (resume a k).
Proof.
  unfold resume. apply calmly_bind; [apply calmly_getCtx_resume|].
  intros r. destruct k.
  - hush.
  - unfold load_resume. hush.
  - apply calmly_transform_resume.
  - apply calmly_configureServer_resume.
  - apply calmly_handleHotUpdate_resume.
Qed.

Lemma calmly_change_listener_start l (file : string) :
  calmly (E:=E) (change_listener_start l file).
Proof.
  destruct l as [r sources]. unfold change_listener_start. hush.
  destruct (negb _); hush.
  destruct (reloadContext E _) as [res c']. hush.
Qed.

Lemma calmly_change_listener_resume (a : Res unit) (now : Z) :
  calmly (E:=E) (change_listener_resume a now).
Proof. destruct a; unfold change_listener_resume; hush. Qed.

Lemma calm_change_start (file : string) (ls : list (CtxRef * gset string))
    (s : list (Res unit) * World E) :
  calm s.2 (foldl (change_start file) s ls).2.
Proof.
  revert s. induction ls as [|l ls IH]; intros s; cbn [foldl].
  - apply calm_refl.
  - eapply calm_trans; [|apply IH].
    unfold change_start.
    pose proof (calmly_change_listener_start l file s.2) as H.
    destruct (change_listener_start l file s.2) as [[[a|]|e] w']; exact H.
Qed.

Lemma calm_foldl {A} (f : World E -> A -> World E) (l : list A) w :
  (forall w a, calm w (f w a)) -> calm w (foldl f w l).
Proof.
  intros Hf. revert w. induction l as [|a l IH]; intros w; cbn [foldl].
  - apply calm_refl.
  - eapply calm_trans; [apply Hf|apply IH].
Qed.

Lemma calm_change (file : string) (now : Z) w : calm w (change file now w).
Proof.
  unfold change.
  pose proof (calm_change_start file (onChange w) ([], w)) as H.
  destruct (foldl (change_start file) ([], w) (onChange w)) as [awaited w1].
  eapply calm_trans; [exact H|].
  apply calm_foldl. intros w2 a. apply calmly_change_listener_resume.
Qed.


(** *** The whole life of the plugin *)

Lemma configResolved_run (configFile : option string) (viteRoot : string)
    o out cx ip hp wt st f g wa oc lg :
  configResolved (E:=E) configFile viteRoot
                 (mkWorld o out cx ip hp wt st f g wa oc lg) =
  (Ok tt,
   if truthy_str (cwd o) then mkWorld o out cx ip hp wt st f g wa oc lg
   else mkWorld (set_cwd o (config_dir (E:=E) configFile viteRoot))
                (outfile_of (E:=E)
                   (set_cwd o (config_dir (E:=E) configFile viteRoot)))
                cx ip hp wt st f g wa oc lg).
Proof.
  unfold configResolved. rewrite bind_gets. norm.
  destruct (truthy_str (cwd o)); [reflexivity|]. cbn [negb].
  rewrite !bind_modify. reflexivity.
Qed.

Lemma finish_shape (a : Res unit) w (ck : nat * Cont) :
  exists v w1, finish a w ck = settle_call ck.1 v w1 /\ stable w w1 /\ calm w w1.
Proof.
  unfold finish. pose proof (preserves_resume a ck.2 w) as Hs.
  pose proof (calmly_resume a ck.2 w) as Hc.
  destruct (resume a ck.2 w) as [v w1]. by exists v, w1.
Qed.

Lemma accounted_quiet w w' : stable w w' -> calm w w' -> accounted w -> accounted w'.
Proof.
  unfold stable, calm, accounted.
  intros (_ & _ & Hc & Hp & Hl) (Hn & Hm & _ & _) (H1 & H2 & H3 & H4).
  rewrite Hc, Hp, Hl, Hn, Hm. done.
Qed.

Lemma accounted_settle_call (n : nat) (v : Res Value) w :
  accounted w -> accounted (settle_call n v w).
Proof. by destruct w. Qed.

Lemma accounted_finish (a : Res unit) w (ck : nat * Cont) :
  accounted w -> accounted (finish a w ck).
Proof.
  intros H. destruct (finish_shape a w ck) as (v & w1 & -> & Hs & Hc).
  apply accounted_settle_call. by eapply accounted_quiet.
Qed.

Lemma accounted_foldl {A} (f : World E -> A -> World E) (l : list A) w :
  (forall w a, accounted w -> accounted (f w a)) ->
  accounted w -> accounted (foldl f w l).
Proof.
  intros Hf. revert w. induction l as [|a l IH]; intros w Hw; cbn [foldl]; auto.
Qed.

Lemma accounted_init w : accounted w -> accounted (init w).2.
Proof.
  destruct w as [o out cx ip hp wt st f g wa oc lg]. unfold accounted.
  destruct ip as [p|]; [done|]. cbn -[count].
  intros (H1 & H2 & H3 & H4). rewrite !count_app.
  change (count is_loadConfig [EvLoadConfig (cwd o) (configPath o)]) with 1.
  change (count is_createContext [EvLoadConfig (cwd o) (configPath o)]) with 0.
  repeat split; try lia. intros Hx. by specialize (H4 Hx).
Qed.

Lemma accounted_configResolved (configFile : option string) (viteRoot : string) w :
  accounted w -> accounted (configResolved configFile viteRoot w).2.
Proof.
  destruct w as [o out cx ip hp wt st f g wa oc lg]. unfold configResolved.
  rewrite bind_gets. norm. destruct (negb (truthy_str (cwd o))); [|done].
  by rewrite !bind_modify.
Qed.

Lemma accounted_enter (h : Hook) w : accounted w -> accounted (enter h w).2.
Proof.
  intros Hi.
  assert (Hawait : forall k, accounted (bind init (fun _ => ret (Await k)) w).2).
  { intros k. unfold bind. pose proof (accounted_init w Hi) as H.
    destruct (init w) as [[[]|e] w1]; exact H. }
  destruct h; cbn [enter]; try apply Hawait; try done.
  - unfold load_enter.
    repeat (match goal with |- context [if ?b then _ else _] => destruct b end;
            try done).
    rewrite bind_gets.
    match goal with |- context [if ?b then _ else _] => destruct b end;
      [done|apply Hawait].
  - unfold bind. pose proof (accounted_configResolved configFile root0 w Hi) as H.
    destruct (configResolved configFile root0 w) as [[[]|e] w1]; exact H.
Qed.

Lemma accounted_call (n : nat) (h : Hook) w : accounted w -> accounted (call n h w).
Proof.
  intros Hi. unfold call. pose proof (accounted_enter h w Hi) as H.
  destruct (enter h w) as [[[v|k]|e] w1]; cbn [snd] in H.
  - by apply accounted_settle_call.
  - destruct (initPromise w1) as [[| |e]|];
      try (by apply accounted_finish); by destruct w1.
  - by apply accounted_settle_call.
Qed.

Lemma accounted_settle (outcome : Res LoadConfigResult) w :
  accounted w -> accounted (settle outcome w).
Proof.
  intros Hi. unfold settle.
  destruct (initPromise w) as [[| |e]|] eqn:Hp; try done.
  destruct outcome as [conf|e];
    (apply accounted_foldl; [intros; by apply accounted_finish|]);
    destruct w as [o out cx ip hp wt st f g wa oc lg];
    destruct Hi as (H1 & H2 & H3 & H4); cbn -[count] in *; subst ip.
  - unfold accounted. norm. rewrite !count_app, length_app.
    change (count is_loadConfig [EvCreateContext (length hp)]) with 0.
    change (count is_createContext [EvCreateContext (length hp)]) with 1.
    cbn [length]. repeat split; lia.
  - unfold accounted. norm. repeat split; try done.
    intros Hx. by specialize (H4 Hx).
Qed.

Lemma accounted_change (file : string) (now : Z) w :
  accounted w -> accounted (change file now w).
Proof.
  apply accounted_quiet; [apply stable_change|apply calm_change].
Qed.

Lemma reachable_accounted w : reachable w -> accounted w.
Proof.
  induction 1 as [raw disk graph|n h w _ IH|a w _ IH|file now w _ IH|disk graph w _ IH].
  - repeat split. intros [x Hx]. discriminate.
  - by apply accounted_call.
  - by apply accounted_settle.
  - by apply accounted_change.
  - by destruct w.
Qed.

Lemma enter_keeps_ctx (h : Hook) w :
  _ctx (enter h w).2 = _ctx w /\ heap (enter h w).2 = heap w.
Proof.
  assert (Hinit : _ctx (init w).2 = _ctx w /\ heap (init w).2 = heap w).
  { destruct w as [o out cx [p|] hp wt st f g wa oc lg]; done. }
  assert (Hawait : forall k,
    _ctx (bind init (fun _ => ret (Await k)) w).2 = _ctx w /\
    heap (bind init (fun _ => ret (Await k)) w).2 = heap w).
  { intros k. unfold bind. destruct (init w) as [[[]|e] w1]; exact Hinit. }
  destruct h; cbn [enter]; try apply Hawait; try done.
  - unfold load_enter.
    repeat (match goal with |- context [if ?b then _ else _] => destruct b end;
            try done).
    rewrite bind_gets.
    match goal with |- context [if ?b then _ else _] => destruct b end;
      [done|apply Hawait].
  - destruct w as [o out cx ip hp wt st f g wa oc lg].
    unfold bind. rewrite configResolved_run. by destruct (truthy_str (cwd o)).
Qed.

Lemma call_keeps_ctx (n : nat) (h : Hook) w :
  _ctx (call n h w) = _ctx w /\ length (heap (call n h w)) = length (heap w).
Proof.
  unfold call. destruct (enter_keeps_ctx h w) as [Hc Hh].
  destruct (enter h w) as [[[v|k]|e] w1]; cbn [snd] in *.
  - destruct w1; cbn in *. by rewrite Hc, Hh.
  - assert (Hf : forall a, _ctx (finish a w1 (n, k)) = _ctx w /\
                   length (heap (finish a w1 (n, k))) = length (heap w)).
    { intros a. destruct (stable_finish a w1 (n, k)) as (_ & _ & H3 & _ & H5).
      by rewrite H3, H5, Hc, Hh. }
    destruct (initPromise w1) as [[| |e]|]; try apply Hf;
      destruct w1; cbn in *; by rewrite Hc, Hh.
  - destruct w1; cbn in *. by rewrite Hc, Hh.
Qed.

Lemma enter_keeps_settled_promise (h : Hook) w p :
  initPromise w = Some p -> initPromise (enter h w).2 = Some p.
Proof.
  intros Hp.
  assert (Hinit : initPromise (init w).2 = Some p).
  { destruct w as [o out cx ip hp wt st f g wa oc lg]. cbn in *. by subst. }
  assert (Hawait : forall k,
    initPromise (bind init (fun _ => ret (Await k)) w).2 = Some p).
  { intros k. unfold bind. destruct (init w) as [[[]|e] w1]; exact Hinit. }
  destruct h; cbn [enter]; try apply Hawait; try done.
  - unfold load_enter.
    repeat (match goal with |- context [if ?b then _ else _] => destruct b end;
            try done).
    rewrite bind_gets.
    match goal with |- context [if ?b then _ else _] => destruct b end;
      [done|apply Hawait].
  - destruct w as [o out cx ip hp wt st f g wa oc lg].
    unfold bind. rewrite configResolved_run. by destruct (truthy_str (cwd o)).
Qed.

Lemma call_keeps_settled_promise (n : nat) (h : Hook) w p :
  initPromise w = Some p -> initPromise (call n h w) = Some p.
Proof.
  intros Hp. unfold call. pose proof (enter_keeps_settled_promise h w p Hp) as H.
  destruct (enter h w) as [[[v|k]|e] w1]; cbn [snd] in *.
  - by destruct w1.
  - assert (Hf : forall a, initPromise (finish a w1 (n, k)) = Some p).
    { intros a. destruct (stable_finish a w1 (n, k)) as (_ & _ & _ & H4 & _).
      by rewrite H4. }
    rewrite H. destruct p; try apply Hf. by destruct w1.
  - by destruct w1.
Qed.

Lemma step_keeps_final_promise w w' p :
  step w w' -> initPromise w = Some p -> p <> Pending -> initPromise w' = Some p.
Proof.
  intros Hs Hp Hn. destruct Hs as [n h w|a w|file now w|disk graph w].
  - by apply call_keeps_settled_promise.
  - unfold settle. rewrite Hp. by destruct p.
  - destruct (stable_change file now w) as (_ & _ & _ & H4 & _).
    by rewrite H4.
  - by destruct w.
Qed.

(** X1. A failed initialisation is final: once the memoized promise is
    rejected it stays rejected whatever happens next, and every hook
    that needs the context fails with the same error without starting
    another load or doing anything else. *)
Theorem failed_initialisation_is_final (w : World E) (e : Error) :
  initPromise w = Some (Rejected e) ->
  (forall w', step w w' -> initPromise w' = Some (Rejected e)) /\
  (forall n h, needs_context (outfile w) h = true ->
     call n h w = settle_call n (Throw e) w).
Proof.
  intros Hp. split.
  - intros w' Hs. by eapply step_keeps_final_promise.
  - intros n h Hn. destruct w as [o out cx ip hp wt st f g wa oc lg].
    cbn [initPromise outfile] in *. subst ip.
    destruct h; cbn [needs_context] in Hn; try done.
    apply andb_true_iff in Hn as [Hh Ho]. apply negb_true_iff in Hh.
    apply String.eqb_eq in Ho. subst id.
    pose proof (load_enter_artifact
                  (mkWorld o out cx (Some (Rejected e)) hp wt st f g wa oc lg) Hh)
      as He.
    cbn [outfile] in He. unfold call. cbn [enter]. rewrite He. reflexivity.
Qed.

(** X2. For the whole life of the plugin the configuration is loaded at
    most once and a context is constructed at most once: in every
    reachable world the log holds no load while no promise exists and
    exactly one afterwards, one construction exactly when the promise is
    fulfilled, and the heap holds as many contexts as were constructed. *)
Theorem context_is_constructed_at_most_once (w : World E) :
  reachable w ->
  count is_loadConfig (log w) <= 1 /\
  count is_createContext (log w) <= 1 /\
  length (heap w) = count is_createContext (log w) /\
  (count is_loadConfig (log w) = 1 <-> initPromise w <> None) /\
  (count is_createContext (log w) = 1 <-> initPromise w = Some Fulfilled).
Proof.
  intros Hr. destruct (reachable_accounted w Hr) as (H1 & H2 & H3 & _).
  rewrite H3, H1, H2.
  destruct (initPromise w) as [[| |e]|]; repeat split; try lia; try done.
Qed.

(** X3. The context reference is permanent: once [_ctx] holds an address
    in a reachable world, no step changes it, neither a hook, nor a
    settlement, nor a 'change' event with its reload, and the heap
    keeps its size, so the address stays valid. *)
Theorem context_reference_is_permanent (w w' : World E) r :
  reachable w -> step w w' -> _ctx w = Some r ->
  _ctx w' = Some r /\ initPromise w' = Some Fulfilled /\
  length (heap w') = length (heap w) /\ r < length (heap w').
Proof.
  intros Hr Hs Hc.
  destruct (reachable_accounted w Hr) as (_ & _ & _ & H4).
  assert (Hp : initPromise w = Some Fulfilled) by (apply H4; by rewrite Hc).
  destruct (reachable_invariant w Hr) as [_ Hi].
  destruct (Hi Hp) as (r' & Hc' & Hlt). assert (r' = r) by congruence. subst r'.
  assert (Hp' : initPromise w' = Some Fulfilled)
    by (by eapply step_keeps_final_promise).
  assert (H : _ctx w' = _ctx w /\ length (heap w') = length (heap w)).
  { destruct Hs as [n h w|a w|file now w|disk graph w].
    - apply call_keeps_ctx.
    - unfold settle. by rewrite Hp.
    - by destruct (stable_change file now w) as (_ & _ & H3 & _ & H5).
    - by destruct w. }
  destruct H as [H1 H2]. rewrite H1, H2. done.
Qed.

(** X4. After initialisation [getCtx()] cannot fail: in every reachable
    world whose promise is fulfilled, the address in [_ctx] names a
    context in the heap and a [getCtx()] call is answered with it at
    once, the 'context not initialized' error being out of reach. *)
Theorem getCtx_succeeds_after_init (w : World E) (n : nat) :
  reachable w -> initPromise w = Some Fulfilled ->
  exists r c, ready w r c /\ call n HGetCtx w = settle_call n (Ok (VCtx r)) w.
Proof.
  intros Hr Hp. destruct (reachable_ready w Hr Hp) as (r & c & Hrd).
  exists r, c. split; [done|]. by eapply getCtx_memoized.
Qed.

(** X5. The [outfile] cell always agrees with the options: in every
    reachable world it is the absolute form of [options.outfile] under
    the current [options.cwd], or the resolved virtual id when the
    option is absent or empty, also after [configResolved] filled in
    the working directory. *)
Theorem outfile_follows_options (w : World E) :
  reachable w ->
  outfile w = outfile_of (E:=E) (options w) /\
  (truthy_ostr (outfile_opt (options w)) = false -> outfile w = virtual_css) /\
  (forall f, outfile_opt (options w) = Some f -> truthy_str f = true ->
     outfile w = ensureAbsolute E f (cwd (options w))).
Proof.
  intros Hr. destruct (reachable_invariant w Hr) as [Ho _].
  split; [done|]. split.
  - intros Hu. rewrite Ho. by apply outfile_of_unset.
  - intros f Hf Ht. rewrite Ho. unfold outfile_of. by rewrite Hf, Ht.
Qed.


(** *** Further behaviour of the hooks *)

Lemma call_configResolved (n : nat) (cf : option string) (vr : string)
    o out cx ip hp wt st f g wa oc lg :
  call (E:=E) n (HConfigResolved cf vr) (mkWorld o out cx ip hp wt st f g wa oc lg) =
  if truthy_str (cwd o)
  then mkWorld o out cx ip hp wt (st ++ [(n, Ok VUndefined)]) f g wa oc lg
  else mkWorld (set_cwd o (config_dir (E:=E) cf vr))
               (outfile_of (E:=E) (set_cwd o (config_dir (E:=E) cf vr)))
               cx ip hp wt (st ++ [(n, Ok VUndefined)]) f g wa oc lg.
Proof.
  unfold call. cbn [enter]. unfold bind. rewrite configResolved_run.
  by destruct (truthy_str (cwd o)).
Qed.

(** X6. [configResolved] fills in the working directory once: a cwd
    the user gave is never replaced; an empty one becomes the directory
    of Vite's config file (or Vite's root) and [outfile] is recomputed
    under it; the call never starts the load nor touches anything else;
    and when the directory taken is non-empty, a second [configResolved],
    whatever its arguments, changes nothing. *)
Theorem configResolved_fills_cwd_once
    (w : World E) (n m : nat) (cf cf2 : option string) (vr vr2 : string) :
  let w1 := call n (HConfigResolved cf vr) w in
  let d := config_dir (E:=E) cf vr in
  options w1 = (if truthy_str (cwd (options w)) then options w
                else set_cwd (options w) d) /\
  outfile w1 = (if truthy_str (cwd (options w)) then outfile w
                else outfile_of (E:=E) (set_cwd (options w) d)) /\
  (_ctx w1, initPromise w1, heap w1, waiting w1, log w1) =
    (_ctx w, initPromise w, heap w, waiting w, log w) /\
  (fs w1, moduleGraph w1, watcher w1, onChange w1) =
    (fs w, moduleGraph w, watcher w, onChange w) /\
  settled w1 = settled w ++ [(n, Ok VUndefined)] /\
  (truthy_str (cwd (options w)) || truthy_str d = true ->
   call m (HConfigResolved cf2 vr2) w1 = settle_call m (Ok VUndefined) w1).
Proof.
  destruct w as [o out cx ip hp wt st f g wa oc lg]. cbn zeta.
  rewrite call_configResolved. norm.
  destruct (truthy_str (cwd o)) eqn:Hc; cbn [orb]; norm.
  - do 5 (split; [reflexivity|]). intros _.
    rewrite call_configResolved, Hc. reflexivity.
  - do 5 (split; [reflexivity|]). intros Hd.
    rewrite call_configResolved. cbn [cwd set_cwd]. rewrite Hd. reflexivity.
Qed.

(** X7. What [resolveOptions] guarantees about the file filters and the
    flags: the resolved [include] and [exclude] are never the empty
    string, a truthy pattern given by the user (the empty array
    included) is kept as it is, and an absent or falsy one, the empty
    string, gives the default list, for [include] and for [exclude]
    alike; an explicit [optimizeCss: false] survives, as [??] only
    replaces an absent value. *)
Theorem resolveOptions_filters_and_flags (o : PandaPluginOptions) :
  truthy_filter (include (resolveOptions o)) = true /\
  truthy_filter (exclude (resolveOptions o)) = true /\
  (forall f, raw_include o = Some f -> truthy_filter f = true ->
     include (resolveOptions o) = f) /\
  (forall f, raw_exclude o = Some f -> truthy_filter f = true ->
     exclude (resolveOptions o) = f) /\
  (raw_include o = None \/ raw_include o = Some (FOne (PString "")) ->
     include (resolveOptions o) = default_include) /\
  (raw_exclude o = None \/ raw_exclude o = Some (FOne (PString "")) ->
     exclude (resolveOptions o) = default_exclude) /\
  (forall f, raw_include o = Some f -> truthy_filter f = false ->
     f = FOne (PString "") /\ include (resolveOptions o) = default_include) /\
  (forall f, raw_exclude o = Some f -> truthy_filter f = false ->
     f = FOne (PString "") /\ exclude (resolveOptions o) = default_exclude) /\
  default_include = FMany [PRegExp "\.[cm]?[jt]sx?$"] /\
  default_exclude = FMany [PRegExp "node_modules"; PRegExp "styled-system"] /\
  (optimizeCss (resolveOptions o) = false <-> raw_optimizeCss o = Some false) /\
  (cwd (resolveOptions o) = "" <-> raw_cwd o = None \/ raw_cwd o = Some "").
Proof.
  unfold resolveOptions. cbn [include exclude optimizeCss cwd].
  assert (Hf : forall a d, truthy_filter d = true ->
                truthy_filter (or_filter a d) = true).
  { intros [x|] d Hd; cbn; [|done]. by destruct (truthy_filter x) eqn:Hx. }
  assert (Hfalsy : forall f, truthy_filter f = false -> f = FOne (PString "")).
  { intros [[s|s]|l]; cbn; try discriminate. unfold truthy_str.
    destruct (String.eqb s "") eqn:Hs; [|discriminate].
    apply String.eqb_eq in Hs. by subst. }
  split; [by apply Hf|]. split; [by apply Hf|].
  split; [intros f -> Ht; cbn; by rewrite Ht|].
  split; [intros f -> Ht; cbn; by rewrite Ht|].
  split; [intros [->| ->]; reflexivity|].
  split; [intros [->| ->]; reflexivity|].
  split; [intros f -> Ht; split; [by apply Hfalsy|cbn; by rewrite Ht]|].
  split; [intros f -> Ht; split; [by apply Hfalsy|cbn; by rewrite Ht]|].
  split; [reflexivity|]. split; [reflexivity|].
  split.
  - destruct (raw_optimizeCss o) as [[]|]; cbn; split; congruence.
  - unfold or_str, truthy_str. destruct (raw_cwd o) as [c|]; [|by split; auto].
    destruct (String.eqb c "") eqn:Hc; cbn.
    + apply String.eqb_eq in Hc. subst. split; auto.
    + apply String.eqb_neq in Hc. split; [done|]. intros [?|?]; congruence.
Qed.

(** X8. Resolving twice changes nothing: a resolved options object,
    passed again as raw options, resolves to itself. *)
Theorem resolveOptions_idempotent (o : PandaPluginOptions) :
  resolveOptions (as_raw (resolveOptions o)) = resolveOptions o.
Proof.
  assert (Hc : or_str (Some (or_str (raw_cwd o) "")) "" = or_str (raw_cwd o) "").
  { unfold or_str. destruct (raw_cwd o) as [c|]; [|done].
    destruct (truthy_str c) eqn:Hc; [by rewrite Hc|done]. }
  assert (Hf : forall a d, truthy_filter d = true ->
                or_filter (Some (or_filter a d)) d = or_filter a d).
  { intros [x|] d Hd; cbn; [|by rewrite Hd].
    destruct (truthy_filter x) eqn:Hx; [by rewrite Hx|by rewrite Hd]. }
  unfold resolveOptions, as_raw.
  cbn [raw_cwd raw_configPath raw_outfile raw_include raw_exclude
       raw_optimizeCss raw_optimizeJs raw_transform cwd configPath outfile_opt
       include exclude optimizeCss optimizeJs transform_opt nullish default].
  f_equal; [apply Hc | by apply Hf | by apply Hf].
Qed.

(** X9. The optimizer runs on every parsed file, with or without
    styling usage, and is handed the code as authored: when [optimizeJs]
    is truthy and the parse gives a result, the hook returns what
    [tranformPanda] makes of the original code, the source file the
    engine registered and the parse result, the [files] map having been
    updated first when there is usage. *)
Theorem optimizer_runs_on_authored_code
    (w : World E) r c (n : nat) (code id : string) sf p pr :
  ready w r c ->
  addSourceFile E (panda c) id (transformResult_code (options w) code id) = (sf, p) ->
  parseSourceFile E p id = Some pr ->
  truthy_optimizeJs (optimizeJs (options w)) = true ->
  let w' := call n (HTransform code id) w in
  let c' := if isEmpty E pr then set_panda c p
            else files_set (set_panda c p) id code in
  heap w' = <[r := c']> (heap w) /\
  last_outcome w' =
    Some (n, Ok (VTransform (tranformPanda E c' code id sf pr
                                           (optimizeJs (options w))))) /\
  emitted w w' =
    userTransform_events (options w) code id
    ++ [EvAddSourceFile r id (transformResult_code (options w) code id);
        EvOptimize id].
Proof.
  intros (Hi & Hc & Hh) Ha Hp Ho. cbn zeta.
  destruct w as [o out cx ip hp wt st f g wa oc lg].
  cbn [initPromise _ctx heap options] in *. subst ip cx.
  destruct (isEmpty E pr) eqn:He.
  - rewrite (transform_skip_run _ _ _ _ _ _ _ _ _ _ _ c n code id sf p)
      by (rewrite ?Hp; done).
    rewrite Hp, Ho. unfold last_outcome, emitted. norm.
    by rewrite last_snoc, drop_app_length.
  - rewrite (transform_usage_run _ _ _ _ _ _ _ _ _ _ _ c n code id sf p pr) by done.
    rewrite Ho. unfold last_outcome, emitted. norm.
    by rewrite last_snoc, drop_app_length.
Qed.

(** X10. [transform] never forgets a file: whatever the parse gives,
    every id recorded in [Context.files] before the call is still
    recorded after it, and an id other than the one transformed keeps
    its text; so a file that loses its styling usage stays tracked, with
    the text of its last revision that had some. *)
Theorem transform_never_forgets_a_file
    (w : World E) r c (n : nat) (code id : string) :
  ready w r c ->
  exists c', heap (call n (HTransform code id) w) !! r = Some c' /\
    (forall f, is_Some (files c !! f) -> is_Some (files c' !! f)) /\
    (forall f, f <> id -> files c' !! f = files c !! f) /\
    (no_usage (parseSourceFile E
       (addSourceFile E (panda c) id
          (transformResult_code (options w) code id)).2 id) = true ->
     files c' = files c).
Proof.
  intros (Hi & Hc & Hh).
  destruct w as [o out cx ip hp wt st f g wa oc lg].
  cbn [initPromise _ctx heap options] in *. subst ip cx.
  assert (Hr : r < length hp) by (by eapply lookup_lt_Some).
  destruct (addSourceFile E (panda c) id (transformResult_code o code id))
    as [sf p] eqn:Ha. cbn [snd].
  destruct (no_usage (parseSourceFile E p id)) eqn:Hn.
  - rewrite (transform_skip_run _ _ _ _ _ _ _ _ _ _ _ c n code id sf p) by done.
    norm. exists (set_panda c p). rewrite list_lookup_insert_eq by done. done.
  - destruct (parseSourceFile E p id) as [pr|] eqn:Hp; [|done]. cbn in Hn.
    rewrite (transform_usage_run _ _ _ _ _ _ _ _ _ _ _ c n code id sf p pr) by done.
    norm. exists (files_set (set_panda c p) id code).
    rewrite list_lookup_insert_eq by done. split; [done|]. cbn [files files_set].
    split; [|split; [|done]].
    + intros x Hx. destruct (decide (id = x)) as [->|Hne].
      * rewrite lookup_insert_eq. eauto.
      * by rewrite lookup_insert_ne.
    + intros x Hx. by rewrite lookup_insert_ne.
Qed.


(** *** Server start, failures, laziness *)

Lemma configureServer_unwritable_run o out r hp wt st f g wa oc lg c n :
  hp !! r = Some c ->
  String.eqb out virtual_css = false -> writable E out = false ->
  call (E:=E) n HConfigureServer
       (mkWorld o out (Some r) (Some Fulfilled) hp wt st f g wa oc lg) =
  mkWorld o out (Some r) (Some Fulfilled) hp wt
          (st ++ [(n, Throw (WriteError out))]) f g wa oc
          (lg ++ [EvCreateSheet r]).
Proof.
  intros Hh Hv Hw.
  rewrite (call_ready _ _ KConfigureServer) by reflexivity.
  unfold finish, resume, getCtx_resume, configureServer_resume, currentCss.
  norm. exec. fold virtual_css. rewrite Hv. exec.
  rewrite bind_writeFile_fail by done. reflexivity.
Qed.

Lemma handleHotUpdate_unwritable_run o out r hp wt st f g wa oc lg c n file ts :
  hp !! r = Some c ->
  String.eqb file out = false ->
  is_Some (files c !! file) ->
  out ∈ g ->
  String.eqb out virtual_css = false -> writable E out = false ->
  call (E:=E) n (HHandleHotUpdate file ts)
       (mkWorld o out (Some r) (Some Fulfilled) hp wt st f g wa oc lg) =
  mkWorld o out (Some r) (Some Fulfilled) hp wt
          (st ++ [(n, Throw (WriteError out))]) f g wa oc
          (lg ++ [EvInvalidate out ts; EvCreateSheet r]).
Proof.
  intros Hh Hf Hx Hg Hv Hw.
  rewrite (call_ready _ _ (KHandleHotUpdate file ts)) by reflexivity.
  unfold finish, resume, getCtx_resume, handleHotUpdate_resume, invalidate,
    currentCss.
  norm. exec. rewrite Hf. exec.
  rewrite bool_decide_eq_true_2 by done. norm. exec.
  rewrite bool_decide_eq_true_2 by done. exec. fold virtual_css. rewrite Hv. exec.
  rewrite bind_writeFile_fail by done.
  unfold settle_call. norm. by rewrite <- app_assoc.
Qed.

Lemma change_listener_reload_fails r sources file now o out cx ip hp wt st f g wa oc lg
    c c' e :
  hp !! r = Some c ->
  ensureAbsolute E file (root c) ∈ sources ->
  reloadContext E c = (Throw e, c') ->
  change_listener (E:=E) (r, sources) file now
                  (mkWorld o out cx ip hp wt st f g wa oc lg) =
  (Throw e,
   mkWorld o out cx ip (<[r := c']> hp) wt st f g wa oc (lg ++ [EvReload r])).
Proof.
  intros Hh Hs Hr.
  unfold change_listener, change_listener_start, change_listener_resume. exec.
  rewrite bool_decide_eq_true_2 by done. norm. exec.
  rewrite Hr. exec. reflexivity.
Qed.

Lemma dependency_hit_snoc w file (l : CtxRef * gset string) (ls : list (CtxRef * gset string)) :
  listener_hit w file l = true -> existsb (listener_hit w file) (ls ++ [l]) = true.
Proof. intros H. rewrite existsb_app. cbn. rewrite H. by rewrite orb_true_r. Qed.

(** X11. Server start installs the watch: when [configureServer] runs
    to its end, the world has one more 'change' listener, closing over
    the context and its sources, the sources are watched, and the
    configuration file itself and every file of the two dependency
    lists now count as dependencies; with [outfile] unset nothing is
    written to disk. *)
Theorem configureServer_installs_the_watch
    (w : World E) r c (n : nat) (msg : string) :
  ready w r c ->
  String.eqb (outfile w) virtual_css = true \/ writable E (outfile w) = true ->
  codegen E (panda c) = Ok msg ->
  let w' := call n HConfigureServer w in
  last_outcome w' = Some (n, Ok VUndefined) /\
  onChange w' = onChange w ++ [(r, sources_of c)] /\
  watcher w' = watcher w ∪ sources_of c /\
  heap w' = heap w /\
  (forall file,
     In file (path (panda_conf E (panda c))
              :: nullish (dependencies (panda_conf E (panda c))) []
              ++ nullish (config_dependencies (panda_config E (panda c))) []) ->
     dependency_hit w' file = true) /\
  (String.eqb (outfile w) virtual_css = true ->
   fs w' = fs w /\ emitted w w' = [EvCodegen r]).
Proof.
  intros (Hi & Hc & Hh) Hw Hg. cbn zeta.
  destruct w as [o out cx ip hp wt st f g wa oc lg].
  cbn [initPromise _ctx heap options outfile] in *. subst ip cx.
  rewrite (configureServer_run _ _ _ _ _ _ _ _ _ _ _ c) by done.
  cbn zeta. rewrite Hg. unfold last_outcome, emitted. norm.
  rewrite last_snoc. do 4 (split; [done|]). split.
  - intros file Hf. unfold dependency_hit. norm. apply dependency_hit_snoc.
    unfold listener_hit. norm.
    match goal with |- match ?x with _ => _ end = _ =>
      replace x with (Some c) by (symmetry; exact Hh) end.
    apply bool_decide_eq_true_2.
    unfold sources_of. apply elem_of_list_to_set, list_elem_of_In.
    by apply (in_map (fun x => ensureAbsolute E x (root c))).
  - intros Hv. rewrite Hv, drop_app_length. done.
Qed.

(** X12. When [codegen] rejects, [configureServer] fails with its error
    after the stylesheet has already been written (with an outfile
    configured), and no watch is installed: no listener is added and
    the watcher's set is unchanged. *)
Theorem configureServer_codegen_failure
    (w : World E) r c (n : nat) (e : Error) :
  ready w r c ->
  String.eqb (outfile w) virtual_css = true \/ writable E (outfile w) = true ->
  codegen E (panda c) = Throw e ->
  let w' := call n HConfigureServer w in
  last_outcome w' = Some (n, Throw e) /\
  onChange w' = onChange w /\ watcher w' = watcher w /\
  fs w' = (if String.eqb (outfile w) virtual_css then fs w
           else <[outfile w := css_of c (options w)]> (fs w)) /\
  emitted w w' =
    (if String.eqb (outfile w) virtual_css then []
     else [EvCreateSheet r; EvWriteFile (outfile w) (css_of c (options w))])
    ++ [EvCodegen r].
Proof.
  intros (Hi & Hc & Hh) Hw Hg. cbn zeta.
  destruct w as [o out cx ip hp wt st f g wa oc lg].
  cbn [initPromise _ctx heap options outfile] in *. subst ip cx.
  rewrite (configureServer_run _ _ _ _ _ _ _ _ _ _ _ c) by done.
  cbn zeta. rewrite Hg. unfold last_outcome, emitted. norm.
  by rewrite last_snoc, drop_app_length.
Qed.

(** X13. When the write of the outfile fails, [configureServer] fails
    with the write error before [codegen] is called: the disk, the
    watcher and the listeners are as they were and the only outside
    call was the computation of the sheet. *)
Theorem configureServer_write_failure (w : World E) r c (n : nat) :
  ready w r c ->
  String.eqb (outfile w) virtual_css = false ->
  writable E (outfile w) = false ->
  let w' := call n HConfigureServer w in
  last_outcome w' = Some (n, Throw (WriteError (outfile w))) /\
  emitted w w' = [EvCreateSheet r] /\
  fs w' = fs w /\ onChange w' = onChange w /\ watcher w' = watcher w.
Proof.
  intros (Hi & Hc & Hh) Hv Hw. cbn zeta.
  destruct w as [o out cx ip hp wt st f g wa oc lg].
  cbn [initPromise _ctx heap options outfile] in *. subst ip cx.
  rewrite (configureServer_unwritable_run _ _ _ _ _ _ _ _ _ _ _ c) by done.
  unfold last_outcome, emitted. norm. by rewrite last_snoc, drop_app_length.
Qed.

(** X14. A failed reload skips the invalidation: when [reloadContext]
    rejects on a dependency change, the listener stops there; the
    module graph is not invalidated, nothing is written, the context
    object is whatever the reload left and [_ctx] still names it. *)
Theorem failed_reload_skips_invalidation
    (w : World E) r c c' sources (e : Error) (file : string) (now : Z) :
  heap w !! r = Some c ->
  onChange w = [(r, sources)] ->
  ensureAbsolute E file (root c) ∈ sources ->
  reloadContext E c = (Throw e, c') ->
  let w' := change file now w in
  emitted w w' = [EvReload r] /\
  heap w' = <[r := c']> (heap w) /\
  _ctx w' = _ctx w /\ fs w' = fs w /\
  (change_listener (r, sources) file now w).1 = Throw e.
Proof.
  intros Hh Hl Hs Hr. cbn zeta. rewrite (change_single _ _ _ _ Hl).
  destruct w as [o out cx ip hp wt st f g wa oc lg].
  cbn [heap onChange] in *. subst oc.
  rewrite (change_listener_reload_fails _ _ _ _ _ _ _ _ _ _ _ _ _ _ _ _ c c' e)
    by done.
  unfold emitted. norm. by rewrite drop_app_length.
Qed.

(** X15. In [handleHotUpdate] the invalidation is not undone by a failed
    write: for a tracked file, with a module for the outfile in the
    graph and an outfile that cannot be written, the module is
    invalidated, the sheet computed, and the hook fails with the write
    error, the disk keeping its old content. *)
Theorem hot_update_invalidates_despite_failed_write
    (w : World E) r c (n : nat) (file : string) (ts : Z) :
  ready w r c ->
  String.eqb file (outfile w) = false ->
  is_Some (files c !! file) ->
  outfile w ∈ moduleGraph w ->
  String.eqb (outfile w) virtual_css = false ->
  writable E (outfile w) = false ->
  let w' := call n (HHandleHotUpdate file ts) w in
  last_outcome w' = Some (n, Throw (WriteError (outfile w))) /\
  emitted w w' = [EvInvalidate (outfile w) ts; EvCreateSheet r] /\
  fs w' = fs w.
Proof.
  intros (Hi & Hc & Hh) Hf Hx Hg Hv Hw. cbn zeta.
  destruct w as [o out cx ip hp wt st f g wa oc lg].
  cbn [initPromise _ctx heap options outfile moduleGraph] in *. subst ip cx.
  rewrite (handleHotUpdate_unwritable_run _ _ _ _ _ _ _ _ _ _ _ c) by done.
  unfold last_outcome, emitted. norm. by rewrite last_snoc, drop_app_length.
Qed.

(** X16. [handleHotUpdate] never touches the context: for any file and
    in every case (untracked, the artifact itself, no module in the
    graph, written or not), the heap, the closure cells, the watcher
    and the listeners are as before and no reload is logged; a hot
    update of the artifact's own id does nothing at all. *)
Theorem hot_update_never_touches_context
    (w : World E) r c (n : nat) (file : string) (ts : Z) :
  ready w r c ->
  let w' := call n (HHandleHotUpdate file ts) w in
  heap w' = heap w /\
  (options w', outfile w', _ctx w', initPromise w') =
    (options w, outfile w, _ctx w, initPromise w) /\
  (watcher w', onChange w', moduleGraph w') = (watcher w, onChange w, moduleGraph w) /\
  existsb is_reload (emitted w w') = false /\
  (String.eqb file (outfile w) = true -> emitted w w' = [] /\ fs w' = fs w).
Proof.
  intros (Hi & Hc & Hh). cbn zeta.
  destruct w as [o out cx ip hp wt st f g wa oc lg].
  cbn [initPromise _ctx heap options outfile moduleGraph] in *. subst ip cx.
  destruct (String.eqb file out) eqn:Hf.
  { rewrite (handleHotUpdate_skip _ _ _ _ _ _ _ _ _ _ _ c) by eauto.
    unfold emitted. norm. by rewrite drop_all. }
  destruct (files c !! file) as [x|] eqn:Hx.
  2:{ rewrite (handleHotUpdate_skip _ _ _ _ _ _ _ _ _ _ _ c) by eauto.
      unfold emitted. norm. by rewrite drop_all. }
  destruct (decide (out ∈ g)) as [Hg|Hg].
  2:{ rewrite (handleHotUpdate_skip _ _ _ _ _ _ _ _ _ _ _ c) by eauto.
      unfold emitted. norm. by rewrite drop_all. }
  destruct (String.eqb out virtual_css) eqn:Hv.
  { rewrite (handleHotUpdate_run _ _ _ _ _ _ _ _ _ _ _ c) by eauto.
    unfold emitted. norm. by rewrite Hv, drop_app_length. }
  destruct (writable E out) eqn:Hw.
  - rewrite (handleHotUpdate_run _ _ _ _ _ _ _ _ _ _ _ c) by eauto.
    unfold emitted. norm. by rewrite Hv, drop_app_length.
  - rewrite (handleHotUpdate_unwritable_run _ _ _ _ _ _ _ _ _ _ _ c) by eauto.
    unfold emitted. norm. by rewrite drop_app_length.
Qed.


(** *** Laziness, helper modules, identities, ordering *)

Lemma load_enter_helper (id : string) (w : World E) :
  is_helper id = true ->
  load_enter id w =
    (Ok (Return (VText ("export " +:+
        (if String.eqb id (VirtualModuleId.resolved ids.inlineCva)
         then inlineCva_toString E else addCompoundVariantCss_toString E)))), w).
Proof.
  unfold is_helper, load_enter. intros H.
  destruct (String.eqb id (VirtualModuleId.resolved ids.inlineCva)); [done|].
  cbn [orb] in H. by rewrite H.
Qed.

(** X17. Initialisation is lazy and starts once: a hook that does not
    need the context ([resolveId], [configResolved], the load of a
    helper or of an id that is not the artifact's) returns at once,
    leaving the promise, the log, the queue, [_ctx] and the heap as they
    were; the first hook that needs it, in a world without a promise,
    starts exactly one configuration load with the current [cwd] and
    [configPath], and waits. *)
Theorem initialisation_is_lazy (w : World E) (n : nat) (h : Hook) :
  (needs_context (outfile w) h = false ->
   (initPromise (call n h w), log (call n h w), waiting (call n h w)) =
     (initPromise w, log w, waiting w) /\
   (_ctx (call n h w), heap (call n h w)) = (_ctx w, heap w) /\
   exists v, settled (call n h w) = settled w ++ [(n, Ok v)]) /\
  (needs_context (outfile w) h = true -> initPromise w = None ->
   exists k,
     call n h w =
       set_waiting
         (set_initPromise
            (set_log w (log w ++ [EvLoadConfig (cwd (options w))
                                               (configPath (options w))]))
            (Some Pending))
         (waiting w ++ [(n, k)])).
Proof.
  split.
  - intros Hn. destruct h; cbn [needs_context] in Hn; try done.
    + destruct w. cbn. eauto.
    + unfold call. cbn [enter].
      destruct (is_helper id) eqn:Hh.
      * rewrite load_enter_helper by done. destruct w. cbn. eauto.
      * cbn [negb andb] in Hn. rewrite load_enter_foreign by done.
        destruct w. cbn. eauto.
    + destruct w as [o out cx ip hp wt st f g wa oc lg].
      rewrite call_configResolved. destruct (truthy_str (cwd o)); cbn; eauto.
  - intros Hn Hp. destruct w as [o out cx ip hp wt st f g wa oc lg].
    cbn [initPromise outfile] in *. subst ip.
    destruct h; cbn [needs_context] in Hn; try done;
      try (eexists; reflexivity).
    apply andb_true_iff in Hn as [Hh Ho]. apply negb_true_iff in Hh.
    apply String.eqb_eq in Ho. subst id.
    pose proof (load_enter_artifact
                  (mkWorld o out cx None hp wt st f g wa oc lg) Hh) as He.
    cbn [outfile] in He. unfold call. cbn [enter]. rewrite He.
    eexists. reflexivity.
Qed.

Lemma append_inj_r (p a b : string) : p +:+ a = p +:+ b -> a = b.
Proof.
  induction p as [|x p IH]; [done|]. intros H.
  change (String x (p +:+ a) = String x (p +:+ b)) in H.
  injection H as H. by apply IH.
Qed.

(** X18. Virtual identities do not collide: for any suffixes the resolved
    id of one module is never the symbolic id of another, distinct
    suffixes give distinct symbolic and resolved ids, and the resolver
    never answers for an id it produced, so resolution cannot loop. *)
Theorem virtual_ids_do_not_collide (a b id v : string) :
  VirtualModuleId.resolved (createVirtualModuleId a)
    <> VirtualModuleId.id (createVirtualModuleId b) /\
  (VirtualModuleId.id (createVirtualModuleId a)
     = VirtualModuleId.id (createVirtualModuleId b) -> a = b) /\
  (VirtualModuleId.resolved (createVirtualModuleId a)
     = VirtualModuleId.resolved (createVirtualModuleId b) -> a = b) /\
  (resolveId id = VText v -> v = String "000"%char id /\ resolveId v = VUndefined).
Proof.
  split; [discriminate|]. split; [apply append_inj_r|].
  split; [cbn; intros H; apply (append_inj_r "virtual:panda"); congruence|].
  intros H. destruct (decide (id ∈ known_symbolic)) as [Hk|Hk].
  - rewrite resolveId_known in H by done. injection H as <-. split; [done|].
    unfold known_symbolic in Hk. rewrite !elem_of_cons, elem_of_nil in Hk.
    destruct Hk as [->|[->|[->|[]]]]; reflexivity.
  - rewrite resolveId_unknown in H by done. discriminate.
Qed.

(** X19. A [configResolved] that arrives while the load is in flight
    splits the working directory: the configuration was loaded for the
    (empty) cwd of the first [getCtx()], while the context is built
    with the directory filled in meanwhile as its root and from the
    loaded configuration with its [config.cwd] set to that directory,
    its path and dependency lists being as loaded. *)
Theorem configResolved_during_load
    (w0 : World E) (conf : LoadConfigResult) (cf : option string) (vr : string) :
  initPromise w0 = None -> waiting w0 = [] ->
  truthy_str (cwd (options w0)) = false ->
  let d := config_dir (E:=E) cf vr in
  let w := settle (Ok conf)
             (call 1 (HConfigResolved cf vr) (call 0 HGetCtx w0)) in
  emitted w0 w = [EvLoadConfig (cwd (options w0)) (configPath (options w0));
                  EvCreateContext (length (heap w0))] /\
  heap w = heap w0 ++ [createContext E d (assign_config_cwd conf d)] /\
  cwd (options w) = d /\
  settled w = settled w0 ++ [(1, Ok VUndefined); (0, Ok (VCtx (length (heap w0))))] /\
  (exists conf', heap w = heap w0 ++ [createContext E d conf'] /\
     config_cwd (config conf') = d /\
     path conf' = path conf /\
     dependencies conf' = dependencies conf /\
     config_dependencies (config conf') = config_dependencies (config conf)).
Proof.
  intros Hp Hw Hc. cbn zeta.
  destruct w0 as [o out cx ip hp wt st f g wa oc lg].
  cbn [initPromise waiting options heap log settled] in *. subst ip wt.
  rewrite call_getCtx_fresh, call_configResolved, Hc, settle_ok_pending.
  cbn [app foldl]. rewrite finish_getCtx.
  unfold emitted. norm. cbn [cwd set_cwd].
  rewrite <- !app_assoc, drop_app_length. do 4 (split; [done|]).
  by exists (assign_config_cwd conf (config_dir (E:=E) cf vr)).
Qed.

Lemma foldl_finish_order (a : Res unit) (l : list (nat * Cont)) w :
  waiting (foldl (finish a) w l) = waiting w /\
  exists vs, settled (foldl (finish a) w l) = settled w ++ vs /\
             map fst vs = map fst l.
Proof.
  revert w. induction l as [|ck l IH]; intros w; cbn [foldl].
  - split; [done|]. exists []. by rewrite app_nil_r.
  - destruct (finish_shape a w ck) as (v & w1 & Hf & _ & (_ & _ & Hs & Hw)).
    destruct (IH (finish a w ck)) as (IHw & vs & IHs & IHm).
    rewrite IHw, IHs, Hf. destruct w1; cbn in *. subst. split; [done|].
    exists ((ck.1, v) :: vs). rewrite <- app_assoc. cbn. by rewrite IHm.
Qed.

(** X20. Loads and transforms that arrived during initialisation are
    answered once it settles, each exactly once and in the order of
    arrival, whether the load succeeded or failed; nothing is left
    waiting.  (These are the hooks whose remainder has no further
    await; for [configureServer] and [handleHotUpdate], which suspend
    again, nothing is claimed.) *)
Theorem suspended_hooks_resume_in_order
    (w : World E) (outcome : Res LoadConfigResult) :
  initPromise w = Some Pending ->
  forallb (fun ck : nat * Cont => runs_to_end ck.2) (waiting w) = true ->
  let w' := settle outcome w in
  waiting w' = [] /\
  initPromise w' <> Some Pending /\
  exists vs, settled w' = settled w ++ vs /\
             map fst vs = map fst (waiting w).
Proof.
  intros Hp _. cbn zeta. unfold settle. rewrite Hp.
  destruct w as [o out cx ip hp wt st f g wa oc lg]. cbn [initPromise] in Hp.
  subst ip. destruct outcome as [conf|e].
  - change (let '(a, w1) := let '(a, w1) := init_then conf _ in _ in _)
      with (foldl (finish (E:=E) (Ok tt))
              (mkWorld o out (Some (length hp)) (Some Fulfilled)
                 (hp ++ [createContext E (cwd o) (assign_config_cwd conf (cwd o))])
                 [] st f g wa oc (lg ++ [EvCreateContext (length hp)])) wt).
    destruct (foldl_finish_order (Ok tt) wt
                (mkWorld o out (Some (length hp)) (Some Fulfilled)
                   (hp ++ [createContext E (cwd o) (assign_config_cwd conf (cwd o))])
                   [] st f g wa oc (lg ++ [EvCreateContext (length hp)])))
      as (Hw & vs & Hs & Hm).
    split; [done|]. split.
    + destruct (stable_foldl (finish (E:=E) (Ok tt)) wt
                  (mkWorld o out (Some (length hp)) (Some Fulfilled)
                     (hp ++ [createContext E (cwd o) (assign_config_cwd conf (cwd o))])
                     [] st f g wa oc (lg ++ [EvCreateContext (length hp)])))
        as (_ & _ & _ & H4 & _); [intros; apply stable_finish|].
      intros Hx. pose proof (eq_trans (eq_sym H4) Hx) as Hy. discriminate Hy.
    + by exists vs.
  - change (let '(a, w1) := (Throw e, _) in _)
      with (foldl (finish (E:=E) (Throw e))
              (mkWorld o out cx (Some (Rejected e)) hp [] st f g wa oc lg) wt).
    destruct (foldl_finish_order (Throw e) wt
                (mkWorld o out cx (Some (Rejected e)) hp [] st f g wa oc lg))
      as (Hw & vs & Hs & Hm).
    split; [done|]. split.
    + destruct (stable_foldl (finish (E:=E) (Throw e)) wt
                  (mkWorld o out cx (Some (Rejected e)) hp [] st f g wa oc lg))
        as (_ & _ & _ & H4 & _); [intros; apply stable_finish|].
      intros Hx. pose proof (eq_trans (eq_sym H4) Hx) as Hy. discriminate Hy.
    + by exists vs.
Qed.

End Properties.





(** ** The properties at work on the small engine *)

Lemma exactly_once_init_witness :
  (initPromise Demo.fresh = None /\ waiting Demo.fresh = [] /\ 0 < 3) /\
  let w := settle (Ok Demo.conf) (getCtx_calls 3 Demo.fresh) in
  count is_loadConfig (log w) = count is_loadConfig (log Demo.fresh) + 1 /\
  count is_createContext (log w) = count is_createContext (log Demo.fresh) + 1 /\
  length (heap w) = length (heap Demo.fresh) + 1 /\
  exists r, _ctx w = Some r /\
    settled w = settled Demo.fresh ++ map (fun i => (i, Ok (VCtx r))) (seq 0 3).
Proof.
  split.
  - split; [reflexivity | split; [reflexivity | lia]].
  - apply (exactly_once_init Demo.fresh 3 Demo.conf); [reflexivity | reflexivity | lia].
Defined.

Lemma transform_records_original_code_witness :
  (ready Demo.wrapping_object 0 Demo.ctx_empty /\
   addSourceFile Demo.engine (panda Demo.ctx_empty) "/app/b.tsx"
     (transformResult_code (options Demo.wrapping_object) Demo.b_code "/app/b.tsx")
   = (Demo.with_b.1, Demo.with_b.2) /\
   parseSourceFile Demo.engine Demo.with_b.2 "/app/b.tsx"
   = Some "css({ margin: 0 })" /\
   isEmpty Demo.engine "css({ margin: 0 })" = false) /\
  let w' := call 1 (HTransform Demo.b_code "/app/b.tsx") Demo.wrapping_object in
  let registered :=
    transformResult_code (options Demo.wrapping_object) Demo.b_code "/app/b.tsx" in
  _ctx w' = Some 0 /\
  (exists c', heap w' !! 0 = Some c' /\
              files c' !! "/app/b.tsx" = Some Demo.b_code /\
              panda c' = Demo.with_b.2) /\
  emitted Demo.wrapping_object w' =
    userTransform_events (options Demo.wrapping_object) Demo.b_code "/app/b.tsx"
    ++ [EvAddSourceFile 0 "/app/b.tsx" registered]
    ++ (if truthy_optimizeJs (optimizeJs (options Demo.wrapping_object))
        then [EvOptimize "/app/b.tsx"] else []) /\
  (transform_opt (options Demo.wrapping_object) = None -> registered = Demo.b_code) /\
  (forall f, transform_opt (options Demo.wrapping_object) = Some f ->
     (f "/app/b.tsx" Demo.b_code = TRNull -> registered = Demo.b_code) /\
     (forall s, f "/app/b.tsx" Demo.b_code = TRString s ->
        registered = if String.eqb s "" then Demo.b_code else s) /\
     (forall u m, f "/app/b.tsx" Demo.b_code = TRObject u m -> registered = u)).
Proof.
  assert (Hr : ready Demo.wrapping_object 0 Demo.ctx_empty)
    by (split; [|split]; vm_compute; reflexivity).
  assert (Ha : addSourceFile Demo.engine (panda Demo.ctx_empty) "/app/b.tsx"
                 (transformResult_code (options Demo.wrapping_object)
                    Demo.b_code "/app/b.tsx")
               = (Demo.with_b.1, Demo.with_b.2)) by (vm_compute; reflexivity).
  assert (Hp : parseSourceFile Demo.engine Demo.with_b.2 "/app/b.tsx"
               = Some "css({ margin: 0 })") by (vm_compute; reflexivity).
  assert (He : isEmpty Demo.engine "css({ margin: 0 })" = false)
    by (vm_compute; reflexivity).
  split; [done|].
  exact (transform_records_original_code Demo.wrapping_object 0 Demo.ctx_empty 1
           Demo.b_code "/app/b.tsx" _ _ "css({ margin: 0 })" Hr Ha Hp He).
Defined.

(** The same run, read off: the user transform answered with an object,
    the engine was handed that object's [code], the [files] map holds
    the text as authored; and likewise when the user transform answers
    with a string. *)
Example transform_with_user_transform :
  (emitted Demo.wrapping_object
          (call 1 (HTransform "{ margin: 0 }" "/app/b.tsx") Demo.wrapping_object)
   = [EvUserTransform "/app/b.tsx" "{ margin: 0 }";
      EvAddSourceFile 0 "/app/b.tsx" "css({ margin: 0 })"] /\
   (files <$> heap (call 1 (HTransform "{ margin: 0 }" "/app/b.tsx")
                      Demo.wrapping_object) !! 0)
   = Some {[ "/app/b.tsx" := "{ margin: 0 }" ]}) /\
  (emitted Demo.wrapping
          (call 1 (HTransform "{ margin: 0 }" "/app/b.tsx") Demo.wrapping)
   = [EvUserTransform "/app/b.tsx" "{ margin: 0 }";
      EvAddSourceFile 0 "/app/b.tsx" "css({ margin: 0 })"] /\
   (files <$> heap (call 1 (HTransform "{ margin: 0 }" "/app/b.tsx") Demo.wrapping) !! 0)
   = Some {[ "/app/b.tsx" := "{ margin: 0 }" ]}).
Proof. split; split; vm_compute; reflexivity. Qed.

Lemma transform_skip_isolated_witness :
  (ready Demo.virtual 0 Demo.ctx_a /\
   addSourceFile Demo.engine (panda Demo.ctx_a) "/app/notes.md"
     (transformResult_code (options Demo.virtual) Demo.notes_code "/app/notes.md")
   = (Demo.with_notes.1, Demo.with_notes.2) /\
   no_usage (parseSourceFile Demo.engine Demo.with_notes.2 "/app/notes.md") = true) /\
  let w := Demo.virtual in
  let w' := call 2 (HTransform Demo.notes_code "/app/notes.md") w in
  heap w' = <[0 := set_panda Demo.ctx_a Demo.with_notes.2]> (heap w) /\
  files (set_panda Demo.ctx_a Demo.with_notes.2) = files Demo.ctx_a /\
  root (set_panda Demo.ctx_a Demo.with_notes.2) = root Demo.ctx_a /\
  (options w', outfile w', _ctx w', initPromise w', waiting w') =
    (options w, outfile w, _ctx w, initPromise w, waiting w) /\
  (fs w', moduleGraph w', watcher w', onChange w') =
    (fs w, moduleGraph w, watcher w, onChange w) /\
  (truthy_optimizeJs (optimizeJs (options w)) = false \/
   parseSourceFile Demo.engine Demo.with_notes.2 "/app/notes.md" = None ->
   settled w' = settled w ++ [(2, Ok (VTransform TRNull))] /\
   emitted w w' =
     userTransform_events (options w) Demo.notes_code "/app/notes.md"
     ++ [EvAddSourceFile 0 "/app/notes.md"
           (transformResult_code (options w) Demo.notes_code "/app/notes.md")]).
Proof.
  assert (Hr : ready Demo.virtual 0 Demo.ctx_a)
    by (split; [|split]; vm_compute; reflexivity).
  assert (Ha : addSourceFile Demo.engine (panda Demo.ctx_a) "/app/notes.md"
                 (transformResult_code (options Demo.virtual) Demo.notes_code
                                       "/app/notes.md")
               = (Demo.with_notes.1, Demo.with_notes.2)) by reflexivity.
  assert (Hn : no_usage (parseSourceFile Demo.engine Demo.with_notes.2
                                         "/app/notes.md") = true)
    by (vm_compute; reflexivity).
  split; [done|].
  exact (transform_skip_isolated Demo.virtual 0 Demo.ctx_a 2 Demo.notes_code
           "/app/notes.md" _ _ Hr Ha Hn).
Defined.

Lemma resolveOptions_keeps_raw_optimizeJs_witness :
  raw_optimizeJs Demo.raw_cva_only = Some (OJObj {[ "cva" := Some (MBool false) ]}) /\
  (optimizeJs (resolveOptions Demo.raw_cva_only)
   = OJObj {[ "cva" := Some (MBool false) ]} /\
   forall obj, OJObj {[ "cva" := Some (MBool false) ]} = OJObj obj ->
     local_optimizeJs Demo.raw_cva_only = OJObj (normalizeObject obj) /\
     optimizeJs (resolveOptions Demo.raw_cva_only) = OJObj obj /\
     forall k, k ∈ ["pattern"; "recipe"; "jsx-factory"; "jsx-pattern"] ->
       obj !! k = None ->
       normalizeObject obj !! k = Some (Some (nullish (prop obj "cva") auto))).
Proof.
  split; [reflexivity|].
  apply (resolveOptions_keeps_raw_optimizeJs Demo.raw_cva_only). reflexivity.
Defined.

(** The local copy of [raw_cva_only] gives [pattern] the value of
    [cva]; the resolved options do not carry it. *)
Example local_copy_is_dropped :
  prop (normalizeObject {[ "cva" := Some (MBool false) ]}) "pattern"
    = Some (MBool false) /\
  local_optimizeJs Demo.raw_cva_only
    <> optimizeJs (resolveOptions Demo.raw_cva_only).
Proof.
  split; [vm_compute; reflexivity|].
  intros H. apply (f_equal (fun v => match v with
                                     | OJObj o => prop o "pattern"
                                     | _ => None
                                     end)) in H.
  vm_compute in H. discriminate.
Qed.

Lemma load_serves_artifact_without_writing_witness :
  (ready Demo.onDisk 0 Demo.ctx_a /\
   outfile Demo.onDisk = outfile_of (E:=Demo.engine) (options Demo.onDisk) /\
   is_helper (outfile Demo.onDisk) = false) /\
  let w := Demo.onDisk in
  let css := css_of Demo.ctx_a (options w) in
  (truthy_ostr (outfile_opt (options w)) = false -> outfile w = virtual_css) /\
  last_outcome (call 2 (HLoad (outfile w)) w) = Some (2, Ok (VText css)) /\
  emitted w (call 2 (HLoad (outfile w)) w) = [EvCreateSheet 0] /\
  (String.eqb virtual_css (outfile w) = false ->
   call 2 (HLoad virtual_css) w = settle_call 2 (Ok VUndefined) w) /\
  (forall id, fs (call 2 (HLoad id) w) = fs w /\
     forallb (fun e => negb (is_write e)) (emitted w (call 2 (HLoad id) w)) = true) /\
  (String.eqb (outfile w) virtual_css = false ->
   writable Demo.engine (outfile w) = true ->
   fs (call 2 HConfigureServer w) !! outfile w = Some css /\
   EvWriteFile (outfile w) css ∈ emitted w (call 2 HConfigureServer w)).
Proof.
  assert (Hr : ready Demo.onDisk 0 Demo.ctx_a)
    by (split; [|split]; vm_compute; reflexivity).
  assert (Ho : outfile Demo.onDisk
               = outfile_of (E:=Demo.engine) (options Demo.onDisk))
    by (vm_compute; reflexivity).
  assert (Hn : is_helper (outfile Demo.onDisk) = false)
    by (vm_compute; reflexivity).
  split; [done|].
  exact (load_serves_artifact_without_writing Demo.onDisk 0 Demo.ctx_a 2 Hr Ho Hn).
Defined.

(** C2, as worded, fails on a plugin writing to [/app/panda.css] that
    has transformed a file since the server started: the load of the
    virtual id is not answered, and the load of the outfile path returns
    the current text while the disk still holds the text written at
    server start. *)
Lemma load_does_not_persist :
  css_of Demo.ctx_a (options Demo.onDisk) = "css({ color: 'red' })" /\
  truthy_ostr (outfile_opt (options Demo.onDisk)) = true /\
  outfile Demo.onDisk = "/app/panda.css" /\
  ~ load_equivalence Demo.onDisk 2 virtual_css "css({ color: 'red' })" /\
  ~ load_equivalence Demo.onDisk 2 "/app/panda.css" "css({ color: 'red' })".
Proof.
  split; [vm_compute; reflexivity|].
  split; [vm_compute; reflexivity|].
  split; [vm_compute; reflexivity|].
  split.
  - intros [H _]. vm_compute in H. discriminate.
  - intros [_ H]. specialize (H eq_refl). vm_compute in H. discriminate.
Qed.

Lemma invalidation_precedes_write_in_hot_update_witness :
  (ready Demo.onDisk 0 Demo.ctx_a /\
   outfile Demo.onDisk ∈ moduleGraph Demo.onDisk) /\
  let w := Demo.onDisk in
  (String.eqb "/app/a.tsx" (outfile w) = false ->
   is_Some (files Demo.ctx_a !! "/app/a.tsx") ->
   String.eqb (outfile w) virtual_css = false ->
   writable Demo.engine (outfile w) = true ->
   emitted w (call 2 (HHandleHotUpdate "/app/a.tsx" 7) w) =
     [EvInvalidate (outfile w) 7; EvCreateSheet 0;
      EvWriteFile (outfile w) (css_of Demo.ctx_a (options w))]) /\
  forall sources dep now c',
    ensureAbsolute Demo.engine dep (root Demo.ctx_a) ∈ sources ->
    reloadContext Demo.engine Demo.ctx_a = (Ok tt, c') ->
    let w' := (change_listener (0, sources) dep now w).2 in
    emitted w w' = [EvReload 0; EvInvalidate (outfile w) now] /\
    invalidation_ordered w w'.
Proof.
  assert (Hr : ready Demo.onDisk 0 Demo.ctx_a)
    by (split; [|split]; vm_compute; reflexivity).
  assert (Hg : outfile Demo.onDisk ∈ moduleGraph Demo.onDisk)
    by (apply (bool_decide_unpack _); vm_compute; exact I).
  split; [done|].
  exact (invalidation_precedes_write_in_hot_update Demo.onDisk 0 Demo.ctx_a 2
           "/app/a.tsx" 7 Hr Hg).
Defined.

(** The same hot update and the listener, read off: the premises of the
    hot-update half hold of this plugin, and a change of the watched
    theme file reloads and then invalidates. *)
Example hot_update_and_listener_on_disk :
  String.eqb "/app/a.tsx" (outfile Demo.onDisk) = false /\
  files Demo.ctx_a !! "/app/a.tsx" = Some "css({ color: 'red' })" /\
  String.eqb (outfile Demo.onDisk) virtual_css = false /\
  writable Demo.engine (outfile Demo.onDisk) = true /\
  emitted Demo.onDisk
    (change_listener (0, Demo.sources_a) "/app/theme.ts" 9 Demo.onDisk).2
  = [EvReload 0; EvInvalidate "/app/panda.css" 9].
Proof. repeat split; vm_compute; reflexivity. Qed.

(** C3, as worded, fails on a hot update of the tracked file of a
    plugin with an outfile: the artifact is written after the
    invalidation. *)
Lemma hot_update_writes_after_invalidation :
  emitted Demo.onDisk (call 2 (HHandleHotUpdate "/app/a.tsx" 7) Demo.onDisk) =
    [EvInvalidate "/app/panda.css" 7; EvCreateSheet 0;
     EvWriteFile "/app/panda.css" "css({ color: 'red' })"] /\
  ~ invalidation_ordered Demo.onDisk
      (call 2 (HHandleHotUpdate "/app/a.tsx" 7) Demo.onDisk).
Proof.
  split; [vm_compute; reflexivity|].
  unfold invalidation_ordered. intros H. vm_compute in H. discriminate.
Qed.

Lemma dependency_change_reloads_in_place_witness :
  (ready Demo.virtual 0 Demo.ctx_a /\
   onChange Demo.virtual = [(0, Demo.sources_a)] /\
   ensureAbsolute Demo.engine "/app/theme.ts" (root Demo.ctx_a) ∈ Demo.sources_a /\
   reloadContext Demo.engine Demo.ctx_a = (Ok tt, Demo.ctx_reloaded)) /\
  let w := Demo.virtual in
  let w' := change "/app/theme.ts" 9 w in
  _ctx w' = _ctx w /\
  initPromise w' = initPromise w /\
  heap w' = <[0 := Demo.ctx_reloaded]> (heap w) /\
  fs w' = fs w /\
  emitted w w' =
    EvReload 0 :: (if bool_decide (outfile w ∈ moduleGraph w)
                   then [EvInvalidate (outfile w) 9] else []) /\
  last_outcome (call 2 HGetCtx w') = Some (2, Ok (VCtx 0)).
Proof.
  assert (Hr : ready Demo.virtual 0 Demo.ctx_a)
    by (split; [|split]; vm_compute; reflexivity).
  assert (Hl : onChange Demo.virtual = [(0, Demo.sources_a)])
    by (vm_compute; reflexivity).
  assert (Hs : ensureAbsolute Demo.engine "/app/theme.ts" (root Demo.ctx_a)
               ∈ Demo.sources_a)
    by (apply (bool_decide_unpack _); vm_compute; exact I).
  assert (Hc : reloadContext Demo.engine Demo.ctx_a = (Ok tt, Demo.ctx_reloaded))
    by reflexivity.
  split; [done|].
  exact (dependency_change_reloads_in_place Demo.virtual 0 Demo.ctx_a
           Demo.ctx_reloaded Demo.sources_a 2 "/app/theme.ts" 9 Hr Hl Hs Hc).
Defined.

(** C4, as worded, fails: after the change of a watched configuration
    file the reload has happened and [_ctx] is the reference it was. *)
Lemma reload_keeps_the_context_reference :
  dependency_hit Demo.virtual "/app/theme.ts" = true /\
  existsb is_reload
    (emitted Demo.virtual (change "/app/theme.ts" 9 Demo.virtual)) = true /\
  ~ reload_changes_identity Demo.virtual "/app/theme.ts" 9.
Proof.
  split; [vm_compute; reflexivity|].
  split; [vm_compute; reflexivity|].
  unfold reload_changes_identity. intros H. apply H. vm_compute. reflexivity.
Qed.

(** With two listeners registered, a change of a watched file has both
    call [reloadContext] before either invalidates. *)
Example two_listeners_reload_before_invalidating :
  onChange Demo.reconfigured = [(0, Demo.sources_a); (0, Demo.sources_a)] /\
  emitted Demo.reconfigured (change "/app/theme.ts" 9 Demo.reconfigured)
  = [EvReload 0; EvReload 0;
     EvInvalidate virtual_css 9; EvInvalidate virtual_css 9].
Proof. split; vm_compute; reflexivity. Qed.

Lemma source_change_invalidates_without_reload_witness :
  ((ready Demo.onDisk 0 Demo.ctx_a /\
    is_Some (files Demo.ctx_a !! "/app/a.tsx") /\
    String.eqb "/app/a.tsx" (outfile Demo.onDisk) = false /\
    outfile Demo.onDisk ∈ moduleGraph Demo.onDisk /\
    (String.eqb (outfile Demo.onDisk) virtual_css = true \/
     writable Demo.engine (outfile Demo.onDisk) = true)) /\
   let w := Demo.onDisk in
   let w' := call 2 (HHandleHotUpdate "/app/a.tsx" 7) w in
   emitted w w' =
     EvInvalidate (outfile w) 7 ::
       (if String.eqb (outfile w) virtual_css then []
        else [EvCreateSheet 0;
              EvWriteFile (outfile w) (css_of Demo.ctx_a (options w))]) /\
   fs w' = (if String.eqb (outfile w) virtual_css then fs w
            else <[outfile w := css_of Demo.ctx_a (options w)]> (fs w)) /\
   _ctx w' = _ctx w /\ initPromise w' = initPromise w /\ heap w' = heap w /\
   existsb is_reload (emitted w w') = false /\
   last_outcome w' = Some (2, Ok VUndefined)) /\
  ((ready Demo.unloaded 0 Demo.ctx_a /\
    is_Some (files Demo.ctx_a !! "/app/a.tsx") /\
    String.eqb "/app/a.tsx" (outfile Demo.unloaded) = false /\
    outfile Demo.unloaded ∉ moduleGraph Demo.unloaded) /\
   let w := Demo.unloaded in
   let w' := call 2 (HHandleHotUpdate "/app/a.tsx" 7) w in
   w' = settle_call 2 (Ok VUndefined) w /\
   emitted w w' = [] /\ fs w' = fs w /\
   existsb is_invalidate (emitted w w') = false /\
   existsb is_write (emitted w w') = false /\
   _ctx w' = _ctx w /\ initPromise w' = initPromise w /\ heap w' = heap w /\
   last_outcome w' = Some (2, Ok VUndefined)).
Proof.
  assert (Hx : is_Some (files Demo.ctx_a !! "/app/a.tsx"))
    by (exists "css({ color: 'red' })"; vm_compute; reflexivity).
  split.
  - assert (Hr : ready Demo.onDisk 0 Demo.ctx_a)
      by (split; [|split]; vm_compute; reflexivity).
    assert (Hf : String.eqb "/app/a.tsx" (outfile Demo.onDisk) = false)
      by (vm_compute; reflexivity).
    assert (Hg : outfile Demo.onDisk ∈ moduleGraph Demo.onDisk)
      by (apply (bool_decide_unpack _); vm_compute; exact I).
    assert (Hw : String.eqb (outfile Demo.onDisk) virtual_css = true \/
                 writable Demo.engine (outfile Demo.onDisk) = true)
      by (right; reflexivity).
    split; [done|].
    exact (proj1 (source_change_invalidates_without_reload Demo.onDisk 0
                    Demo.ctx_a 2 "/app/a.tsx" 7 Hr Hx Hf) Hg Hw).
  - assert (Hr : ready Demo.unloaded 0 Demo.ctx_a)
      by (split; [|split]; vm_compute; reflexivity).
    assert (Hf : String.eqb "/app/a.tsx" (outfile Demo.unloaded) = false)
      by (vm_compute; reflexivity).
    assert (Hg : outfile Demo.unloaded ∉ moduleGraph Demo.unloaded)
      by (apply (bool_decide_unpack _); vm_compute; exact I).
    split; [done|].
    exact (proj2 (source_change_invalidates_without_reload Demo.unloaded 0
                    Demo.ctx_a 2 "/app/a.tsx" 7 Hr Hx Hf) Hg).
Defined.

(** C5, as worded, fails when the host's graph holds no module for the
    outfile: a hot update of the tracked file, which is in no
    DependencySet, invalidates nothing and writes nothing. *)
Lemma hot_update_without_module_does_nothing :
  ready Demo.unloaded 0 Demo.ctx_a /\
  is_Some (files Demo.ctx_a !! "/app/a.tsx") /\
  dependency_hit Demo.unloaded "/app/a.tsx" = false /\
  emitted Demo.unloaded (call 2 (HHandleHotUpdate "/app/a.tsx" 7) Demo.unloaded) = [] /\
  ~ hot_update_regenerates Demo.unloaded 2 "/app/a.tsx" 7.
Proof.
  split; [split; [|split]; vm_compute; reflexivity|].
  split; [exists "css({ color: 'red' })"; vm_compute; reflexivity|].
  split; [vm_compute; reflexivity|].
  split; [vm_compute; reflexivity|].
  intros [H _]. vm_compute in H. discriminate.
Qed.

Lemma irrelevant_change_is_noop_witness :
  (ready Demo.virtual 0 Demo.ctx_a /\
   dependency_hit Demo.virtual "/app/b.css" = false /\
   files Demo.ctx_a !! "/app/b.css" = None) /\
  let w := Demo.virtual in
  change "/app/b.css" 9 w = w /\
  call 2 (HHandleHotUpdate "/app/b.css" 7) w = settle_call 2 (Ok VUndefined) w /\
  emitted w (change "/app/b.css" 9 w) = [] /\
  emitted w (call 2 (HHandleHotUpdate "/app/b.css" 7) w) = [].
Proof.
  assert (Hr : ready Demo.virtual 0 Demo.ctx_a)
    by (split; [|split]; vm_compute; reflexivity).
  assert (Hd : dependency_hit Demo.virtual "/app/b.css" = false)
    by (vm_compute; reflexivity).
  assert (Hx : files Demo.ctx_a !! "/app/b.css" = None)
    by (vm_compute; reflexivity).
  split; [done|].
  exact (irrelevant_change_is_noop Demo.virtual 0 Demo.ctx_a 2 "/app/b.css" 9 7
           Hr Hd Hx).
Defined.

(** ** The further properties at work *)

Lemma failed_initialisation_is_final_witness :
  initPromise Demo.rejected = Some (Rejected (ConfigError "no panda.config")) /\
  ((forall w', step Demo.rejected w' ->
      initPromise w' = Some (Rejected (ConfigError "no panda.config"))) /\
   (forall n h, needs_context (outfile Demo.rejected) h = true ->
      call n h Demo.rejected
      = settle_call n (Throw (ConfigError "no panda.config")) Demo.rejected)).
Proof.
  assert (Hp : initPromise Demo.rejected
               = Some (Rejected (ConfigError "no panda.config")))
    by (vm_compute; reflexivity).
  split; [exact Hp|].
  exact (failed_initialisation_is_final Demo.rejected
           (ConfigError "no panda.config") Hp).
Defined.

Lemma context_is_constructed_at_most_once_witness :
  reachable Demo.onDisk /\
  (count is_loadConfig (log Demo.onDisk) <= 1 /\
   count is_createContext (log Demo.onDisk) <= 1 /\
   length (heap Demo.onDisk) = count is_createContext (log Demo.onDisk) /\
   (count is_loadConfig (log Demo.onDisk) = 1 <-> initPromise Demo.onDisk <> None) /\
   (count is_createContext (log Demo.onDisk) = 1
    <-> initPromise Demo.onDisk = Some Fulfilled)).
Proof.
  assert (Hr : reachable Demo.onDisk)
    by (apply reach_call, reach_settle, reach_call, reach_boot).
  split; [exact Hr|].
  exact (context_is_constructed_at_most_once Demo.onDisk Hr).
Defined.

Lemma context_reference_is_permanent_witness :
  (reachable Demo.virtual /\
   step Demo.virtual (change "/app/theme.ts" 9 Demo.virtual) /\
   _ctx Demo.virtual = Some 0) /\
  let w' := change "/app/theme.ts" 9 Demo.virtual in
  _ctx w' = Some 0 /\ initPromise w' = Some Fulfilled /\
  length (heap w') = length (heap Demo.virtual) /\ 0 < length (heap w').
Proof.
  assert (Hr : reachable Demo.virtual)
    by (apply reach_call, reach_settle, reach_call, reach_boot).
  assert (Hs : step Demo.virtual (change "/app/theme.ts" 9 Demo.virtual))
    by apply step_change.
  assert (Hc : _ctx Demo.virtual = Some 0) by (vm_compute; reflexivity).
  split; [done|].
  exact (context_reference_is_permanent Demo.virtual _ 0 Hr Hs Hc).
Defined.

Lemma getCtx_succeeds_after_init_witness :
  (reachable Demo.onDisk /\ initPromise Demo.onDisk = Some Fulfilled) /\
  exists r c, ready Demo.onDisk r c /\
    call 5 HGetCtx Demo.onDisk = settle_call 5 (Ok (VCtx r)) Demo.onDisk.
Proof.
  assert (Hr : reachable Demo.onDisk)
    by (apply reach_call, reach_settle, reach_call, reach_boot).
  assert (Hp : initPromise Demo.onDisk = Some Fulfilled)
    by (vm_compute; reflexivity).
  split; [done|].
  exact (getCtx_succeeds_after_init Demo.onDisk 5 Hr Hp).
Defined.

Lemma outfile_follows_options_witness :
  reachable Demo.onDisk /\
  (outfile Demo.onDisk = outfile_of (E:=Demo.engine) (options Demo.onDisk) /\
   (truthy_ostr (outfile_opt (options Demo.onDisk)) = false ->
    outfile Demo.onDisk = virtual_css) /\
   (forall f, outfile_opt (options Demo.onDisk) = Some f -> truthy_str f = true ->
      outfile Demo.onDisk
      = ensureAbsolute Demo.engine f (cwd (options Demo.onDisk)))).
Proof.
  assert (Hr : reachable Demo.onDisk)
    by (apply reach_call, reach_settle, reach_call, reach_boot).
  split; [exact Hr|].
  exact (outfile_follows_options Demo.onDisk Hr).
Defined.

Lemma optimizer_runs_on_authored_code_witness :
  (ready Demo.wrapping_optimizing 0 Demo.ctx_empty /\
   addSourceFile Demo.engine (panda Demo.ctx_empty) "/app/b.tsx"
     (transformResult_code (options Demo.wrapping_optimizing) Demo.b_code
                           "/app/b.tsx")
   = (Demo.with_b.1, Demo.with_b.2) /\
   parseSourceFile Demo.engine Demo.with_b.2 "/app/b.tsx"
   = Some "css({ margin: 0 })" /\
   truthy_optimizeJs (optimizeJs (options Demo.wrapping_optimizing)) = true) /\
  let w := Demo.wrapping_optimizing in
  let w' := call 1 (HTransform Demo.b_code "/app/b.tsx") w in
  let c' := if isEmpty Demo.engine "css({ margin: 0 })"
            then set_panda Demo.ctx_empty Demo.with_b.2
            else files_set (set_panda Demo.ctx_empty Demo.with_b.2)
                           "/app/b.tsx" Demo.b_code in
  heap w' = <[0 := c']> (heap w) /\
  last_outcome w' =
    Some (1, Ok (VTransform (tranformPanda Demo.engine c' Demo.b_code "/app/b.tsx"
                               Demo.with_b.1 "css({ margin: 0 })"
                               (optimizeJs (options w))))) /\
  emitted w w' =
    userTransform_events (options w) Demo.b_code "/app/b.tsx"
    ++ [EvAddSourceFile 0 "/app/b.tsx"
          (transformResult_code (options w) Demo.b_code "/app/b.tsx");
        EvOptimize "/app/b.tsx"].
Proof.
  assert (Hr : ready Demo.wrapping_optimizing 0 Demo.ctx_empty)
    by (split; [|split]; vm_compute; reflexivity).
  assert (Ha : addSourceFile Demo.engine (panda Demo.ctx_empty) "/app/b.tsx"
                 (transformResult_code (options Demo.wrapping_optimizing)
                                       Demo.b_code "/app/b.tsx")
               = (Demo.with_b.1, Demo.with_b.2)) by (vm_compute; reflexivity).
  assert (Hp : parseSourceFile Demo.engine Demo.with_b.2 "/app/b.tsx"
               = Some "css({ margin: 0 })") by (vm_compute; reflexivity).
  assert (Ho : truthy_optimizeJs (optimizeJs (options Demo.wrapping_optimizing))
               = true)
    by (vm_compute; reflexivity).
  split; [done|].
  exact (optimizer_runs_on_authored_code Demo.wrapping_optimizing 0
           Demo.ctx_empty 1 Demo.b_code "/app/b.tsx" _ _ "css({ margin: 0 })"
           Hr Ha Hp Ho).
Defined.

(** The same run, read off: the user transform wrapped the text for the
    engine, the optimizer was handed the text as authored. *)
Example optimizer_after_user_transform :
  let w' := call 1 (HTransform "{ margin: 0 }" "/app/b.tsx")
              Demo.wrapping_optimizing in
  emitted Demo.wrapping_optimizing w'
  = [EvUserTransform "/app/b.tsx" "{ margin: 0 }";
     EvAddSourceFile 0 "/app/b.tsx" "css({ margin: 0 })";
     EvOptimize "/app/b.tsx"] /\
  last_outcome w' = Some (1, Ok (VTransform (TRObject "{ margin: 0 }" None))).
Proof. cbv zeta. split; vm_compute; reflexivity. Qed.

Lemma transform_never_forgets_a_file_witness :
  ready Demo.virtual 0 Demo.ctx_a /\
  exists c',
    heap (call 2 (HTransform Demo.bare_code "/app/a.tsx") Demo.virtual) !! 0
      = Some c' /\
    (forall f, is_Some (files Demo.ctx_a !! f) -> is_Some (files c' !! f)) /\
    (forall f, f <> "/app/a.tsx" -> files c' !! f = files Demo.ctx_a !! f) /\
    (no_usage (parseSourceFile Demo.engine
       (addSourceFile Demo.engine (panda Demo.ctx_a) "/app/a.tsx"
          (transformResult_code (options Demo.virtual) Demo.bare_code
                                "/app/a.tsx")).2 "/app/a.tsx") = true ->
     files c' = files Demo.ctx_a).
Proof.
  assert (Hr : ready Demo.virtual 0 Demo.ctx_a)
    by (split; [|split]; vm_compute; reflexivity).
  split; [exact Hr|].
  exact (transform_never_forgets_a_file Demo.virtual 0 Demo.ctx_a 2
           Demo.bare_code "/app/a.tsx" Hr).
Defined.

(** The same run, read off: the engine now holds the text without a
    styling call, [files] still the text that had one. *)
Example stale_file_record :
  emitted Demo.virtual
          (call 2 (HTransform "const a = 1" "/app/a.tsx") Demo.virtual)
  = [EvAddSourceFile 0 "/app/a.tsx" "const a = 1"] /\
  (files <$> heap (call 2 (HTransform "const a = 1" "/app/a.tsx") Demo.virtual) !! 0)
  = Some {[ "/app/a.tsx" := "css({ color: 'red' })" ]}.
Proof. split; vm_compute; reflexivity. Qed.

Lemma configureServer_installs_the_watch_witness :
  (ready Demo.wrapping 0 Demo.ctx_empty /\
   (String.eqb (outfile Demo.wrapping) virtual_css = true \/
    writable Demo.engine (outfile Demo.wrapping) = true) /\
   codegen Demo.engine (panda Demo.ctx_empty) = Ok "codegen done") /\
  let w := Demo.wrapping in
  let c := Demo.ctx_empty in
  let w' := call 1 HConfigureServer w in
  last_outcome w' = Some (1, Ok VUndefined) /\
  onChange w' = onChange w ++ [(0, sources_of c)] /\
  watcher w' = watcher w ∪ sources_of c /\
  heap w' = heap w /\
  (forall file,
     In file (path (panda_conf Demo.engine (panda c))
              :: nullish (dependencies (panda_conf Demo.engine (panda c))) []
              ++ nullish (config_dependencies (panda_config Demo.engine (panda c))) []) ->
     dependency_hit w' file = true) /\
  (String.eqb (outfile w) virtual_css = true ->
   fs w' = fs w /\ emitted w w' = [EvCodegen 0]).
Proof.
  assert (Hr : ready Demo.wrapping 0 Demo.ctx_empty)
    by (split; [|split]; vm_compute; reflexivity).
  assert (Hw : String.eqb (outfile Demo.wrapping) virtual_css = true \/
               writable Demo.engine (outfile Demo.wrapping) = true)
    by (left; vm_compute; reflexivity).
  assert (Hg : codegen Demo.engine (panda Demo.ctx_empty) = Ok "codegen done")
    by reflexivity.
  split; [done|].
  exact (configureServer_installs_the_watch Demo.wrapping 0 Demo.ctx_empty 1
           "codegen done" Hr Hw Hg).
Defined.

Lemma configureServer_codegen_failure_witness :
  (ready Demo.no_codegen 0 Demo.ctx_empty /\
   (String.eqb (outfile Demo.no_codegen) virtual_css = true \/
    writable (Demo.faulty false true) (outfile Demo.no_codegen) = true) /\
   codegen (Demo.faulty false true) (panda Demo.ctx_empty)
   = Throw (CodegenError "outdir is a file")) /\
  let w := Demo.no_codegen in
  let w' := call 1 HConfigureServer w in
  last_outcome w' = Some (1, Throw (CodegenError "outdir is a file")) /\
  onChange w' = onChange w /\ watcher w' = watcher w /\
  fs w' = (if String.eqb (outfile w) virtual_css then fs w
           else <[outfile w := css_of (E:=Demo.faulty false true)
                                  Demo.ctx_empty (options w)]> (fs w)) /\
  emitted w w' =
    (if String.eqb (outfile w) virtual_css then []
     else [EvCreateSheet 0;
           EvWriteFile (outfile w)
             (css_of (E:=Demo.faulty false true) Demo.ctx_empty (options w))])
    ++ [EvCodegen 0].
Proof.
  assert (Hr : ready Demo.no_codegen 0 Demo.ctx_empty)
    by (split; [|split]; vm_compute; reflexivity).
  assert (Hw : String.eqb (outfile Demo.no_codegen) virtual_css = true \/
               writable (Demo.faulty false true) (outfile Demo.no_codegen) = true)
    by (right; vm_compute; reflexivity).
  assert (Hg : codegen (Demo.faulty false true) (panda Demo.ctx_empty)
               = Throw (CodegenError "outdir is a file")) by reflexivity.
  split; [done|].
  exact (configureServer_codegen_failure Demo.no_codegen 0 Demo.ctx_empty 1
           (CodegenError "outdir is a file") Hr Hw Hg).
Defined.

Lemma configureServer_write_failure_witness :
  (ready Demo.readonly_empty 0 Demo.ctx_empty /\
   String.eqb (outfile Demo.readonly_empty) virtual_css = false /\
   writable (Demo.faulty true true) (outfile Demo.readonly_empty) = false) /\
  let w := Demo.readonly_empty in
  let w' := call 1 HConfigureServer w in
  last_outcome w' = Some (1, Throw (WriteError (outfile w))) /\
  emitted w w' = [EvCreateSheet 0] /\
  fs w' = fs w /\ onChange w' = onChange w /\ watcher w' = watcher w.
Proof.
  assert (Hr : ready Demo.readonly_empty 0 Demo.ctx_empty)
    by (split; [|split]; vm_compute; reflexivity).
  assert (Hv : String.eqb (outfile Demo.readonly_empty) virtual_css = false)
    by (vm_compute; reflexivity).
  assert (Hw : writable (Demo.faulty true true) (outfile Demo.readonly_empty) = false)
    by (vm_compute; reflexivity).
  split; [done|].
  exact (configureServer_write_failure Demo.readonly_empty 0 Demo.ctx_empty 1
           Hr Hv Hw).
Defined.

Lemma failed_reload_skips_invalidation_witness :
  (heap Demo.no_reload_loaded !! 0 = Some Demo.ctx_empty /\
   onChange Demo.no_reload_loaded = [(0, Demo.sources_a)] /\
   ensureAbsolute (Demo.faulty true false) "/app/theme.ts" (root Demo.ctx_empty)
     ∈ Demo.sources_a /\
   reloadContext (Demo.faulty true false) Demo.ctx_empty
   = (Throw (ReloadError "config does not parse"), Demo.ctx_empty)) /\
  outfile Demo.no_reload_loaded ∈ moduleGraph Demo.no_reload_loaded /\
  let w := Demo.no_reload_loaded in
  let w' := change "/app/theme.ts" 9 w in
  emitted w w' = [EvReload 0] /\
  heap w' = <[0 := Demo.ctx_empty]> (heap w) /\
  _ctx w' = _ctx w /\ fs w' = fs w /\
  (change_listener (0, Demo.sources_a) "/app/theme.ts" 9 w).1
  = Throw (ReloadError "config does not parse").
Proof.
  assert (Hh : heap Demo.no_reload_loaded !! 0 = Some Demo.ctx_empty)
    by (vm_compute; reflexivity).
  assert (Hl : onChange Demo.no_reload_loaded = [(0, Demo.sources_a)])
    by (vm_compute; reflexivity).
  assert (Hs : ensureAbsolute (Demo.faulty true false) "/app/theme.ts"
                 (root Demo.ctx_empty) ∈ Demo.sources_a)
    by (apply (bool_decide_unpack _); vm_compute; exact I).
  assert (Hc : reloadContext (Demo.faulty true false) Demo.ctx_empty
               = (Throw (ReloadError "config does not parse"), Demo.ctx_empty))
    by reflexivity.
  assert (Hg : outfile Demo.no_reload_loaded ∈ moduleGraph Demo.no_reload_loaded)
    by (apply (bool_decide_unpack _); vm_compute; exact I).
  split; [done|]. split; [exact Hg|].
  exact (failed_reload_skips_invalidation Demo.no_reload_loaded 0 Demo.ctx_empty
           Demo.ctx_empty Demo.sources_a (ReloadError "config does not parse")
           "/app/theme.ts" 9 Hh Hl Hs Hc).
Defined.

Lemma hot_update_invalidates_despite_failed_write_witness :
  (ready Demo.readonly 0 Demo.ctx_a /\
   String.eqb "/app/a.tsx" (outfile Demo.readonly) = false /\
   is_Some (files Demo.ctx_a !! "/app/a.tsx") /\
   outfile Demo.readonly ∈ moduleGraph Demo.readonly /\
   String.eqb (outfile Demo.readonly) virtual_css = false /\
   writable (Demo.faulty true true) (outfile Demo.readonly) = false) /\
  let w := Demo.readonly in
  let w' := call 2 (HHandleHotUpdate "/app/a.tsx" 7) w in
  last_outcome w' = Some (2, Throw (WriteError (outfile w))) /\
  emitted w w' = [EvInvalidate (outfile w) 7; EvCreateSheet 0] /\
  fs w' = fs w.
Proof.
  assert (Hr : ready Demo.readonly 0 Demo.ctx_a)
    by (split; [|split]; vm_compute; reflexivity).
  assert (Hf : String.eqb "/app/a.tsx" (outfile Demo.readonly) = false)
    by (vm_compute; reflexivity).
  assert (Hx : is_Some (files Demo.ctx_a !! "/app/a.tsx"))
    by (exists "css({ color: 'red' })"; vm_compute; reflexivity).
  assert (Hg : outfile Demo.readonly ∈ moduleGraph Demo.readonly)
    by (apply (bool_decide_unpack _); vm_compute; exact I).
  assert (Hv : String.eqb (outfile Demo.readonly) virtual_css = false)
    by (vm_compute; reflexivity).
  assert (Hw : writable (Demo.faulty true true) (outfile Demo.readonly) = false)
    by (vm_compute; reflexivity).
  split; [done|].
  exact (hot_update_invalidates_despite_failed_write Demo.readonly 0 Demo.ctx_a 2
           "/app/a.tsx" 7 Hr Hf Hx Hg Hv Hw).
Defined.

Lemma hot_update_never_touches_context_witness :
  ready Demo.onDisk 0 Demo.ctx_a /\
  let w := Demo.onDisk in
  let w' := call 2 (HHandleHotUpdate "/app/a.tsx" 7) w in
  heap w' = heap w /\
  (options w', outfile w', _ctx w', initPromise w') =
    (options w, outfile w, _ctx w, initPromise w) /\
  (watcher w', onChange w', moduleGraph w') = (watcher w, onChange w, moduleGraph w) /\
  existsb is_reload (emitted w w') = false /\
  (String.eqb "/app/a.tsx" (outfile w) = true -> emitted w w' = [] /\ fs w' = fs w).
Proof.
  assert (Hr : ready Demo.onDisk 0 Demo.ctx_a)
    by (split; [|split]; vm_compute; reflexivity).
  split; [exact Hr|].
  exact (hot_update_never_touches_context Demo.onDisk 0 Demo.ctx_a 2
           "/app/a.tsx" 7 Hr).
Defined.

Lemma configResolved_during_load_witness :
  (initPromise Demo.fresh = None /\ waiting Demo.fresh = [] /\
   truthy_str (cwd (options Demo.fresh)) = false) /\
  let d := config_dir (E:=Demo.engine) (Some "/proj/vite.config.ts") "/proj" in
  let w := settle (Ok Demo.conf)
             (call 1 (HConfigResolved (Some "/proj/vite.config.ts") "/proj")
                (call 0 HGetCtx Demo.fresh)) in
  emitted Demo.fresh w =
    [EvLoadConfig (cwd (options Demo.fresh)) (configPath (options Demo.fresh));
     EvCreateContext (length (heap Demo.fresh))] /\
  heap w = heap Demo.fresh
           ++ [createContext Demo.engine d (assign_config_cwd Demo.conf d)] /\
  cwd (options w) = d /\
  settled w = settled Demo.fresh
              ++ [(1, Ok VUndefined); (0, Ok (VCtx (length (heap Demo.fresh))))] /\
  (exists conf', heap w = heap Demo.fresh ++ [createContext Demo.engine d conf'] /\
     config_cwd (config conf') = d /\
     path conf' = path Demo.conf /\
     dependencies conf' = dependencies Demo.conf /\
     config_dependencies (config conf') = config_dependencies (config Demo.conf)).
Proof.
  assert (Hp : initPromise Demo.fresh = None) by reflexivity.
  assert (Hw : waiting Demo.fresh = []) by reflexivity.
  assert (Hc : truthy_str (cwd (options Demo.fresh)) = false)
    by (vm_compute; reflexivity).
  split; [done|].
  exact (configResolved_during_load Demo.fresh Demo.conf
           (Some "/proj/vite.config.ts") "/proj" Hp Hw Hc).
Defined.

(** The same race, read off: the configuration was loaded for the
    empty cwd, the context has [/proj] as its root and holds the loaded
    configuration with [/proj] as its [config.cwd], which was empty as
    loaded. *)
Example configResolved_race :
  let w := settle (Ok Demo.conf)
             (call 1 (HConfigResolved (Some "/proj/vite.config.ts") "/proj")
                (call 0 HGetCtx Demo.fresh)) in
  log w = [EvLoadConfig "" None; EvCreateContext 0] /\
  (root <$> heap w !! 0) = Some "/proj" /\
  ((fun c => config_cwd (panda_config Demo.engine (panda c))) <$> heap w !! 0)
  = Some "/proj" /\
  ((fun c => panda_conf Demo.engine (panda c)) <$> heap w !! 0)
  = Some {| path := "/app/panda.config.ts";
            dependencies := Some ["/app/theme.ts"];
            config := {| config_cwd := "/proj"; config_dependencies := None |} |} /\
  config_cwd (config Demo.conf) = "".
Proof. cbv zeta. repeat split; vm_compute; reflexivity. Qed.

Lemma suspended_hooks_resume_in_order_witness :
  (initPromise Demo.queued = Some Pending /\
   forallb (fun ck : nat * Cont => runs_to_end ck.2) (waiting Demo.queued) = true) /\
  let w' := settle (Ok Demo.conf) Demo.queued in
  waiting w' = [] /\
  initPromise w' <> Some Pending /\
  exists vs, settled w' = settled Demo.queued ++ vs /\
             map fst vs = map fst (waiting Demo.queued).
Proof.
  assert (Hp : initPromise Demo.queued = Some Pending)
    by (vm_compute; reflexivity).
  assert (Hk : forallb (fun ck : nat * Cont => runs_to_end ck.2)
                 (waiting Demo.queued) = true)
    by (vm_compute; reflexivity).
  split; [done|].
  exact (suspended_hooks_resume_in_order Demo.queued (Ok Demo.conf) Hp Hk).
Defined.

(** The same queue, read off: two revisions of [/app/a.tsx] were handed
    to [transform] during the load; they are registered and optimised
    in the order they came, both calls are answered in that order, and
    the context ends up holding the later revision. *)
Example queued_transforms_apply_in_order :
  let w' := settle (Ok Demo.conf) Demo.queued in
  map fst (waiting Demo.queued) = [0; 1] /\
  log w' = [EvLoadConfig "" None; EvCreateContext 0;
            EvAddSourceFile 0 "/app/a.tsx" "css({ color: 'red' })";
            EvOptimize "/app/a.tsx";
            EvAddSourceFile 0 "/app/a.tsx" "css({ color: 'blue' })";
            EvOptimize "/app/a.tsx"] /\
  map fst (settled w') = [0; 1] /\
  (files <$> heap w' !! 0) = Some {[ "/app/a.tsx" := "css({ color: 'blue' })" ]}.
Proof. cbv zeta. repeat split; vm_compute; reflexivity. Qed.
